(** * BioFeedback-VR: the biofeedback server and its sensor simulation

    A shallow embedding of [PythonBiofeedbackServer/src/sensors.py],
    [sim_connector.py] and [biofeedback_server.py].

    Python floats are modelled as real numbers extended with the three
    special values a float can take ([inf], [-inf], [nan]); rounding and
    overflow of finite arithmetic are not modelled.  Comparisons, clamps
    and the treatment of the special values are therefore those of the
    code, while a value built by several arithmetic operations (a sum, a
    mean, a standard deviation) is the one the code computes up to
    rounding.  Texts are strings of 8-bit characters, and [str.lower] is a
    parameter of the server's model, with its behaviour on ASCII texts as
    the instance of the runs at the end.

    Module-level globals of [sensors.py] become the fields of the record
    [sensors]; the attributes of a [BiofeedbackServer] instance become the
    record [server].  Functions that read or assign globals, or that can
    raise, live in the monad [Py].

    The coroutines of the server are modelled one at a time: what another
    task does while one of them awaits is not part of the model.  Calls of
    [logger] are left out, except where building the logged text can
    raise. *)

From Stdlib Require Import Reals Lra Lia List String Bool Arith.
From stdpp Require Import base option list gmap sets.
Import ListNotations.

Local Open Scope R_scope.

(** ** Python floats *)

Module PyFloat.

Inductive pyfloat : Type :=
| Fin (r : R)
| PInf
| NInf
| NaN.

Definition Rltb (a b : R) : bool := if Rlt_dec a b then true else false.
Definition Rleb (a b : R) : bool := if Rle_dec a b then true else false.
Definition Reqb (a b : R) : bool := if Req_dec_T a b then true else false.

(** [a < b]; every comparison with [nan] is false. *)
Definition flt (a b : pyfloat) : bool :=
  match a, b with
  | NaN, _ | _, NaN => false
  | Fin x, Fin y => Rltb x y
  | NInf, NInf => false
  | NInf, _ => true
  | _, NInf => false
  | PInf, _ => false
  | Fin _, PInf => true
  end.

(** [a <= b]. *)
Definition fle (a b : pyfloat) : bool :=
  match a, b with
  | NaN, _ | _, NaN => false
  | Fin x, Fin y => Rleb x y
  | NInf, _ => true
  | _, PInf => true
  | PInf, _ => false
  | Fin _, NInf => false
  end.

Definition fgt (a b : pyfloat) : bool := flt b a.
Definition fge (a b : pyfloat) : bool := fle b a.

Definition fopp (a : pyfloat) : pyfloat :=
  match a with
  | Fin x => Fin (- x)
  | PInf => NInf
  | NInf => PInf
  | NaN => NaN
  end.

Definition fadd (a b : pyfloat) : pyfloat :=
  match a, b with
  | NaN, _ | _, NaN => NaN
  | Fin x, Fin y => Fin (x + y)
  | PInf, NInf | NInf, PInf => NaN
  | PInf, _ | _, PInf => PInf
  | NInf, _ | _, NInf => NInf
  end.

Definition fsub (a b : pyfloat) : pyfloat := fadd a (fopp b).

(** The infinity carrying the sign of [x] times the sign [pos];
    [nan] when [x] is zero. *)
Definition signed_inf (pos : bool) (x : R) : pyfloat :=
  if Rltb 0 x then (if pos then PInf else NInf)
  else if Rltb x 0 then (if pos then NInf else PInf)
  else NaN.

Definition fmul (a b : pyfloat) : pyfloat :=
  match a, b with
  | NaN, _ | _, NaN => NaN
  | Fin x, Fin y => Fin (x * y)
  | PInf, Fin y => signed_inf true y
  | NInf, Fin y => signed_inf false y
  | Fin x, PInf => signed_inf true x
  | Fin x, NInf => signed_inf false x
  | PInf, PInf | NInf, NInf => PInf
  | PInf, NInf | NInf, PInf => NInf
  end.

(** Division by a divisor known not to be zero (every literal divisor of
    the source); a zero divisor is handled by [truediv] below. *)
Definition fdiv (a b : pyfloat) : pyfloat :=
  match a, b with
  | NaN, _ | _, NaN => NaN
  | Fin x, Fin y => Fin (x / y)
  | Fin _, _ => Fin 0
  | PInf, Fin y => if Rltb y 0 then NInf else PInf
  | NInf, Fin y => if Rltb y 0 then PInf else NInf
  | _, _ => NaN
  end.

Definition fsin (a : pyfloat) : pyfloat :=
  match a with
  | Fin x => Fin (sin x)
  | _ => NaN
  end.

Definition fabs (a : pyfloat) : pyfloat :=
  match a with
  | Fin x => Fin (Rabs x)
  | PInf | NInf => PInf
  | NaN => NaN
  end.

(** The builtins [min(a, b)] and [max(a, b)]: the first argument is kept
    unless the second is strictly smaller (resp. larger). *)
Definition fmin (a b : pyfloat) : pyfloat := if flt b a then b else a.
Definition fmax (a b : pyfloat) : pyfloat := if fgt b a then b else a.

Fixpoint fsum (l : list pyfloat) (acc : pyfloat) : pyfloat :=
  match l with
  | [] => acc
  | x :: l' => fsum l' (fadd acc x)
  end.

Definition of_nat (n : nat) : pyfloat := Fin (INR n).

Definition is_zero (a : pyfloat) : bool :=
  match a with
  | Fin x => Reqb x 0
  | _ => false
  end.

End PyFloat.
Export PyFloat.

Declare Scope pf_scope.
Delimit Scope pf_scope with pf.
Bind Scope pf_scope with pyfloat.
Infix "+" := fadd : pf_scope.
Infix "-" := fsub : pf_scope.
Infix "*" := fmul : pf_scope.
Infix "/" := fdiv : pf_scope.
Infix "<?" := flt : pf_scope.
Infix "<=?" := fle : pf_scope.
Infix ">?" := fgt : pf_scope.
Infix ">=?" := fge : pf_scope.

(** [clamp] of sensors.py. *)
Definition clamp (value min_val max_val : pyfloat) : pyfloat :=
  fmax min_val (fmin value max_val).

(** [clamp] over the reals, as the specification writes it. *)
Definition clampR (x lo hi : R) : R := Rmax lo (Rmin x hi).

(** ** Exceptions and the monad of Python computations *)

Inductive exn : Type :=
| ValueError
| TypeError
| ZeroDivisionError
| RuntimeError
| IndexError
| AttributeError
| OverflowError
| JSONDecodeError
| UnicodeDecodeError
| RecursionError
| ConnectionClosed
| OtherException.

Inductive result (A : Type) : Type :=
| Ok (a : A)
| Raise (e : exn).
Arguments Ok {A} a.
Arguments Raise {A} e.

(** A computation over the mutable state [S]: assignments made before an
    exception is raised stay in the state. *)
Definition Py (S A : Type) : Type := S -> result A * S.

Definition ret {S A} (a : A) : Py S A := fun s => (Ok a, s).
Definition raise {S A} (e : exn) : Py S A := fun s => (Raise e, s).
Definition bind {S A B} (c : Py S A) (k : A -> Py S B) : Py S B :=
  fun s => match c s with
           | (Ok a, s') => k a s'
           | (Raise e, s') => (Raise e, s')
           end.
(** [try: c except ...: h]; [h] returns [None] for an exception that no
    clause matches. *)
Definition try_except {S A} (c : Py S A) (h : exn -> option (Py S A))
  : Py S A :=
  fun s => match c s with
           | (Ok a, s') => (Ok a, s')
           | (Raise e, s') =>
               match h e with
               | Some k => k s'
               | None => (Raise e, s')
               end
           end.
Definition gets {S A} (f : S -> A) : Py S A := fun s => (Ok (f s), s).
Definition modify {S} (f : S -> S) : Py S unit := fun s => (Ok tt, f s).

Notation "'do' x <- c ; k" := (bind c (fun x => k))
  (at level 10, x name, c at level 100, k at level 200).
Notation "'do_' c ; k" := (bind c (fun _ => k))
  (at level 10, c at level 100, k at level 200).

(** [/] on Python floats with a divisor that is not a literal:
    a zero divisor raises. *)
Definition truediv {S} (a b : pyfloat) : Py S pyfloat :=
  if is_zero b then raise ZeroDivisionError else ret (a / b)%pf.

(** [x ** 0.5]: a negative finite base gives a complex number, which the
    comparison inside the following [clamp] rejects with a TypeError (a
    variance is never negative, so [get_hrv] never gets there). *)
Definition pow_half {S} (x : pyfloat) : Py S pyfloat :=
  match x with
  | Fin r => if Rltb r 0 then raise TypeError else ret (Fin (sqrt r))
  | PInf | NInf => ret PInf
  | NaN => ret NaN
  end.

(** A list comprehension whose element expression can raise. *)
Fixpoint mapM {S A B} (f : A -> Py S B) (l : list A) : Py S (list B) :=
  match l with
  | [] => ret []
  | x :: l' =>
      do y <- f x;
      do ys <- mapM f l';
      ret (y :: ys)
  end.

(** [l[i]] for a non-negative index. *)
Definition index {S A} (l : list A) (i : nat) : Py S A :=
  match nth_error l i with
  | Some x => ret x
  | None => raise IndexError
  end.

(** ** sensors.py: the module globals *)

Record baseline_sample : Type := BaselineSample {
  bs_time : pyfloat;
  bs_hr : pyfloat;
  bs_eda : pyfloat;
  bs_hrv : pyfloat
}.

Record sensors : Type := Sensors {
  _current_time : pyfloat;
  _scenario : string;
  _hr_history : list pyfloat;
  _baseline_computed : bool;
  _baseline_hr : pyfloat;
  _baseline_eda : pyfloat;
  _baseline_hrv : pyfloat;
  _baseline_samples : list baseline_sample;
  (** number of draws made so far from numpy's global generator *)
  rng_calls : nat
}.

(** Globals that no function of the module assigns. *)
Definition _base_hr : pyfloat := Fin 75.
Definition _base_eda : pyfloat := Fin 2.
Definition _hrv_window_size : nat := 20.
Definition _baseline_window_seconds : pyfloat := Fin 60.
Definition _resting_period_seconds : pyfloat := Fin 180.

(** The module as first imported. *)
Definition sensors_init : sensors :=
  Sensors (Fin 0) "mixed" [] false (Fin 75) (Fin 2) (Fin 50) [] 0.

Definition set_current_time (t : pyfloat) (s : sensors) : sensors :=
  Sensors t (_scenario s) (_hr_history s) (_baseline_computed s)
    (_baseline_hr s) (_baseline_eda s) (_baseline_hrv s)
    (_baseline_samples s) (rng_calls s).
Definition set_scenario_global (sc : string) (s : sensors) : sensors :=
  Sensors (_current_time s) sc (_hr_history s) (_baseline_computed s)
    (_baseline_hr s) (_baseline_eda s) (_baseline_hrv s)
    (_baseline_samples s) (rng_calls s).
Definition set_hr_history (h : list pyfloat) (s : sensors) : sensors :=
  Sensors (_current_time s) (_scenario s) h (_baseline_computed s)
    (_baseline_hr s) (_baseline_eda s) (_baseline_hrv s)
    (_baseline_samples s) (rng_calls s).
Definition set_baseline_samples (l : list baseline_sample) (s : sensors)
  : sensors :=
  Sensors (_current_time s) (_scenario s) (_hr_history s)
    (_baseline_computed s) (_baseline_hr s) (_baseline_eda s)
    (_baseline_hrv s) l (rng_calls s).
Definition set_baseline_computed (c : bool) (s : sensors) : sensors :=
  Sensors (_current_time s) (_scenario s) (_hr_history s) c
    (_baseline_hr s) (_baseline_eda s) (_baseline_hrv s)
    (_baseline_samples s) (rng_calls s).
Definition set_baseline_hr (v : pyfloat) (s : sensors) : sensors :=
  Sensors (_current_time s) (_scenario s) (_hr_history s)
    (_baseline_computed s) v (_baseline_eda s) (_baseline_hrv s)
    (_baseline_samples s) (rng_calls s).
Definition set_baseline_eda (v : pyfloat) (s : sensors) : sensors :=
  Sensors (_current_time s) (_scenario s) (_hr_history s)
    (_baseline_computed s) (_baseline_hr s) v (_baseline_hrv s)
    (_baseline_samples s) (rng_calls s).
Definition set_baseline_hrv (v : pyfloat) (s : sensors) : sensors :=
  Sensors (_current_time s) (_scenario s) (_hr_history s)
    (_baseline_computed s) (_baseline_hr s) (_baseline_eda s) v
    (_baseline_samples s) (rng_calls s).
Definition set_rng_calls (n : nat) (s : sensors) : sensors :=
  Sensors (_current_time s) (_scenario s) (_hr_history s)
    (_baseline_computed s) (_baseline_hr s) (_baseline_eda s)
    (_baseline_hrv s) (_baseline_samples s) n.

(** ** sensors.py: signal generation *)

Section Simulation.

#[local] Set Default Proof Using "Type".

(** [np.random.normal]: the value returned by the [n]-th draw of the
    process, for the location and scale it is asked with.  Nothing is
    assumed about it. *)
Variable normal_draw : nat -> pyfloat -> pyfloat -> pyfloat.

(** [np.random.normal(loc, scale)] rejects a negative scale. *)
Definition np_random_normal (loc scale : pyfloat) : Py sensors pyfloat :=
  if (scale <? Fin 0)%pf then raise ValueError
  else
    do n <- gets rng_calls;
    do_ modify (set_rng_calls (S n));
    ret (normal_draw n loc scale).

Definition np_pi : pyfloat := Fin PI.

(** The signal components chosen by the scenario branch of [get_hr]:
    [(base, slow_variation, fast_variation, noise)]. *)
Definition hr_components (sc : string) (t : pyfloat)
  : Py sensors (pyfloat * pyfloat * pyfloat * pyfloat) :=
  if String.eqb sc "baseline" then
    let base := _base_hr in
    let slow_variation := (Fin 3 * fsin (Fin 2 * np_pi * t / Fin 45))%pf in
    let fast_variation := (Fin 2 * fsin (Fin 2 * np_pi * t / Fin 12))%pf in
    do noise <- np_random_normal (Fin 0) (Fin 1.5);
    ret (base, slow_variation, fast_variation, noise)
  else if String.eqb sc "stress_buildup" then
    let stress_factor := fmin (t / Fin 30)%pf (Fin 1) in
    let base := (_base_hr + stress_factor * Fin 20)%pf in
    let slow_variation := (Fin 2 * fsin (Fin 2 * np_pi * t / Fin 30))%pf in
    let fast_variation := (Fin 3 * fsin (Fin 2 * np_pi * t / Fin 8))%pf in
    do noise <- np_random_normal (Fin 0) (Fin 2 + stress_factor)%pf;
    ret (base, slow_variation, fast_variation, noise)
  else if String.eqb sc "recovery" then
    if (t <? Fin 10)%pf then
      let stress_factor := (Fin 1 - (t / Fin 10))%pf in
      let base := (_base_hr + stress_factor * Fin 15)%pf in
      let slow_variation := (Fin 3 * fsin (Fin 2 * np_pi * t / Fin 25))%pf in
      let fast_variation := (Fin 2 * fsin (Fin 2 * np_pi * t / Fin 10))%pf in
      do noise <- np_random_normal (Fin 0) (Fin 2);
      ret (base, slow_variation, fast_variation, noise)
    else
      let base := _base_hr in
      let slow_variation := (Fin 2 * fsin (Fin 2 * np_pi * t / Fin 40))%pf in
      let fast_variation := (Fin 1.5 * fsin (Fin 2 * np_pi * t / Fin 12))%pf in
      do noise <- np_random_normal (Fin 0) (Fin 1.2);
      ret (base, slow_variation, fast_variation, noise)
  else
    if (t <? Fin 20)%pf then
      let base := _base_hr in
      let slow_variation := (Fin 3 * fsin (Fin 2 * np_pi * t / Fin 45))%pf in
      let fast_variation := (Fin 2 * fsin (Fin 2 * np_pi * t / Fin 12))%pf in
      do noise <- np_random_normal (Fin 0) (Fin 1.5);
      ret (base, slow_variation, fast_variation, noise)
    else if (t <? Fin 40)%pf then
      let stress_factor := ((t - Fin 20) / Fin 20)%pf in
      let base := (_base_hr + stress_factor * Fin 25)%pf in
      let slow_variation := (Fin 4 * fsin (Fin 2 * np_pi * t / Fin 20))%pf in
      let fast_variation := (Fin 3 * fsin (Fin 2 * np_pi * t / Fin 6))%pf in
      do noise <- np_random_normal (Fin 0) (Fin 2.5 + stress_factor)%pf;
      ret (base, slow_variation, fast_variation, noise)
    else
      let recovery_factor := fmin ((t - Fin 40) / Fin 20)%pf (Fin 1) in
      let base := (_base_hr + (Fin 1 - recovery_factor) * Fin 20)%pf in
      let slow_variation := (Fin 2 * fsin (Fin 2 * np_pi * t / Fin 35))%pf in
      let fast_variation := (Fin 2 * fsin (Fin 2 * np_pi * t / Fin 12))%pf in
      do noise <- np_random_normal (Fin 0) (Fin 1.8);
      ret (base, slow_variation, fast_variation, noise).

(** [l[-n:]] for a list longer than [n]. *)
Definition last_n {A} (n : nat) (l : list A) : list A :=
  drop (length l - n) l.

Definition get_hr : Py sensors pyfloat :=
  do t <- gets _current_time;
  do sc <- gets _scenario;
  do parts <- hr_components sc t;
  let '(base, slow_variation, fast_variation, noise) := parts in
  let hr := (base + slow_variation + fast_variation + noise)%pf in
  let hr := clamp hr (Fin 50) (Fin 180) in
  do_ modify (fun s => set_hr_history (_hr_history s ++ [hr]) s);
  do h <- gets _hr_history;
  do_ (if (_hrv_window_size <? length h)%nat
       then modify (set_hr_history (last_n _hrv_window_size h))
       else ret tt);
  ret hr.

(** [(base, slow_variation, medium_variation, noise)] of [get_eda]. *)
Definition eda_components (sc : string) (t : pyfloat)
  : Py sensors (pyfloat * pyfloat * pyfloat * pyfloat) :=
  if String.eqb sc "baseline" then
    let base := _base_eda in
    let slow_variation := (Fin 0.3 * fsin (Fin 2 * np_pi * t / Fin 60))%pf in
    let medium_variation := (Fin 0.2 * fsin (Fin 2 * np_pi * t / Fin 25))%pf in
    do noise <- np_random_normal (Fin 0) (Fin 0.1);
    ret (base, slow_variation, medium_variation, noise)
  else if String.eqb sc "stress_buildup" then
    let stress_factor := fmin (t / Fin 45)%pf (Fin 1) in
    let base := (_base_eda + stress_factor * Fin 2)%pf in
    let slow_variation := (Fin 0.4 * fsin (Fin 2 * np_pi * t / Fin 40))%pf in
    let medium_variation := (Fin 0.3 * fsin (Fin 2 * np_pi * t / Fin 15))%pf in
    do noise <- np_random_normal (Fin 0) (Fin 0.15 + stress_factor * Fin 0.1)%pf;
    ret (base, slow_variation, medium_variation, noise)
  else if String.eqb sc "recovery" then
    if (t <? Fin 20)%pf then
      let stress_factor := (Fin 1 - (t / Fin 20))%pf in
      let base := (_base_eda + stress_factor * Fin 1.8)%pf in
      let slow_variation := (Fin 0.4 * fsin (Fin 2 * np_pi * t / Fin 35))%pf in
      let medium_variation := (Fin 0.25 * fsin (Fin 2 * np_pi * t / Fin 18))%pf in
      do noise <- np_random_normal (Fin 0) (Fin 0.12);
      ret (base, slow_variation, medium_variation, noise)
    else
      let base := _base_eda in
      let slow_variation := (Fin 0.25 * fsin (Fin 2 * np_pi * t / Fin 55))%pf in
      let medium_variation := (Fin 0.15 * fsin (Fin 2 * np_pi * t / Fin 28))%pf in
      do noise <- np_random_normal (Fin 0) (Fin 0.08);
      ret (base, slow_variation, medium_variation, noise)
  else
    if (t <? Fin 20)%pf then
      let base := _base_eda in
      let slow_variation := (Fin 0.3 * fsin (Fin 2 * np_pi * t / Fin 60))%pf in
      let medium_variation := (Fin 0.2 * fsin (Fin 2 * np_pi * t / Fin 25))%pf in
      do noise <- np_random_normal (Fin 0) (Fin 0.1);
      ret (base, slow_variation, medium_variation, noise)
    else if (t <? Fin 40)%pf then
      let stress_factor := ((t - Fin 20) / Fin 30)%pf in
      let base := (_base_eda + stress_factor * Fin 2.5)%pf in
      let slow_variation := (Fin 0.5 * fsin (Fin 2 * np_pi * t / Fin 30))%pf in
      let medium_variation := (Fin 0.4 * fsin (Fin 2 * np_pi * t / Fin 12))%pf in
      do noise <- np_random_normal (Fin 0) (Fin 0.2 + stress_factor * Fin 0.1)%pf;
      ret (base, slow_variation, medium_variation, noise)
    else
      let recovery_factor := fmin ((t - Fin 40) / Fin 30)%pf (Fin 1) in
      let base := (_base_eda + (Fin 1 - recovery_factor) * Fin 2.2)%pf in
      let slow_variation := (Fin 0.35 * fsin (Fin 2 * np_pi * t / Fin 45))%pf in
      let medium_variation := (Fin 0.25 * fsin (Fin 2 * np_pi * t / Fin 20))%pf in
      do noise <- np_random_normal (Fin 0) (Fin 0.12);
      ret (base, slow_variation, medium_variation, noise).

Definition get_eda : Py sensors pyfloat :=
  do t <- gets _current_time;
  do sc <- gets _scenario;
  do parts <- eda_components sc t;
  let '(base, slow_variation, medium_variation, noise) := parts in
  let eda := (base + slow_variation + medium_variation + noise)%pf in
  let eda := clamp eda (Fin 0.1) (Fin 10) in
  ret eda.

(** ** sensors.py: heart-rate variability and the stress index *)

(** The builtin [sum] starts from the integer [0]. *)
Definition py_sum (l : list pyfloat) : pyfloat := fsum l (Fin 0).

Definition get_hrv : Py sensors pyfloat :=
  do h <- gets _hr_history;
  if (length h <? 2)%nat then ret (Fin 50)
  else
    do rr_intervals <- mapM (fun hr => truediv (Fin 60000) hr) h;
    do nn_intervals <-
      mapM (fun i =>
              do a <- index rr_intervals (i + 1);
              do b <- index rr_intervals i;
              ret (fabs (a - b)%pf))
           (seq 0 (length rr_intervals - 1));
    if (length nn_intervals =? 0)%nat then ret (Fin 50)
    else
      do mean_nn <- truediv (py_sum nn_intervals)
                            (of_nat (length nn_intervals));
      do variance <-
        truediv (py_sum (map (fun nn => let d := (nn - mean_nn)%pf in
                                        (d * d)%pf) nn_intervals))
                (of_nat (length nn_intervals));
      do sdnn <- pow_half variance;
      let sdnn := clamp sdnn (Fin 10) (Fin 200) in
      ret sdnn.

(** [hrv] is [None] when the caller leaves it out. *)
Definition compute_stress_index (hr eda : pyfloat) (hrv : option pyfloat)
  (w_hr w_eda w_hrv : pyfloat) : Py sensors pyfloat :=
  do hrv <- match hrv with
            | None => get_hrv
            | Some v => ret v
            end;
  let norm_hr := clamp ((hr - Fin 45) / Fin (180 - 45))%pf (Fin 0) (Fin 1) in
  let norm_eda := clamp (eda / Fin 10)%pf (Fin 0) (Fin 1) in
  let norm_hrv :=
    clamp (Fin 1 - ((hrv - Fin 10) / Fin (200 - 10)))%pf (Fin 0) (Fin 1) in
  let stress_index :=
    ((w_hr * norm_hr + w_eda * norm_eda + w_hrv * norm_hrv) * Fin 100)%pf in
  ret stress_index.

(** The default weights of the signature. *)
Definition w_hr_default : pyfloat := Fin 0.33.
Definition w_eda_default : pyfloat := Fin 0.33.
Definition w_hrv_default : pyfloat := Fin 0.34.

(** ** sensors.py: virtual time and scenario *)

Definition _advance_time (dt : pyfloat) : Py sensors unit :=
  modify (fun s => set_current_time (_current_time s + dt)%pf s).

Definition _reset_time : Py sensors unit :=
  modify (set_current_time (Fin 0)).

Definition valid_scenarios : list string :=
  ["baseline"; "stress_buildup"; "recovery"; "mixed"]%string.

Definition str_in (x : string) (l : list string) : bool :=
  existsb (String.eqb x) l.

Definition set_scenario (scenario : string) : Py sensors unit :=
  if str_in scenario valid_scenarios
  then modify (set_scenario_global scenario)
  else raise ValueError.

Definition get_current_time : Py sensors pyfloat := gets _current_time.
Definition get_current_scenario : Py sensors string := gets _scenario.

(** ** sensors.py: the baseline protocol *)

Definition is_in_resting_period : Py sensors bool :=
  do t <- gets _current_time;
  ret (t <? _resting_period_seconds)%pf.

Definition is_in_baseline_window : Py sensors bool :=
  do t <- gets _current_time;
  let baseline_start := _resting_period_seconds in
  let baseline_end := (_resting_period_seconds + _baseline_window_seconds)%pf in
  ret ((baseline_start <=? t)%pf && (t <? baseline_end)%pf).

Definition should_collect_baseline_sample : Py sensors bool :=
  do w <- is_in_baseline_window;
  do c <- gets _baseline_computed;
  ret (w && negb c).

Definition collect_baseline_sample (hr eda hrv : pyfloat) : Py sensors unit :=
  do t <- gets _current_time;
  let sample := BaselineSample t hr eda hrv in
  modify (fun s => set_baseline_samples (_baseline_samples s ++ [sample]) s).

Definition compute_baseline_values : Py sensors bool :=
  do samples <- gets _baseline_samples;
  if (length samples <? 10)%nat then ret false
  else
    let hr_values := map bs_hr samples in
    let eda_values := map bs_eda samples in
    let hrv_values := map bs_hrv samples in
    do v <- truediv (py_sum hr_values) (of_nat (length hr_values));
    do_ modify (set_baseline_hr v);
    do v <- truediv (py_sum eda_values) (of_nat (length eda_values));
    do_ modify (set_baseline_eda v);
    do v <- truediv (py_sum hrv_values) (of_nat (length hrv_values));
    do_ modify (set_baseline_hrv v);
    do_ modify (set_baseline_computed true);
    ret true.

(** The dictionary built by [get_baseline_status]; the three baseline
    values are present only once the baseline is computed. *)
Record baseline_status : Type := BaselineStatus {
  st_current_time : pyfloat;
  st_resting_period_seconds : pyfloat;
  st_baseline_window_seconds : pyfloat;
  st_in_resting_period : bool;
  st_in_baseline_window : bool;
  st_baseline_computed : bool;
  st_baseline_samples_collected : nat;
  st_baseline_values : option (pyfloat * pyfloat * pyfloat)
}.

Definition get_baseline_status : Py sensors baseline_status :=
  do t <- gets _current_time;
  do r <- is_in_resting_period;
  do w <- is_in_baseline_window;
  do c <- gets _baseline_computed;
  do samples <- gets _baseline_samples;
  do hr <- gets _baseline_hr;
  do eda <- gets _baseline_eda;
  do hrv <- gets _baseline_hrv;
  ret (BaselineStatus t _resting_period_seconds _baseline_window_seconds
         r w c (length samples)
         (if c then Some (hr, eda, hrv) else None)).

Definition reset_baseline_protocol : Py sensors unit :=
  do_ modify (set_baseline_computed false);
  do_ modify (set_baseline_samples []);
  do_ modify (set_current_time (Fin 0));
  do_ modify (set_baseline_hr (Fin 75));
  do_ modify (set_baseline_eda (Fin 2));
  modify (set_baseline_hrv (Fin 50)).

Definition is_baseline_protocol_complete : Py sensors bool :=
  do t <- gets _current_time;
  do c <- gets _baseline_computed;
  ret ((t >=? (_resting_period_seconds + _baseline_window_seconds))%pf && c).

(** ** connectors.py and sim_connector.py *)

(** The dictionary returned by [read]. *)
Record sensor_values : Type := SensorValues {
  sv_hr : pyfloat;
  sv_eda : pyfloat;
  sv_hrv : pyfloat
}.

(** The abstract base class [SensorConnector]: a connector owns its own
    state and may, as the simulator does, act on the globals of
    sensors.py. *)
Class SensorConnector (C : Type) : Type := {
  read : Py (C * sensors) sensor_values;
  close : C -> C;
  is_connected : C -> bool
}.

Record SimConnector : Type := MkSimConnector { _connected : bool }.

Definition on_snd {A S B} (c : Py S B) : Py (A * S) B :=
  fun '(a, s) => let '(r, s') := c s in (r, (a, s')).

Definition sim_read : Py (SimConnector * sensors) sensor_values :=
  do self <- gets fst;
  if negb (_connected self) then raise RuntimeError
  else
    do hr <- on_snd get_hr;
    do eda <- on_snd get_eda;
    do hrv <- on_snd get_hrv;
    ret (SensorValues hr eda hrv).

#[export] Instance SimConnector_connector : SensorConnector SimConnector := {
  read := sim_read;
  close := fun _ => MkSimConnector false;
  is_connected := _connected
}.

(** ** biofeedback_server.py: data *)

(** A connection object, known by its identity. *)
Definition websocket : Type := nat.

Record Sample : Type := MkSample {
  timestamp : string;
  hr : pyfloat;
  eda : pyfloat;
  hrv : pyfloat;
  stress : pyfloat;
  scenario : string
}.

(** The [stream] message of the broadcast loop: the sample and
    [server_info]. *)
Record stream_message : Type := StreamMessage {
  sm_data : Sample;
  sm_frequency_hz : pyfloat;
  sm_connected_clients : nat
}.

(** What the process does to the outside, in order.  [EvSend] carries
    whether the send returned ([true]) or raised ([false]). *)
Inductive event : Type :=
| EvRead
| EvSend (ws : websocket) (message : stream_message) (delivered : bool)
| EvSleep (seconds : pyfloat).

#[local] Unset Elimination Schemes.

(** A decoded JSON document.  [json.loads] also accepts the literals
    [NaN], [Infinity] and [-Infinity], hence [JFloat] of any float. *)
Inductive json : Type :=
| JNull
| JBool (b : bool)
| JInt (z : Z)
| JFloat (f : pyfloat)
| JStr (s : string)
| JList (l : list json)
| JObj (fields : list (string * json)).

#[local] Set Elimination Schemes.

(** The body of a reply, before [json.dumps]. *)
Inductive response : Type :=
| RSample (data : Sample)
| RSubscriptionConfirmed (client_id : nat) (stream_frequency_hz : pyfloat)
    (message : string)
| RUnsubscriptionConfirmed (message : string)
| RStatus (is_running : bool) (uptime_seconds : pyfloat)
    (connected_clients : nat) (stream_frequency_hz : pyfloat)
    (samples_generated : nat)
| RFrequencyChanged (old_frequency_hz new_frequency_hz
                     stream_interval_seconds : pyfloat) (message : string)
| RScenarioChanged (current_scenario : string) (message : string)
| RError (message : string) (current_frequency_hz : option pyfloat)
    (valid_scenarios : option (list string))
    (available_commands : option (list string)).

Definition is_error (r : response) : bool :=
  match r with
  | RError _ _ _ _ => true
  | _ => false
  end.

(** What [str.lower] returns for a text of ASCII characters: the letters
    A to Z lowered, every other character kept. *)
Definition lower_ascii (c : Ascii.ascii) : Ascii.ascii :=
  let n := Ascii.nat_of_ascii c in
  if ((65 <=? n) && (n <=? 90))%nat then Ascii.ascii_of_nat (n + 32) else c.

Fixpoint ascii_lower (s : string) : string :=
  match s with
  | EmptyString => EmptyString
  | String c s' => String (lower_ascii c) (ascii_lower s')
  end.

Fixpoint assoc (k : string) (l : list (string * json)) : option json :=
  match l with
  | [] => None
  | (k', v) :: l' => if String.eqb k k' then Some v else assoc k l'
  end.

(** [request.get(key, default)]: only a dictionary has [get]. *)
Definition dict_get {S} (request : json) (key : string) (default : json)
  : Py S json :=
  match request with
  | JObj fields =>
      ret (match assoc key fields with Some v => v | None => default end)
  | _ => raise AttributeError
  end.

Section Server.

Context {C : Type} `{SensorConnector C}.

Record server : Type := Server {
  host : string;
  port : Z;
  stream_frequency : pyfloat;
  stream_interval : pyfloat;
  connector : C;
  subscribers : gset websocket;
  client_counter : nat;
  session_data : list Sample;
  running : bool;
  start_time : option pyfloat
}.

Definition set_stream_frequency (v : pyfloat) (s : server) : server :=
  Server (host s) (port s) v (stream_interval s) (connector s)
    (subscribers s) (client_counter s) (session_data s) (running s)
    (start_time s).
Definition set_stream_interval (v : pyfloat) (s : server) : server :=
  Server (host s) (port s) (stream_frequency s) v (connector s)
    (subscribers s) (client_counter s) (session_data s) (running s)
    (start_time s).
Definition set_connector (c : C) (s : server) : server :=
  Server (host s) (port s) (stream_frequency s) (stream_interval s) c
    (subscribers s) (client_counter s) (session_data s) (running s)
    (start_time s).
Definition set_subscribers (x : gset websocket) (s : server) : server :=
  Server (host s) (port s) (stream_frequency s) (stream_interval s)
    (connector s) x (client_counter s) (session_data s) (running s)
    (start_time s).
Definition set_client_counter (n : nat) (s : server) : server :=
  Server (host s) (port s) (stream_frequency s) (stream_interval s)
    (connector s) (subscribers s) n (session_data s) (running s)
    (start_time s).
Definition set_session_data (l : list Sample) (s : server) : server :=
  Server (host s) (port s) (stream_frequency s) (stream_interval s)
    (connector s) (subscribers s) (client_counter s) l (running s)
    (start_time s).

(** Everything a method of the server can touch: the instance, the globals
    of sensors.py, the trace of outside effects and the number of
    wall-clock readings taken. *)
Record world : Type := World {
  srv : server;
  sens : sensors;
  events : list event;
  wall_reads : nat
}.

Definition in_sensors {A} (c : Py sensors A) : Py world A :=
  fun w => let '(r, s') := c (sens w) in
           (r, World (srv w) s' (events w) (wall_reads w)).

Definition in_connector {A} (c : Py (C * sensors) A) : Py world A :=
  fun w => let '(r, (c', s')) := c (connector (srv w), sens w) in
           (r, World (set_connector c' (srv w)) s' (events w) (wall_reads w)).

Definition gets_srv {A} (f : server -> A) : Py world A :=
  gets (fun w => f (srv w)).

Definition modify_srv (f : server -> server) : Py world unit :=
  modify (fun w => World (f (srv w)) (sens w) (events w) (wall_reads w)).

Definition emit (e : event) : Py world unit :=
  modify (fun w => World (srv w) (sens w) (events w ++ [e]) (wall_reads w)).

(** [__init__]: [1.0 / stream_frequency] raises on a zero frequency. *)
Definition server_init (host : string) (port : Z)
  (stream_frequency : pyfloat) (connector : C) : result server :=
  match truediv (Fin 1) stream_frequency tt with
  | (Ok interval, _) =>
      Ok (Server host port stream_frequency interval connector ∅ 0 []
            false None)
  | (Raise e, _) => Raise e
  end.

(** ** biofeedback_server.py: one tick *)

(** The builtin [round(x, ndigits)]. *)
Variable py_round : pyfloat -> nat -> pyfloat.

(** [datetime.now(timezone.utc).isoformat()] and [time.time()] at the
    [n]-th reading of the wall clock. *)
Variable utcnow_isoformat : nat -> string.
Variable time_time : nat -> pyfloat.

Definition wall_clock {A} (f : nat -> A) : Py world A :=
  do n <- gets wall_reads;
  do_ modify (fun w => World (srv w) (sens w) (events w) (S n));
  ret (f n).

(** The builtin [len] applied to an [int]. *)
Definition len_of_int {S} (n : nat) : Py S nat := raise TypeError.

(** The trace records the call of [self.connector.read()]; nothing else
    of the tick is visible outside before the sample is returned. *)
Definition generate_biofeedback_sample : Py world Sample :=
  do_ emit EvRead;
  do sensor_values <- in_connector read;
  let hr := sv_hr sensor_values in
  let eda := sv_eda sensor_values in
  let hrv := sv_hrv sensor_values in
  do baseline_status <- in_sensors get_baseline_status;
  do collecting <- in_sensors should_collect_baseline_sample;
  do_ (if collecting : bool then
         do_ in_sensors (collect_baseline_sample hr eda hrv);
         (* the f-string passed to logger.info:
            len(baseline_status['baseline_samples_collected']) + 1 *)
         do_ len_of_int (st_baseline_samples_collected baseline_status);
         if (10 <=? st_baseline_samples_collected baseline_status)%nat then
           do computed <- in_sensors compute_baseline_values;
           if computed : bool then
             do_ in_sensors get_baseline_status;
             ret tt
           else ret tt
         else ret tt
       else ret tt);
  do stress <- in_sensors (compute_stress_index hr eda (Some hrv)
                             w_hr_default w_eda_default w_hrv_default);
  do timestamp <- wall_clock utcnow_isoformat;
  do scenario <- in_sensors get_current_scenario;
  let sample :=
    MkSample timestamp (py_round hr 1) (py_round eda 3) (py_round hrv 1)
      (py_round stress 1) scenario in
  do interval <- gets_srv stream_interval;
  do_ in_sensors (_advance_time interval);
  do_ modify_srv (fun s => set_session_data (session_data s ++ [sample]) s);
  ret sample.

(** ** biofeedback_server.py: the broadcast loop *)

(** What [await websocket.send(message)] does for this socket, given
    everything that happened before: [None] when it returns, the exception
    otherwise. *)
Variable send_raises : list event -> websocket -> stream_message -> option exn.

Definition websocket_send (ws : websocket) (message : stream_message)
  : Py world unit :=
  do past <- gets events;
  match send_raises past ws message with
  | None => emit (EvSend ws message true)
  | Some e => do_ emit (EvSend ws message false); raise e
  end.

(** The [for] loop over [self.subscribers.copy()]: returns
    [disconnected_clients]. *)
Fixpoint send_to_all (message : stream_message) (snapshot : list websocket)
  (disconnected_clients : gset websocket) : Py world (gset websocket) :=
  match snapshot with
  | [] => ret disconnected_clients
  | ws :: rest =>
      do d <- try_except
                (do_ websocket_send ws message; ret disconnected_clients)
                (fun e =>
                   match e with
                   | ConnectionClosed => Some (ret ({[ws]} ∪ disconnected_clients))
                   | _ => Some (ret ({[ws]} ∪ disconnected_clients))
                   end);
      send_to_all message rest d
  end.

(** The [for] loop over [disconnected_clients], one [discard] each. *)
Fixpoint discard_all (l : list websocket) : Py world unit :=
  match l with
  | [] => ret tt
  | ws :: rest =>
      do_ modify_srv (fun s => set_subscribers (subscribers s ∖ {[ws]}) s);
      discard_all rest
  end.

(** Lines 349-363: the fan-out pass and the removal that follows it. *)
Definition fan_out (message : stream_message) : Py world unit :=
  do subs <- gets_srv subscribers;
  do disconnected_clients <- send_to_all message (elements subs) ∅;
  discard_all (elements disconnected_clients).

(** The body of [while self.running]. *)
Definition broadcast_cycle : Py world unit :=
  do subs <- gets_srv subscribers;
  do_ (if bool_decide (subs ≠ ∅) then
         do sample <- generate_biofeedback_sample;
         do freq <- gets_srv stream_frequency;
         do subs <- gets_srv subscribers;
         let message := StreamMessage sample freq (size subs) in
         fan_out message
       else ret tt);
  do interval <- gets_srv stream_interval;
  emit (EvSleep interval).

(** [broadcast_to_subscribers], for at most [fuel] turns of the loop. *)
Fixpoint broadcast_to_subscribers (fuel : nat) : Py world unit :=
  match fuel with
  | O => ret tt
  | S fuel' =>
      do r <- gets_srv running;
      if r : bool then
        do_ broadcast_cycle;
        broadcast_to_subscribers fuel'
      else ret tt
  end.

(** ** biofeedback_server.py: the command dispatcher *)

(** Library functions the dispatcher calls: [json.loads], which returns
    the decoded value or raises (JSONDecodeError for a text that is not
    JSON, RecursionError for one nested too deep, UnicodeDecodeError for
    bytes that are not UTF-8); [float] on a string ([None] for a string
    that is not a number); and the text an f-string gives a float, a
    decoded value or an exception. *)
Variable json_loads : string -> result json.
Variable float_of_string : string -> option pyfloat.
Variable float_str : pyfloat -> string.
Variable json_str : json -> string.
Variable exn_str : exn -> string.

(** The method [str.lower], which lowers every cased character of a
    Unicode text. *)
Variable lower : string -> string.

(** [.lower()]: only a string has it. *)
Definition str_lower {S} (v : json) : Py S string :=
  match v with
  | JStr s => ret (lower s)
  | _ => raise AttributeError
  end.

(** The builtin [float]. *)
Definition py_float {S} (v : json) : Py S pyfloat :=
  match v with
  | JFloat f => ret f
  | JInt z =>
      if (2 ^ 1024 - 2 ^ 970 <=? Z.abs z)%Z then raise OverflowError
      else ret (Fin (IZR z))
  | JBool b => ret (if b then Fin 1 else Fin 0)
  | JStr s =>
      match float_of_string s with
      | Some f => ret f
      | None => raise ValueError
      end
  | JNull | JList _ | JObj _ => raise TypeError
  end.

(** [f"{v}"] for a decoded value. *)
Definition format_json (v : json) : string :=
  match v with
  | JStr s => s
  | JFloat f => float_str f
  | _ => json_str v
  end.

Definition error_message (message : string) : response :=
  RError message None None None.

Definition available_commands_list : list string :=
  ["once"; "subscribe"; "unsubscribe"; "status"; "set_frequency";
   "set_scenario"]%string.

(** The [set_frequency] branch, lines 204-240. *)
Definition handle_set_frequency (request : json) : Py world response :=
  try_except
    (do current <- gets_srv stream_frequency;
     do v <- dict_get request "hz" (JFloat current);
     do hz <- py_float v;
     if (hz <? Fin 0.1)%pf || (hz >? Fin 50)%pf then
       do current <- gets_srv stream_frequency;
       ret (RError ("Invalid frequency: " ++ float_str hz
                      ++ "Hz. Must be between 0.1 and 50.0 Hz")%string
              (Some current) None None)
     else
       do old_frequency <- gets_srv stream_frequency;
       do_ modify_srv (set_stream_frequency hz);
       do interval <- truediv (Fin 1) hz;
       do_ modify_srv (set_stream_interval interval);
       do new_frequency <- gets_srv stream_frequency;
       do new_interval <- gets_srv stream_interval;
       ret (RFrequencyChanged old_frequency new_frequency new_interval
              ("Streaming frequency changed to " ++ float_str hz ++ "Hz")%string))
    (fun e =>
       match e with
       | ValueError | TypeError | JSONDecodeError | UnicodeDecodeError =>
           Some (do v <- dict_get request "hz" (JStr "missing");
                 do current <- gets_srv stream_frequency;
                 ret (RError ("Invalid frequency value: " ++ format_json v
                                ++ ". Must be a number.")%string
                        (Some current) None None))
       | _ => None
       end).

(** The [set_scenario] branch, lines 242-271. *)
Definition handle_set_scenario (request : json) : Py world response :=
  do scenario <- dict_get request "scenario" (JStr "");
  match scenario with
  | JStr name =>
      if str_in name valid_scenarios then
        try_except
          (do_ in_sensors (set_scenario name);
           ret (RScenarioChanged name
                  ("Simulation scenario changed to " ++ name)%string))
          (fun e =>
             Some (ret (error_message
                          ("Failed to set scenario: " ++ exn_str e)%string)))
      else
        ret (RError ("Invalid scenario: " ++ name)%string None
               (Some valid_scenarios) None)
  | _ =>
      ret (RError ("Invalid scenario: " ++ format_json scenario)%string None
             (Some valid_scenarios) None)
  end.

Definition handle_client_message (websocket : websocket) (message : string)
  : Py world response :=
  try_except
    (do request <- match json_loads message with
                   | Ok v => ret v
                   | Raise e => raise e
                   end;
     do c <- dict_get request "command" (JStr "");
     do command <- str_lower c;
     if String.eqb command "once" then
       do sample <- generate_biofeedback_sample;
       ret (RSample sample)
     else if String.eqb command "subscribe" then
       do_ modify_srv (fun s => set_subscribers ({[websocket]} ∪ subscribers s) s);
       do_ modify_srv (fun s => set_client_counter (client_counter s + 1) s);
       do id <- gets_srv client_counter;
       do freq <- gets_srv stream_frequency;
       ret (RSubscriptionConfirmed id freq
              "Subscribed to continuous biofeedback stream")
     else if String.eqb command "unsubscribe" then
       do_ modify_srv (fun s => set_subscribers (subscribers s ∖ {[websocket]}) s);
       ret (RUnsubscriptionConfirmed "Unsubscribed from biofeedback stream")
     else if String.eqb command "status" then
       do started <- gets_srv start_time;
       do uptime <- match started with
                    | Some t0 =>
                        if is_zero t0 then ret (Fin 0)
                        else do now <- wall_clock time_time;
                             ret (now - t0)%pf
                    | None => ret (Fin 0)
                    end;
       do r <- gets_srv running;
       do subs <- gets_srv subscribers;
       do freq <- gets_srv stream_frequency;
       do log <- gets_srv session_data;
       ret (RStatus r (py_round uptime 1) (size subs) freq (length log))
     else if String.eqb command "set_frequency" then
       handle_set_frequency request
     else if String.eqb command "set_scenario" then
       handle_set_scenario request
     else
       ret (RError ("Unknown command: " ++ command)%string None None
              (Some available_commands_list)))
    (fun e =>
       match e with
       | JSONDecodeError =>
           Some (ret (error_message "Invalid JSON format"))
       | _ =>
           Some (ret (error_message ("Server error: " ++ exn_str e)%string))
       end).

(** ** biofeedback_server.py: one connection *)

(** What [await websocket.send(response)] does for a reply, given the
    replies this connection got before: [None] when it returns, the
    exception otherwise. *)
Variable reply_raises : list response -> response -> option exn.

(** The [async for] loop of [handle_client] over the messages the
    connection delivers before it closes, with the replies sent so far; a
    send that raises ends the loop in one of the two [except] clauses. *)
Fixpoint handle_client_loop (ws : websocket) (messages : list string)
  (sent : list response) (w : world) : list response * world :=
  match messages with
  | [] => (sent, w)
  | message :: rest =>
      match handle_client_message ws message w with
      | (Ok response, w1) =>
          match reply_raises sent response with
          | None => handle_client_loop ws rest (sent ++ [response]) w1
          | Some _ => (sent, w1)
          end
      | (Raise _, w1) => (sent, w1)
      end
  end.

(** [handle_client]: the loop, then the [finally] clause. *)
Definition handle_client (ws : websocket) (messages : list string)
  (w : world) : list response * world :=
  let '(sent, w1) := handle_client_loop ws messages [] w in
  (sent,
   World (set_subscribers (subscribers (srv w1) ∖ {[ws]}) (srv w1))
     (sens w1) (events w1) (wall_reads w1)).

(** * Vocabulary of the properties *)

(** ** Over the globals of sensors.py *)

(** The list [get_hr] leaves in [_hr_history] after appending [x]. *)
Definition pushed_history (h : list pyfloat) (x : pyfloat) : list pyfloat :=
  if (_hrv_window_size <? length (h ++ [x]))%nat
  then last_n _hrv_window_size (h ++ [x])
  else h ++ [x].

(** Every heart rate ever stored in [_hr_history] is a finite value in
    [50, 180]: the precondition under which no division of [get_hrv]
    fails. *)
Definition hr_history_ok (h : list pyfloat) : Prop :=
  Forall (fun x => exists v, x = Fin v /\ 50 <= v <= 180) h.

(** The formula of the specification, over the reals. *)
Definition norm_hr (hr : R) : R := clampR ((hr - 45) / 135) 0 1.
Definition norm_eda (eda : R) : R := clampR (eda / 10) 0 1.
Definition norm_hrv (hrv : R) : R := clampR (1 - (hrv - 10) / 190) 0 1.
Definition stress_formula (hr eda hrv w_hr w_eda w_hrv : R) : R :=
  100 * (w_hr * norm_hr hr + w_eda * norm_eda eda + w_hrv * norm_hrv hrv).

(** SDNN as the specification words it: each heart rate becomes an RR
    interval, successive intervals are differenced in absolute value, and
    the population standard deviation of the differences is clamped. *)
Definition rr_interval (hr : R) : R := 60000 / hr.

Fixpoint successive_abs_diffs (l : list R) : list R :=
  match l with
  | a :: (b :: _) as tl => Rabs (b - a) :: successive_abs_diffs tl
  | _ => []
  end.

Definition Rsum (l : list R) : R := fold_right Rplus 0 l.
Definition Rmean (l : list R) : R := Rsum l / INR (length l).
Definition population_stdev (l : list R) : R :=
  sqrt (Rsum (map (fun x => Rsqr (x - Rmean l)) l) / INR (length l)).
Definition sdnn (history : list R) : R :=
  clampR (population_stdev (successive_abs_diffs (map rr_interval history)))
    10 200.

(** The expression [sum(values) / len(values)] of
    [compute_baseline_values], as the code evaluates it on a non-empty
    list. *)
Definition average (l : list pyfloat) : pyfloat :=
  (py_sum l / of_nat (length l))%pf.

(** The state [compute_baseline_values] leaves when it succeeds. *)
Definition with_baseline (s : sensors) : sensors :=
  let samples := _baseline_samples s in
  Sensors (_current_time s) (_scenario s) (_hr_history s) true
    (average (map bs_hr samples)) (average (map bs_eda samples))
    (average (map bs_hrv samples)) samples (rng_calls s).

(** What the baseline protocol keeps between calls. *)
Definition baseline_state (s : sensors)
  : bool * list baseline_sample * (pyfloat * pyfloat * pyfloat) :=
  (_baseline_computed s, _baseline_samples s,
   (_baseline_hr s, _baseline_eda s, _baseline_hrv s)).

(** One call of a function of sensors.py. *)
Inductive sensors_call : Type :=
| CallGetHr
| CallGetEda
| CallGetHrv
| CallComputeStressIndex (hr eda : pyfloat) (hrv : option pyfloat)
    (w_hr w_eda w_hrv : pyfloat)
| CallAdvanceTime (dt : pyfloat)
| CallResetTime
| CallSetScenario (name : string)
| CallGetCurrentTime
| CallGetCurrentScenario
| CallIsInRestingPeriod
| CallIsInBaselineWindow
| CallShouldCollectBaselineSample
| CallCollectBaselineSample (hr eda hrv : pyfloat)
| CallComputeBaselineValues
| CallGetBaselineStatus
| CallResetBaselineProtocol
| CallIsBaselineProtocolComplete.

(** The globals after the call, whether it returned or raised. *)
Definition after (c : sensors_call) (s : sensors) : sensors :=
  match c with
  | CallGetHr => snd (get_hr s)
  | CallGetEda => snd (get_eda s)
  | CallGetHrv => snd (get_hrv s)
  | CallComputeStressIndex hr eda hrv w1 w2 w3 =>
      snd (compute_stress_index hr eda hrv w1 w2 w3 s)
  | CallAdvanceTime dt => snd (_advance_time dt s)
  | CallResetTime => snd (_reset_time s)
  | CallSetScenario name => snd (set_scenario name s)
  | CallGetCurrentTime => snd (get_current_time s)
  | CallGetCurrentScenario => snd (get_current_scenario s)
  | CallIsInRestingPeriod => snd (is_in_resting_period s)
  | CallIsInBaselineWindow => snd (is_in_baseline_window s)
  | CallShouldCollectBaselineSample => snd (should_collect_baseline_sample s)
  | CallCollectBaselineSample hr eda hrv =>
      snd (collect_baseline_sample hr eda hrv s)
  | CallComputeBaselineValues => snd (compute_baseline_values s)
  | CallGetBaselineStatus => snd (get_baseline_status s)
  | CallResetBaselineProtocol => snd (reset_baseline_protocol s)
  | CallIsBaselineProtocolComplete => snd (is_baseline_protocol_complete s)
  end.

(** The states the module can be in: the state at import, and whatever a
    sequence of calls makes of it. *)
Inductive reachable : sensors -> Prop :=
| reachable_init : reachable sensors_init
| reachable_call (c : sensors_call) (s : sensors) :
    reachable s -> reachable (after c s).

(** The calls that are part of the baseline protocol proper. *)
Definition baseline_call (c : sensors_call) : bool :=
  match c with
  | CallCollectBaselineSample _ _ _
  | CallComputeBaselineValues
  | CallResetBaselineProtocol => true
  | _ => false
  end.

(** ** Over computations *)

(** A computation that neither reads nor writes the state. *)
Definition state_free {S A} (c : Py S A) : Prop :=
  exists r, forall s, c s = (r, s).

(** A computation that leaves the observation [f] of the state as it
    found it, whether it returns or raises. *)
Definition preserves {S A X} (f : S -> X) (c : Py S A) : Prop :=
  forall s, f (snd (c s)) = f s.

(** ** Over the server *)

(** The stress index of a tick, as a value: with [hrv] given the function
    touches no global. *)
Definition stress_of (hr eda hrv : pyfloat) : pyfloat :=
  let norm_hr := clamp ((hr - Fin 45) / Fin (180 - 45))%pf (Fin 0) (Fin 1) in
  let norm_eda := clamp (eda / Fin 10)%pf (Fin 0) (Fin 1) in
  let norm_hrv :=
    clamp (Fin 1 - ((hrv - Fin 10) / Fin (200 - 10)))%pf (Fin 0) (Fin 1) in
  ((w_hr_default * norm_hr + w_eda_default * norm_eda
    + w_hrv_default * norm_hrv) * Fin 100)%pf.

(** The sample a tick builds from the readings [v] in the state [w]. *)
Definition sample_of (v : sensor_values) (w : world) : Sample :=
  MkSample (utcnow_isoformat (wall_reads w))
    (py_round (sv_hr v) 1) (py_round (sv_eda v) 3) (py_round (sv_hrv v) 1)
    (py_round (stress_of (sv_hr v) (sv_eda v) (sv_hrv v)) 1)
    (_scenario (sens w)).

(** The send attempts a pass over [snapshot] makes, given what happened
    before it. *)
Fixpoint pass_events (message : stream_message) (snapshot : list websocket)
  (past : list event) : list event :=
  match snapshot with
  | [] => []
  | ws :: rest =>
      let e := EvSend ws message
                 (match send_raises past ws message with
                  | None => true
                  | Some _ => false
                  end) in
      e :: pass_events message rest (past ++ [e])
  end.

(** The sockets whose send raised. *)
Fixpoint failed_in (sends : list event) : gset websocket :=
  match sends with
  | [] => ∅
  | EvSend ws _ false :: rest => {[ws]} ∪ failed_in rest
  | _ :: rest => failed_in rest
  end.

(** A [set_frequency] request: a dictionary whose [command], lowered, is
    [set_frequency]. *)
Definition is_set_frequency (fields : list (string * json)) : Prop :=
  exists cmd, assoc "command" fields = Some (JStr cmd)
              /\ lower cmd = "set_frequency"%string.

(** The value [float] is applied to. *)
Definition hz_field (fields : list (string * json)) (w : world) : json :=
  match assoc "hz" fields with
  | Some v => v
  | None => JFloat (stream_frequency (srv w))
  end.

(** A float that is a number within the accepted range. *)
Definition in_frequency_range (hz : pyfloat) : Prop :=
  exists r, hz = Fin r /\ 0.1 <= r <= 50.

(** The configuration the specification gives a server: a frequency within
    [0.1, 50.0] and the interval that is its inverse. *)
Definition config_ok (s : server) : Prop :=
  exists f, stream_frequency s = Fin f /\ 0.1 <= f <= 50
            /\ stream_interval s = Fin (1 / f).

(** The answers of the three phase predicates, in the order resting
    period, baseline window, protocol complete. *)
Definition phase_flags (s : sensors) : bool * bool * bool :=
  (match fst (is_in_resting_period s) with Ok b => b | Raise _ => false end,
   match fst (is_in_baseline_window s) with Ok b => b | Raise _ => false end,
   match fst (is_baseline_protocol_complete s) with
   | Ok b => b
   | Raise _ => false
   end).

(** The trace of a loop that only sleeps, turn after turn. *)
Fixpoint idle_sleeps (n : nat) (seconds : pyfloat) : list event :=
  match n with
  | O => []
  | S n' => EvSleep seconds :: idle_sleeps n' seconds
  end.

(** The message decodes to a dictionary whose [command], lowered, is
    [name]. *)
Definition decodes_to (message : string) (name : string)
  (fields : list (string * json)) : Prop :=
  json_loads message = Ok (JObj fields)
  /\ exists cmd, assoc "command" fields = Some (JStr cmd) /\ lower cmd = name.

(** The two fields [set_frequency] writes. *)
Definition stream_config (w : world) : pyfloat * pyfloat :=
  (stream_frequency (srv w), stream_interval (srv w)).

(** The configurations a server can be brought to by requests: a valid
    one, or the one left by a NaN frequency. *)
Definition config_ok_or_nan (s : server) : Prop :=
  config_ok s \/ (stream_frequency s = NaN /\ stream_interval s = NaN).

(** The clock after [n] ticks that return: the stream interval added [n]
    times, one addition after the other as [_advance_time] does them. *)
Fixpoint clock_after (n : nat) (t interval : pyfloat) : pyfloat :=
  match n with
  | O => t
  | S n' => clock_after n' (t + interval)%pf interval
  end.

(** The registry without the socket [ws]. *)
Definition others (ws : websocket) (w : world) : gset websocket :=
  subscribers (srv w) ∖ {[ws]}.

(** * Properties *)

(** ** Comparisons and [clamp] *)

Lemma Rltb_true (a b : R) : Rltb a b = true <-> a < b.
Proof. unfold Rltb. destruct (Rlt_dec a b); split; intros; try easy. Qed.

Lemma Rltb_false (a b : R) : Rltb a b = false <-> b <= a.
Proof.
  unfold Rltb. destruct (Rlt_dec a b); split; intros; try easy; lra.
Qed.

Lemma Rleb_true (a b : R) : Rleb a b = true <-> a <= b.
Proof. unfold Rleb. destruct (Rle_dec a b); split; intros; try easy. Qed.

Lemma Rleb_false (a b : R) : Rleb a b = false <-> b < a.
Proof.
  unfold Rleb. destruct (Rle_dec a b); split; intros; try easy; lra.
Qed.

Lemma Reqb_true (a b : R) : Reqb a b = true <-> a = b.
Proof. unfold Reqb. destruct (Req_dec_T a b); split; intros; try easy. Qed.

Lemma Reqb_false (a b : R) : Reqb a b = false <-> a <> b.
Proof. unfold Reqb. destruct (Req_dec_T a b); split; intros; try easy. Qed.

(** Decides a comparison between two real expressions that [lra] can
    order. *)
Ltac rdecide :=
  repeat match goal with
    | |- context [Rltb ?a ?b] =>
        first [ replace (Rltb a b) with true
                  by (symmetry; apply Rltb_true; lra)
              | replace (Rltb a b) with false
                  by (symmetry; apply Rltb_false; lra) ]
    | |- context [Rleb ?a ?b] =>
        first [ replace (Rleb a b) with true
                  by (symmetry; apply Rleb_true; lra)
              | replace (Rleb a b) with false
                  by (symmetry; apply Rleb_false; lra) ]
    | |- context [Reqb ?a ?b] =>
        first [ replace (Reqb a b) with true
                  by (symmetry; apply Reqb_true; lra)
              | replace (Reqb a b) with false
                  by (symmetry; apply Reqb_false; lra) ]
    end.

Lemma clampR_range (x lo hi : R) : lo <= hi -> lo <= clampR x lo hi <= hi.
Proof.
  intros Hle. unfold clampR, Rmax, Rmin.
  destruct (Rle_dec x hi); destruct (Rle_dec lo _); lra.
Qed.

Lemma clamp_Fin (x lo hi : R) :
  clamp (Fin x) (Fin lo) (Fin hi) = Fin (clampR x lo hi).
Proof.
  unfold clamp, clampR, fmax, fmin, fgt, flt, Rmax, Rmin.
  destruct (Rltb hi x) eqn:E1.
  - apply Rltb_true in E1. destruct (Rle_dec x hi); [lra |].
    destruct (Rltb lo hi) eqn:E2.
    + apply Rltb_true in E2. destruct (Rle_dec lo hi); [easy | lra].
    + apply Rltb_false in E2. destruct (Rle_dec lo hi); [f_equal; lra | easy].
  - apply Rltb_false in E1. destruct (Rle_dec x hi); [| lra].
    destruct (Rltb lo x) eqn:E2.
    + apply Rltb_true in E2. destruct (Rle_dec lo x); [easy | lra].
    + apply Rltb_false in E2. destruct (Rle_dec lo x); [f_equal; lra | easy].
Qed.

(** Whatever float comes in, also [nan] or an infinity, [clamp] returns a
    finite value between the bounds. *)
Lemma clamp_range (x : pyfloat) (lo hi : R) :
  lo <= hi -> exists v, clamp x (Fin lo) (Fin hi) = Fin v /\ lo <= v <= hi.
Proof.
  intros Hle. destruct x as [r | | |].
  - exists (clampR r lo hi). split; [apply clamp_Fin | now apply clampR_range].
  - exists hi. unfold clamp, fmin, fmax, fgt; simpl.
    destruct (Rltb lo hi) eqn:E; [split; [easy | lra] |].
    apply Rltb_false in E. split; [f_equal; lra | lra].
  - exists lo. unfold clamp, fmin, fmax, fgt; simpl. split; [easy | lra].
  - exists lo. unfold clamp, fmin, fmax, fgt; simpl. split; [easy | lra].
Qed.

Lemma fmin_Fin (a b : R) : fmin (Fin a) (Fin b) = Fin (Rmin a b).
Proof.
  unfold fmin, flt, Rmin. destruct (Rltb b a) eqn:E.
  - apply Rltb_true in E. destruct (Rle_dec a b); [lra | easy].
  - apply Rltb_false in E. now destruct (Rle_dec a b).
Qed.

Lemma clampR_inside (x lo hi : R) : lo <= x <= hi -> clampR x lo hi = x.
Proof.
  intros Hx. unfold clampR, Rmax, Rmin.
  destruct (Rle_dec x hi); [| lra]. destruct (Rle_dec lo x); lra.
Qed.

(** ** The monad *)

Lemma bind_gets {S A B} (f : S -> A) (k : A -> Py S B) (s : S) :
  bind (gets f) k s = k (f s) s.
Proof. reflexivity. Qed.

Lemma bind_ok {S A B} (c : Py S A) (k : A -> Py S B) (s s' : S) (a : A) :
  c s = (Ok a, s') -> bind c k s = k a s'.
Proof. intros Hc. unfold bind. now rewrite Hc. Qed.

Lemma bind_raise {S A B} (c : Py S A) (k : A -> Py S B) (s s' : S)
  (e : exn) :
  c s = (Raise e, s') -> bind c k s = (Raise e, s').
Proof. intros Hc. unfold bind. now rewrite Hc. Qed.

Lemma mapM_ok_map {S A B} (f : A -> Py S B) (g : A -> B) (l : list A)
  (s : S) :
  (forall x, In x l -> f x s = (Ok (g x), s)) ->
  mapM f l s = (Ok (map g l), s).
Proof.
  induction l as [| x l IH]; intros Hf; [reflexivity |].
  cbn [mapM map]. unfold bind.
  rewrite (Hf x (or_introl eq_refl)).
  rewrite IH by (intros y Hy; apply Hf; now right).
  reflexivity.
Qed.

Lemma state_free_ret {S A} (a : A) : state_free (@ret S A a).
Proof. now exists (Ok a). Qed.

Lemma state_free_raise {S A} (e : exn) : state_free (@raise S A e).
Proof. now exists (Raise e). Qed.

Lemma state_free_bind {S A B} (c : Py S A) (k : A -> Py S B) :
  state_free c -> (forall a, state_free (k a)) -> state_free (bind c k).
Proof.
  intros [[a | e] Hc] Hk.
  - destruct (Hk a) as [r Hr]. exists r. intros s.
    unfold bind. now rewrite Hc, Hr.
  - exists (Raise e). intros s. unfold bind. now rewrite Hc.
Qed.

Lemma state_free_mapM {S A B} (f : A -> Py S B) (l : list A) :
  (forall x, state_free (f x)) -> state_free (mapM f l).
Proof.
  intros Hf. induction l as [| x l IH]; cbn [mapM].
  - apply state_free_ret.
  - apply state_free_bind; [apply Hf | intros y].
    apply state_free_bind; [apply IH | intros ys]. apply state_free_ret.
Qed.

Lemma state_free_truediv {S} (a b : pyfloat) : state_free (@truediv S a b).
Proof.
  unfold truediv. destruct (is_zero b);
    [apply state_free_raise | apply state_free_ret].
Qed.

Lemma state_free_index {S A} (l : list A) (i : nat) :
  state_free (@index S A l i).
Proof.
  unfold index. destruct (nth_error l i);
    [apply state_free_ret | apply state_free_raise].
Qed.

Lemma state_free_pow_half {S} (x : pyfloat) : state_free (@pow_half S x).
Proof.
  unfold pow_half. destruct x as [r | | |]; try apply state_free_ret.
  destruct (Rltb r 0); [apply state_free_raise | apply state_free_ret].
Qed.

Ltac state_free_tac :=
  repeat first
    [ apply state_free_ret
    | apply state_free_raise
    | apply state_free_truediv
    | apply state_free_index
    | apply state_free_pow_half
    | apply state_free_mapM; intros
    | apply state_free_bind; [| intros]
    | match goal with
      | |- state_free (if ?b then _ else _) => destruct b
      end ].

Section Preserves.
Context {S X : Type} (f : S -> X).

Lemma preserves_ret {A} (a : A) : preserves f (ret a).
Proof. now intros s. Qed.

Lemma preserves_raise {A} (e : exn) : preserves f (@raise S A e).
Proof. now intros s. Qed.

Lemma preserves_gets {A} (g : S -> A) : preserves f (gets g).
Proof. now intros s. Qed.

Lemma preserves_modify (g : S -> S) :
  (forall s, f (g s) = f s) -> preserves f (modify g).
Proof. intros Hg s. apply Hg. Qed.

Lemma preserves_bind {A B} (c : Py S A) (k : A -> Py S B) :
  preserves f c -> (forall a, preserves f (k a)) -> preserves f (bind c k).
Proof.
  intros Hc Hk s. unfold bind. specialize (Hc s).
  destruct (c s) as [[a | e] s1]; cbn [snd] in *; [| exact Hc].
  now rewrite Hk.
Qed.

Lemma preserves_state_free {A} (c : Py S A) :
  state_free c -> preserves f c.
Proof. intros [r Hr] s. now rewrite Hr. Qed.
End Preserves.

Ltac preserves_tac :=
  repeat first
    [ apply preserves_ret
    | apply preserves_raise
    | apply preserves_gets
    | apply preserves_modify; intros; reflexivity
    | apply preserves_state_free; solve [state_free_tac]
    | apply preserves_bind; [| intros]
    | match goal with
      | |- preserves _ (if ?b then _ else _) => destruct b
      | |- preserves _ (match ?p with pair _ _ => _ end) => destruct p
      | |- preserves _ (match ?p with Some _ => _ | None => _ end) =>
          destruct p
      end ].

Lemma fsum_Fin (l : list R) (a : R) :
  fsum (map Fin l) (Fin a) = Fin (a + Rsum l).
Proof.
  revert a. induction l as [| x l IH]; intros a; cbn [map fsum Rsum fold_right].
  - f_equal. lra.
  - cbn [fadd]. rewrite IH. f_equal. unfold Rsum. lra.
Qed.

Lemma py_sum_Fin (l : list R) : py_sum (map Fin l) = Fin (Rsum l).
Proof. unfold py_sum. rewrite fsum_Fin. f_equal. lra. Qed.

Lemma truediv_Fin {S} (a b : R) (s : S) :
  b <> 0 -> truediv (Fin a) (Fin b) s = (Ok (Fin (a / b)), s).
Proof.
  intros Hb. unfold truediv, is_zero.
  now replace (Reqb b 0) with false by (symmetry; now apply Reqb_false).
Qed.

Lemma truediv_count {S} (a : pyfloat) (n : nat) (s : S) :
  (0 < n)%nat -> truediv a (of_nat n) s = (Ok (a / of_nat n)%pf, s).
Proof.
  intros Hn. unfold truediv, of_nat, is_zero.
  replace (Reqb (INR n) 0) with false; [reflexivity |].
  symmetry. apply Reqb_false, not_0_INR. lia.
Qed.

(** ** Signal generation stays within the physiological bounds *)

Lemma np_random_normal_ok (loc scale : pyfloat) (s : sensors) :
  (scale <? Fin 0)%pf = false ->
  np_random_normal loc scale s
  = (Ok (normal_draw (rng_calls s) loc scale),
     set_rng_calls (S (rng_calls s)) s).
Proof. intros Hs. unfold np_random_normal. now rewrite Hs. Qed.

(** Closes the side condition of a draw: the scale is a finite real that is
    not negative. *)
Ltac scale_ok :=
  cbn [fadd fsub fmul fdiv fopp flt]; rewrite ?fmin_Fin;
  cbn [fadd fsub fmul fdiv fopp flt];
  apply Rltb_false;
  repeat match goal with
    | |- context [Rmin ?a ?b] =>
        unfold Rmin; destruct (Rle_dec a b)
    end; lra.

Ltac draw_ok :=
  unfold bind; rewrite np_random_normal_ok by scale_ok;
  eexists; reflexivity.

Lemma hr_components_ok (sc : string) (r : R) (s : sensors) :
  0 <= r ->
  exists parts,
    hr_components sc (Fin r) s
    = (Ok parts, set_rng_calls (S (rng_calls s)) s).
Proof.
  intros Hr. unfold hr_components.
  destruct (String.eqb sc "baseline"); [draw_ok |].
  destruct (String.eqb sc "stress_buildup"); [draw_ok |].
  destruct (String.eqb sc "recovery").
  - destruct (Fin r <? Fin 10)%pf; draw_ok.
  - destruct (Fin r <? Fin 20)%pf eqn:E20; [draw_ok |].
    apply Rltb_false in E20.
    destruct (Fin r <? Fin 40)%pf; draw_ok.
Qed.

Lemma eda_components_ok (sc : string) (r : R) (s : sensors) :
  0 <= r ->
  exists parts,
    eda_components sc (Fin r) s
    = (Ok parts, set_rng_calls (S (rng_calls s)) s).
Proof.
  intros Hr. unfold eda_components.
  destruct (String.eqb sc "baseline"); [draw_ok |].
  destruct (String.eqb sc "stress_buildup"); [draw_ok |].
  destruct (String.eqb sc "recovery").
  - destruct (Fin r <? Fin 20)%pf; draw_ok.
  - destruct (Fin r <? Fin 20)%pf eqn:E20; [draw_ok |].
    apply Rltb_false in E20.
    destruct (Fin r <? Fin 40)%pf; draw_ok.
Qed.

Lemma get_hr_spec (s : sensors) (r : R) :
  _current_time s = Fin r -> 0 <= r ->
  exists v, 50 <= v <= 180 /\
    get_hr s
    = (Ok (Fin v),
       set_hr_history (pushed_history (_hr_history s) (Fin v))
         (set_rng_calls (S (rng_calls s)) s)).
Proof.
  intros Ht Hr. unfold get_hr.
  destruct (hr_components_ok (_scenario s) r s Hr) as [[[[b sl] fa] no] Hc].
  destruct (clamp_range (b + sl + fa + no)%pf 50 180 ltac:(lra))
    as (v & Hv & Hb).
  exists v. split; [exact Hb |].
  unfold bind, gets. rewrite Ht, Hc. rewrite Hv.
  unfold modify, ret, pushed_history. cbn -[Nat.ltb last_n].
  destruct (_hrv_window_size <? length (_hr_history s ++ [Fin v]))%nat;
    reflexivity.
Qed.

Lemma get_eda_spec (s : sensors) (r : R) :
  _current_time s = Fin r -> 0 <= r ->
  exists v, 0.1 <= v <= 10 /\
    get_eda s = (Ok (Fin v), set_rng_calls (S (rng_calls s)) s).
Proof.
  intros Ht Hr. unfold get_eda.
  destruct (eda_components_ok (_scenario s) r s Hr) as [[[[b sl] me] no] Hc].
  destruct (clamp_range (b + sl + me + no)%pf 0.1 10 ltac:(lra))
    as (v & Hv & Hb).
  exists v. split; [exact Hb |].
  unfold bind, gets. rewrite Ht, Hc. rewrite Hv. reflexivity.
Qed.

(** C7.  For each of the four valid scenarios, every virtual time [t >= 0]
    and whatever the random draws return, [get_hr] returns a value in
    [50, 180] and [get_eda] a value in [0.1, 10]. *)
Theorem C7_signals_within_bounds (s : sensors) (t : R) :
  In (_scenario s) valid_scenarios ->
  _current_time s = Fin t -> 0 <= t ->
  (exists v s', get_hr s = (Ok (Fin v), s') /\ 50 <= v <= 180) /\
  (exists v s', get_eda s = (Ok (Fin v), s') /\ 0.1 <= v <= 10).
Proof.
  intros _ Ht Hr. split.
  - destruct (get_hr_spec s t Ht Hr) as (v & Hb & Hg). eauto.
  - destruct (get_eda_spec s t Ht Hr) as (v & Hb & Hg). eauto.
Qed.

Lemma pushed_history_ok (h : list pyfloat) (v : R) :
  hr_history_ok h -> 50 <= v <= 180 ->
  hr_history_ok (pushed_history h (Fin v)).
Proof.
  intros Hh Hv. unfold pushed_history, last_n, hr_history_ok.
  assert (Hall : Forall (fun x => exists r, x = Fin r /\ 50 <= r <= 180)
                   (h ++ [Fin v])).
  { apply Forall_app. split; [exact Hh |]. constructor; [| constructor].
    now exists v. }
  destruct (_hrv_window_size <? length (h ++ [Fin v]))%nat;
    [now apply Forall_drop | exact Hall].
Qed.

(** ** The stress index *)

Lemma compute_stress_index_formula (hr eda hrv w_hr w_eda w_hrv : R)
  (s : sensors) :
  compute_stress_index (Fin hr) (Fin eda) (Some (Fin hrv))
    (Fin w_hr) (Fin w_eda) (Fin w_hrv) s
  = (Ok (Fin (stress_formula hr eda hrv w_hr w_eda w_hrv)), s).
Proof.
  unfold compute_stress_index, bind, ret.
  cbn [fsub fadd fopp fdiv fmul]. rewrite !clamp_Fin.
  cbn [fsub fadd fopp fdiv fmul].
  unfold stress_formula, norm_hr, norm_eda, norm_hrv.
  replace ((hr + - (45)) / (180 - 45)) with ((hr - 45) / 135) by lra.
  replace (1 + - ((hrv + - (10)) / (200 - 10))) with (1 - (hrv - 10) / 190)
    by lra.
  do 3 f_equal. lra.
Qed.

Lemma stress_formula_range (hr eda hrv w_hr w_eda w_hrv : R) :
  0 <= w_hr -> 0 <= w_eda -> 0 <= w_hrv -> w_hr + w_eda + w_hrv <= 1 ->
  0 <= stress_formula hr eda hrv w_hr w_eda w_hrv <= 100.
Proof.
  intros H1 H2 H3 Hs. unfold stress_formula, norm_hr, norm_eda, norm_hrv.
  pose proof (clampR_range ((hr - 45) / 135) 0 1 ltac:(lra)) as Ha.
  pose proof (clampR_range (eda / 10) 0 1 ltac:(lra)) as Hb.
  pose proof (clampR_range (1 - (hrv - 10) / 190) 0 1 ltac:(lra)) as Hc.
  set (a := clampR _ 0 1) in *. set (b := clampR (eda / 10) 0 1) in *.
  set (c := clampR (1 - _) 0 1) in *.
  nra.
Qed.

(** C8, amended.  [compute_stress_index] equals
    [100 * (w_hr * norm_hr + w_eda * norm_eda + w_hrv * norm_hrv)] with the
    three clamped normalisations and no renormalisation of the weights, for
    any weights; and for inputs within the documented physiological ranges
    and non-negative weights whose sum is at most 1 (the defaults
    0.33 / 0.33 / 0.34 among them) its output is in [0, 100]. *)
Theorem C8_stress_index (hr eda hrv w_hr w_eda w_hrv : R) (s : sensors) :
  compute_stress_index (Fin hr) (Fin eda) (Some (Fin hrv))
    (Fin w_hr) (Fin w_eda) (Fin w_hrv) s
  = (Ok (Fin (stress_formula hr eda hrv w_hr w_eda w_hrv)), s)
  /\ (50 <= hr <= 180 -> 0.1 <= eda <= 10 -> 10 <= hrv <= 200 ->
      0 <= w_hr -> 0 <= w_eda -> 0 <= w_hrv -> w_hr + w_eda + w_hrv <= 1 ->
      0 <= stress_formula hr eda hrv w_hr w_eda w_hrv <= 100).
Proof.
  split; [apply compute_stress_index_formula |].
  intros _ _ _. apply stress_formula_range.
Qed.

(** ** The baseline protocol *)

Lemma average_Fin (l : list R) : average (map Fin l) = Fin (Rmean l).
Proof.
  unfold average, of_nat. now rewrite py_sum_Fin, List.length_map.
Qed.

Lemma compute_baseline_values_few (s : sensors) :
  (length (_baseline_samples s) < 10)%nat ->
  compute_baseline_values s = (Ok false, s).
Proof.
  intros Hl. unfold compute_baseline_values. rewrite bind_gets.
  now replace (length (_baseline_samples s) <? 10)%nat with true
    by (symmetry; apply Nat.ltb_lt; lia).
Qed.

Lemma compute_baseline_values_enough (s : sensors) :
  (10 <= length (_baseline_samples s))%nat ->
  compute_baseline_values s = (Ok true, with_baseline s).
Proof.
  intros Hl. unfold compute_baseline_values. rewrite bind_gets.
  replace (length (_baseline_samples s) <? 10)%nat with false
    by (symmetry; apply Nat.ltb_ge; lia).
  cbv zeta. unfold bind, modify, ret.
  rewrite !List.length_map.
  rewrite !truediv_count by lia.
  unfold with_baseline, average. now rewrite !List.length_map.
Qed.

(** C5.  [compute_baseline_values] returns [False] and changes no state
    while fewer than 10 baseline samples are collected.  With at least 10
    it returns [True] and turns the flag on; for samples that are numbers
    it sets [_baseline_hr], [_baseline_eda] and [_baseline_hrv] to the
    arithmetic means of the samples' hr, eda and hrv and leaves every other
    global as it was, and a call repeated on the state so reached returns
    [True] and changes nothing.  What a call computes depends on the
    collected samples alone, not on the flag nor on the values computed
    before: a later call made while the samples are the same returns
    [True] with the same three values, and one made after another sample
    was collected computes them anew. *)
Theorem C5_compute_baseline_values (s : sensors) :
  ((length (_baseline_samples s) < 10)%nat ->
   compute_baseline_values s = (Ok false, s))
  /\ ((10 <= length (_baseline_samples s))%nat ->
      (forall hrs edas hrvs : list R,
         map bs_hr (_baseline_samples s) = map Fin hrs ->
         map bs_eda (_baseline_samples s) = map Fin edas ->
         map bs_hrv (_baseline_samples s) = map Fin hrvs ->
         let s' := Sensors (_current_time s) (_scenario s) (_hr_history s)
                     true (Fin (Rmean hrs)) (Fin (Rmean edas))
                     (Fin (Rmean hrvs)) (_baseline_samples s) (rng_calls s) in
         compute_baseline_values s = (Ok true, s')
         /\ compute_baseline_values s' = (Ok true, s'))
      /\ (forall s2,
            _baseline_samples s2 = _baseline_samples s ->
            fst (compute_baseline_values s2) = Ok true
            /\ baseline_state (snd (compute_baseline_values s2))
               = baseline_state (snd (compute_baseline_values s))
            /\ _baseline_computed (snd (compute_baseline_values s2)) = true)).
Proof.
  split; [apply compute_baseline_values_few |].
  intros Hl. split.
  - intros hrs edas hrvs Hhr Heda Hhrv s'.
    assert (Hfirst : compute_baseline_values s = (Ok true, s')).
    { rewrite (compute_baseline_values_enough s Hl).
      unfold with_baseline, s'.
      now rewrite Hhr, Heda, Hhrv, !average_Fin. }
    split; [exact Hfirst |].
    assert (Hl' : (10 <= length (_baseline_samples s'))%nat) by exact Hl.
    rewrite (compute_baseline_values_enough s' Hl').
    unfold with_baseline, s'. cbn [_baseline_samples _current_time _scenario
                                    _hr_history rng_calls].
    now rewrite Hhr, Heda, Hhrv, !average_Fin.
  - intros s2 Hsame.
    assert (Hl2 : (10 <= length (_baseline_samples s2))%nat)
      by now rewrite Hsame.
    rewrite (compute_baseline_values_enough s Hl),
      (compute_baseline_values_enough s2 Hl2).
    unfold with_baseline, baseline_state. cbn. now rewrite Hsame.
Qed.

Lemma np_random_normal_inert (loc scale : pyfloat) :
  preserves baseline_state (np_random_normal loc scale).
Proof. unfold np_random_normal. preserves_tac. Qed.

Lemma get_hr_inert : preserves baseline_state get_hr.
Proof.
  unfold get_hr, hr_components.
  repeat first [ apply np_random_normal_inert | progress preserves_tac ].
Qed.

Lemma get_eda_inert : preserves baseline_state get_eda.
Proof.
  unfold get_eda, eda_components.
  repeat first [ apply np_random_normal_inert | progress preserves_tac ].
Qed.

Lemma get_hrv_inert : preserves baseline_state get_hrv.
Proof. unfold get_hrv. preserves_tac. Qed.

Lemma compute_stress_index_inert hr eda hrv w1 w2 w3 :
  preserves baseline_state (compute_stress_index hr eda hrv w1 w2 w3).
Proof.
  unfold compute_stress_index.
  apply preserves_bind; [| intros; preserves_tac].
  destruct hrv; [preserves_tac | apply get_hrv_inert].
Qed.

Lemma after_inert (c : sensors_call) (s : sensors) :
  baseline_call c = false -> baseline_state (after c s) = baseline_state s.
Proof.
  destruct c; intros Hc; try discriminate Hc; cbn [after].
  - apply get_hr_inert.
  - apply get_eda_inert.
  - apply get_hrv_inert.
  - apply compute_stress_index_inert.
  - reflexivity.
  - reflexivity.
  - unfold set_scenario. now destruct (str_in name valid_scenarios).
  - reflexivity.
  - reflexivity.
  - reflexivity.
  - reflexivity.
  - reflexivity.
  - reflexivity.
  - reflexivity.
Qed.

Lemma after_collect (hr eda hrv : pyfloat) (s : sensors) :
  _baseline_computed (after (CallCollectBaselineSample hr eda hrv) s)
  = _baseline_computed s
  /\ _baseline_samples (after (CallCollectBaselineSample hr eda hrv) s)
     = _baseline_samples s ++ [BaselineSample (_current_time s) hr eda hrv].
Proof. now split. Qed.

Lemma after_compute (s : sensors) :
  after CallComputeBaselineValues s
  = if (length (_baseline_samples s) <? 10)%nat then s else with_baseline s.
Proof.
  cbn [after]. destruct (Nat.ltb_spec (length (_baseline_samples s)) 10).
  - now rewrite compute_baseline_values_few.
  - now rewrite compute_baseline_values_enough.
Qed.

Lemma after_reset (s : sensors) :
  after CallResetBaselineProtocol s
  = Sensors (Fin 0) (_scenario s) (_hr_history s) false (Fin 75) (Fin 2)
      (Fin 50) [] (rng_calls s).
Proof. reflexivity. Qed.

(** No call turns the flag on unless it is [compute_baseline_values] with
    ten samples at hand. *)
Lemma computed_rises_only_on_compute (c : sensors_call) (s : sensors) :
  _baseline_computed s = false ->
  _baseline_computed (after c s) = true ->
  c = CallComputeBaselineValues
  /\ (10 <= length (_baseline_samples s))%nat
  /\ _baseline_samples (after c s) = _baseline_samples s.
Proof.
  intros Hoff Hon.
  destruct (baseline_call c) eqn:Hc.
  - destruct c; try discriminate Hc.
    + cbn [after] in Hon. cbn in Hon. congruence.
    + rewrite after_compute in Hon |- *.
      destruct (Nat.ltb_spec (length (_baseline_samples s)) 10);
        [congruence | easy].
    + rewrite after_reset in Hon. discriminate Hon.
  - pose proof (after_inert c s Hc) as E. unfold baseline_state in E.
    congruence.
Qed.

Lemma computed_stays (c : sensors_call) (s : sensors) :
  _baseline_computed s = true ->
  c <> CallResetBaselineProtocol ->
  _baseline_computed (after c s) = true.
Proof.
  intros Hon Hc.
  destruct (baseline_call c) eqn:Hb.
  - destruct c; try discriminate Hb.
    + exact Hon.
    + rewrite after_compute.
      now destruct (length (_baseline_samples s) <? 10)%nat.
    + now contradiction Hc.
  - pose proof (after_inert c s Hb) as E. unfold baseline_state in E.
    congruence.
Qed.

Lemma reachable_computed_has_samples (s : sensors) :
  reachable s ->
  _baseline_computed s = true -> (10 <= length (_baseline_samples s))%nat.
Proof.
  induction 1 as [| c s Hr IH]; [discriminate |].
  intros Hon.
  destruct (_baseline_computed s) eqn:Hs.
  - specialize (IH eq_refl).
    destruct (baseline_call c) eqn:Hb.
    + destruct c; try discriminate Hb.
      * match goal with
        | |- context [after (CallCollectBaselineSample ?a ?b ?d) s] =>
            destruct (after_collect a b d s) as [_ ->]
        end.
        rewrite List.length_app. lia.
      * rewrite after_compute.
        now destruct (length (_baseline_samples s) <? 10)%nat.
      * rewrite after_reset in Hon. discriminate Hon.
    + pose proof (after_inert c s Hb) as E. unfold baseline_state in E.
      congruence.
  - destruct (computed_rises_only_on_compute c s Hs Hon) as (_ & Hl & ->).
    exact Hl.
Qed.

(** C4.  In every reachable state of the baseline protocol: a call turns
    [_baseline_computed] from false to true only if it is
    [compute_baseline_values] with at least 10 samples collected, so the
    flag is never on with fewer than 10 samples; once on, it stays on under
    every call except [reset_baseline_protocol]; and the reset empties the
    samples, turns the flag off, puts the baseline values back to
    75.0 / 2.0 / 50.0 and the virtual clock back to 0. *)
Theorem C4_baseline_computed_flag (s : sensors) (c : sensors_call) :
  reachable s ->
  (_baseline_computed s = false ->
   _baseline_computed (after c s) = true ->
   c = CallComputeBaselineValues
   /\ (10 <= length (_baseline_samples s))%nat)
  /\ (_baseline_computed s = true ->
      (10 <= length (_baseline_samples s))%nat)
  /\ (_baseline_computed s = true ->
      c <> CallResetBaselineProtocol ->
      _baseline_computed (after c s) = true)
  /\ (let s' := after CallResetBaselineProtocol s in
      _baseline_samples s' = []
      /\ _baseline_computed s' = false
      /\ _baseline_hr s' = Fin 75
      /\ _baseline_eda s' = Fin 2
      /\ _baseline_hrv s' = Fin 50
      /\ _current_time s' = Fin 0).
Proof.
  intros Hr. split; [| split; [| split]].
  - intros Hoff Hon.
    destruct (computed_rises_only_on_compute c s Hoff Hon) as (Hc & Hl & _).
    now split.
  - now apply reachable_computed_has_samples.
  - now apply computed_stays.
  - now rewrite after_reset.
Qed.

(** ** Heart-rate variability *)

Lemma successive_abs_diffs_length (l : list R) :
  length (successive_abs_diffs l) = (length l - 1)%nat.
Proof.
  induction l as [| a [| b tl] IH]; [reflexivity | reflexivity |].
  cbn [successive_abs_diffs length] in *. rewrite IH. lia.
Qed.

(** The comprehension over [range(len(rr) - 1)] computes the successive
    differences. *)
Lemma successive_abs_diffs_by_index (l : list R) :
  map (fun i => Rabs (nth (i + 1) l 0 - nth i l 0)) (seq 0 (length l - 1))
  = successive_abs_diffs l.
Proof.
  induction l as [| a [| b tl] IH]; [reflexivity | reflexivity |].
  cbn [length] in *.
  replace (S (S (length tl)) - 1)%nat with (S (length tl)) by lia.
  replace (S (length tl) - 1)%nat with (length tl) in IH by lia.
  change (successive_abs_diffs (a :: b :: tl))
    with (Rabs (b - a) :: successive_abs_diffs (b :: tl)).
  cbn [seq map]. f_equal.
  rewrite <- IH, <- seq_shift, map_map.
  apply map_ext. intros i. reflexivity.
Qed.

Lemma Rsum_squares_nonneg (l : list R) (m : R) :
  0 <= Rsum (map (fun x => Rsqr (x - m)) l).
Proof.
  induction l as [| x l IH]; cbn [map Rsum fold_right]; [lra |].
  pose proof (Rle_0_sqr (x - m)). unfold Rsum in IH. lra.
Qed.

Lemma get_hrv_short (s : sensors) :
  (length (_hr_history s) < 2)%nat -> get_hrv s = (Ok (Fin 50), s).
Proof.
  intros Hl. unfold get_hrv, bind, gets.
  now replace (length (_hr_history s) <? 2)%nat with true
    by (symmetry; apply Nat.ltb_lt; lia).
Qed.

Lemma rr_intervals_ok (h : list R) (s : sensors) :
  Forall (fun x => x <> 0) h ->
  mapM (fun hr => truediv (Fin 60000) hr) (map Fin h) s
  = (Ok (map Fin (map rr_interval h)), s).
Proof.
  intros Hnz.
  rewrite (mapM_ok_map _ (fun p => (Fin 60000 / p)%pf)).
  - now rewrite !List.map_map.
  - intros x Hx. apply List.in_map_iff in Hx as (y & <- & Hy).
    apply truediv_Fin. revert y Hy. now apply List.Forall_forall.
Qed.

Lemma nn_intervals_ok (rr : list R) (s : sensors) :
  mapM (fun i =>
          do a <- index (map Fin rr) (i + 1);
          do b <- index (map Fin rr) i;
          ret (fabs (a - b)%pf))
       (seq 0 (length (map Fin rr) - 1)) s
  = (Ok (map Fin (successive_abs_diffs rr)), s).
Proof.
  rewrite (mapM_ok_map _
             (fun i => Fin (Rabs (nth (i + 1) rr 0 - nth i rr 0)))).
  - rewrite List.length_map, <- successive_abs_diffs_by_index.
    now rewrite List.map_map.
  - intros i Hi. apply List.in_seq in Hi. rewrite List.length_map in Hi.
    unfold bind, index. rewrite !List.nth_error_map.
    rewrite (List.nth_error_nth' rr 0) by lia.
    rewrite (List.nth_error_nth' rr 0) by lia.
    reflexivity.
Qed.

Lemma get_hrv_long (s : sensors) (h : list R) :
  _hr_history s = map Fin h -> (2 <= length h)%nat ->
  Forall (fun x => x <> 0) h ->
  get_hrv s = (Ok (Fin (sdnn h)), s).
Proof.
  intros Hh Hlen Hnz. unfold get_hrv, bind at 1, gets. rewrite Hh.
  replace (length (map Fin h) <? 2)%nat with false
    by (symmetry; apply Nat.ltb_ge; rewrite List.length_map; lia).
  unfold bind at 1. rewrite (rr_intervals_ok h s Hnz).
  set (rr := map rr_interval h).
  unfold bind at 1. rewrite (nn_intervals_ok rr s).
  set (nn := successive_abs_diffs rr).
  assert (Hn : length nn = (length h - 1)%nat).
  { unfold nn, rr. now rewrite successive_abs_diffs_length, List.length_map. }
  rewrite List.length_map.
  replace (length nn =? 0)%nat with false
    by (symmetry; apply Nat.eqb_neq; lia).
  assert (Hnn : INR (length nn) <> 0) by (apply not_0_INR; lia).
  unfold bind at 1. rewrite py_sum_Fin. unfold of_nat.
  rewrite (truediv_Fin _ _ s Hnn).
  unfold bind at 1.
  rewrite List.map_map. cbn [fsub fadd fopp fmul].
  rewrite <- (List.map_map (fun x => Rsqr (x - Rsum nn / INR (length nn))) Fin).
  rewrite py_sum_Fin, (truediv_Fin _ _ s Hnn).
  unfold bind, pow_half.
  replace (Rltb _ 0) with false.
  2:{ symmetry. apply Rltb_false.
      apply Rmult_le_pos; [apply Rsum_squares_nonneg |].
      apply Rlt_le, Rinv_0_lt_compat, lt_0_INR. lia. }
  unfold ret. rewrite clamp_Fin. reflexivity.
Qed.

Lemma hr_history_ok_reals (h : list pyfloat) :
  hr_history_ok h ->
  exists rs, h = map Fin rs /\ Forall (fun v => 50 <= v <= 180) rs.
Proof.
  induction 1 as [| x l (v & -> & Hv) _ (rs & -> & Hrs)].
  - now exists [].
  - exists (v :: rs). split; [reflexivity | now constructor].
Qed.

(** [get_hrv] looks at [_hr_history] and at nothing else, and assigns
    nothing. *)
Lemma get_hrv_reads_history_only (s s' : sensors) :
  _hr_history s' = _hr_history s ->
  fst (get_hrv s') = fst (get_hrv s) /\ snd (get_hrv s) = s.
Proof.
  intros Hh. unfold get_hrv. rewrite !bind_gets, Hh.
  match goal with
  | |- fst (?B s') = _ /\ _ => assert (Hfree : state_free B) by state_free_tac
  end.
  destruct Hfree as [r Hr]. now rewrite !Hr.
Qed.

Lemma get_eda_keeps_history (s : sensors) :
  _hr_history (snd (get_eda s)) = _hr_history s.
Proof.
  assert (Hp : preserves _hr_history get_eda)
    by (unfold get_eda, eda_components, np_random_normal; preserves_tac).
  apply Hp.
Qed.

Lemma compute_stress_index_keeps_history hr eda hrv w1 w2 w3 (s : sensors) :
  _hr_history (snd (compute_stress_index hr eda hrv w1 w2 w3 s))
  = _hr_history s.
Proof.
  assert (Hp : preserves _hr_history
                 (compute_stress_index hr eda hrv w1 w2 w3)).
  { unfold compute_stress_index.
    apply preserves_bind; [| intros; preserves_tac].
    destruct hrv; [preserves_tac | unfold get_hrv; preserves_tac]. }
  apply Hp.
Qed.

Lemma after_compute_history (s : sensors) :
  _hr_history (snd (compute_baseline_values s)) = _hr_history s.
Proof.
  destruct (Nat.lt_ge_cases (length (_baseline_samples s)) 10) as [Hl | Hl].
  - now rewrite compute_baseline_values_few.
  - now rewrite compute_baseline_values_enough.
Qed.

Lemma hr_components_keeps_history (sc : string) (t : pyfloat) :
  preserves _hr_history (hr_components sc t).
Proof.
  unfold hr_components, np_random_normal. preserves_tac.
Qed.

(** Whatever the clock and the draws are, [get_hr] leaves in [_hr_history]
    only finite values in [50, 180]. *)
Lemma get_hr_keeps_history_ok (s : sensors) :
  hr_history_ok (_hr_history s) ->
  hr_history_ok (_hr_history (snd (get_hr s))).
Proof.
  intros Hok. unfold get_hr. rewrite !bind_gets. unfold bind at 1.
  pose proof (hr_components_keeps_history (_scenario s) (_current_time s) s)
    as Hkeep.
  destruct (hr_components (_scenario s) (_current_time s) s)
    as [[[[[b sl] fa] no] | e] s0]; cbn [snd] in *; [| now rewrite Hkeep].
  destruct (clamp_range (b + sl + fa + no)%pf 50 180 ltac:(lra))
    as (v & Hv & Hb).
  rewrite Hv. unfold bind, modify, gets, ret. cbn -[Nat.ltb last_n].
  rewrite Hkeep.
  pose proof (pushed_history_ok (_hr_history s) v Hok Hb) as P.
  unfold pushed_history in P.
  destruct (_hrv_window_size <? length (_hr_history s ++ [Fin v]))%nat;
    exact P.
Qed.

Lemma reachable_hr_history_ok (s : sensors) :
  reachable s -> hr_history_ok (_hr_history s).
Proof.
  induction 1 as [| c s Hr IH]; [constructor |].
  destruct c; cbn [after]; try exact IH.
  - now apply get_hr_keeps_history_ok.
  - now rewrite (get_eda_keeps_history s).
  - now rewrite (proj2 (get_hrv_reads_history_only s s eq_refl)).
  - now rewrite (compute_stress_index_keeps_history _ _ _ _ _ _ s).
  - unfold set_scenario. now destruct (str_in name valid_scenarios).
  - now rewrite after_compute_history.
Qed.

Lemma pushed_history_length (h : list pyfloat) (x : pyfloat) :
  (length h <= _hrv_window_size)%nat ->
  (length (pushed_history h x) <= _hrv_window_size)%nat.
Proof.
  intros Hl. unfold pushed_history, last_n.
  destruct (Nat.ltb_spec _hrv_window_size (length (h ++ [x]))) as [Hgt | Hle].
  - rewrite length_drop. lia.
  - exact Hle.
Qed.

Lemma get_hr_keeps_history_length (s : sensors) :
  (length (_hr_history s) <= _hrv_window_size)%nat ->
  (length (_hr_history (snd (get_hr s))) <= _hrv_window_size)%nat.
Proof.
  intros Hl. unfold get_hr. rewrite !bind_gets. unfold bind at 1.
  pose proof (hr_components_keeps_history (_scenario s) (_current_time s) s)
    as Hkeep.
  destruct (hr_components (_scenario s) (_current_time s) s)
    as [[[[[b sl] fa] no] | e] s0]; cbn [snd] in *; [| now rewrite Hkeep].
  set (x := clamp (b + sl + fa + no)%pf (Fin 50) (Fin 180)).
  unfold bind, modify, gets, ret. cbn -[Nat.ltb last_n].
  rewrite Hkeep.
  pose proof (pushed_history_length (_hr_history s) x Hl) as P.
  unfold pushed_history in P.
  destruct (_hrv_window_size <? length (_hr_history s ++ [x]))%nat;
    exact P.
Qed.

(** [_hr_history] is a window: in every reachable state it holds at most
    the 20 most recent heart rates, each a finite value in [50, 180]. *)
Theorem hr_history_window (s : sensors) :
  reachable s ->
  (length (_hr_history s) <= 20)%nat /\ hr_history_ok (_hr_history s).
Proof.
  intros Hr. split; [| now apply reachable_hr_history_ok].
  change 20%nat with _hrv_window_size.
  induction Hr as [| c s Hr IH]; [cbn; unfold _hrv_window_size; lia |].
  destruct c; cbn [after]; try exact IH.
  - now apply get_hr_keeps_history_length.
  - now rewrite (get_eda_keeps_history s).
  - now rewrite (proj2 (get_hrv_reads_history_only s s eq_refl)).
  - now rewrite (compute_stress_index_keeps_history _ _ _ _ _ _ s).
  - unfold set_scenario. now destruct (str_in name valid_scenarios).
  - now rewrite after_compute_history.
Qed.

(** C6.  [get_hrv] returns exactly 50.0 when [_hr_history] holds fewer than
    two heart rates; otherwise it returns the population standard deviation
    of the absolute differences of consecutive RR intervals ([60000 / hr]),
    clamped to [10, 200]; and its result is a function of the contents of
    [_hr_history] alone.  The heart rates of a reachable state are finite
    and within [50, 180], hence never zero. *)
Theorem C6_get_hrv (s : sensors) :
  ((length (_hr_history s) < 2)%nat -> get_hrv s = (Ok (Fin 50), s))
  /\ (forall h : list R,
        _hr_history s = map Fin h -> (2 <= length h)%nat ->
        Forall (fun x => x <> 0) h ->
        get_hrv s = (Ok (Fin (sdnn h)), s) /\ 10 <= sdnn h <= 200)
  /\ (reachable s ->
      exists h : list R,
        _hr_history s = map Fin h /\ Forall (fun x => 50 <= x <= 180) h)
  /\ (forall s' : sensors,
        _hr_history s' = _hr_history s ->
        fst (get_hrv s') = fst (get_hrv s)).
Proof.
  split; [apply get_hrv_short |]. split; [| split].
  - intros h Hh Hl Hnz. split; [now apply get_hrv_long |].
    apply clampR_range. lra.
  - intros Hr. apply hr_history_ok_reals.
    now apply reachable_hr_history_ok.
  - intros s' Hs'. now apply get_hrv_reads_history_only.
Qed.

Lemma get_hrv_on_ok_history (s : sensors) :
  hr_history_ok (_hr_history s) ->
  exists v, get_hrv s = (Ok (Fin v), s) /\ 10 <= v <= 200.
Proof.
  intros Hok. destruct (Nat.lt_ge_cases (length (_hr_history s)) 2) as [Hl | Hl].
  - exists 50. split; [now apply get_hrv_short | lra].
  - destruct (hr_history_ok_reals _ Hok) as (rs & Hrs & Hb).
    exists (sdnn rs). split; [| apply clampR_range; lra].
    apply get_hrv_long; [exact Hrs | | ].
    + rewrite Hrs, List.length_map in Hl. exact Hl.
    + eapply List.Forall_impl; [| exact Hb]. cbn. intros a Ha. lra.
Qed.

(** ** One tick of the server *)

Lemma in_sensors_run {A} (c : Py sensors A) (w : world) (r : result A)
  (s' : sensors) :
  c (sens w) = (r, s') ->
  in_sensors c w = (r, World (srv w) s' (events w) (wall_reads w)).
Proof. intros Hc. unfold in_sensors. now rewrite Hc. Qed.

Lemma in_connector_run {A} (c : Py (C * sensors) A) (w : world)
  (r : result A) (c' : C) (s' : sensors) :
  c (connector (srv w), sens w) = (r, (c', s')) ->
  in_connector c w
  = (r, World (set_connector c' (srv w)) s' (events w) (wall_reads w)).
Proof. intros Hc. unfold in_connector. now rewrite Hc. Qed.

Lemma compute_stress_index_given_hrv (hr eda hrv : pyfloat) (s : sensors) :
  compute_stress_index hr eda (Some hrv) w_hr_default w_eda_default
    w_hrv_default s
  = (Ok (stress_of hr eda hrv), s).
Proof. reflexivity. Qed.

(** Outside the collecting phase a tick does each of its effects once: one
    reading, no baseline sample, the clock advanced by the stream interval,
    one sample appended to the session log and returned. *)
Lemma tick_not_collecting (w : world) (v : sensor_values) (c' : C)
  (s1 : sensors) :
  read (connector (srv w), sens w) = (Ok v, (c', s1)) ->
  should_collect_baseline_sample s1 = (Ok false, s1) ->
  let w1 := World (set_connector c' (srv w)) s1 (events w) (wall_reads w) in
  generate_biofeedback_sample w
  = (Ok (sample_of v w1),
     World
       (set_session_data (session_data (srv w) ++ [sample_of v w1])
          (set_connector c' (srv w)))
       (set_current_time (_current_time s1 + stream_interval (srv w))%pf s1)
       (events w ++ [EvRead])
       (S (wall_reads w))).
Proof.
  intros Hread Hcollect w1. destruct w as [sv se ev wr].
  unfold generate_biofeedback_sample.
  unfold bind at 1. cbn [emit modify].
  erewrite bind_ok by (apply in_connector_run; cbn [srv sens]; exact Hread).
  erewrite bind_ok by (apply in_sensors_run; reflexivity).
  erewrite bind_ok by (apply in_sensors_run; cbn [sens]; exact Hcollect).
  reflexivity.
Qed.

(** While a baseline sample is due, a tick collects it and then raises on
    the [len] of an [int] inside its log line, before the stress index, the
    clock and the session log are reached. *)
Lemma tick_collecting_raises (w : world) (v : sensor_values) (c' : C)
  (s1 : sensors) :
  read (connector (srv w), sens w) = (Ok v, (c', s1)) ->
  should_collect_baseline_sample s1 = (Ok true, s1) ->
  generate_biofeedback_sample w
  = (Raise TypeError,
     World (set_connector c' (srv w))
       (set_baseline_samples
          (_baseline_samples s1
           ++ [BaselineSample (_current_time s1) (sv_hr v) (sv_eda v)
                 (sv_hrv v)]) s1)
       (events w ++ [EvRead])
       (wall_reads w)).
Proof.
  intros Hread Hcollect. destruct w as [sv se ev wr].
  unfold generate_biofeedback_sample.
  unfold bind at 1. cbn [emit modify].
  erewrite bind_ok by (apply in_connector_run; cbn [srv sens]; exact Hread).
  erewrite bind_ok by (apply in_sensors_run; reflexivity).
  erewrite bind_ok by (apply in_sensors_run; cbn [sens]; exact Hcollect).
  reflexivity.
Qed.

(** C1, where the code departs from it.  A tick taken while a baseline
    sample is due (the clock in the baseline window, the baseline not yet
    computed) reads the sensor once and collects one baseline sample, and
    then raises TypeError while it builds its log line: the virtual clock
    is not advanced, and no sample is appended to the session log or
    returned.  Outside that phase the tick does what the claim says. *)
Theorem C1_tick_raises_while_collecting (w : world) (v : sensor_values)
  (c' : C) (s1 : sensors) :
  read (connector (srv w), sens w) = (Ok v, (c', s1)) ->
  (should_collect_baseline_sample s1 = (Ok true, s1) ->
   exists w',
     generate_biofeedback_sample w = (Raise TypeError, w')
     /\ events w' = events w ++ [EvRead]
     /\ length (_baseline_samples (sens w'))
        = S (length (_baseline_samples s1))
     /\ _current_time (sens w') = _current_time s1
     /\ session_data (srv w') = session_data (srv w))
  /\ (should_collect_baseline_sample s1 = (Ok false, s1) ->
      exists sample w',
        generate_biofeedback_sample w = (Ok sample, w')
        /\ events w' = events w ++ [EvRead]
        /\ _baseline_samples (sens w') = _baseline_samples s1
        /\ _current_time (sens w')
           = (_current_time s1 + stream_interval (srv w))%pf
        /\ session_data (srv w') = session_data (srv w) ++ [sample]).
Proof.
  intros Hread. split; intros Hcollect.
  - eexists. split; [exact (tick_collecting_raises w v c' s1 Hread Hcollect) |].
    cbn. rewrite List.length_app. cbn.
    repeat split. lia.
  - do 2 eexists. split; [exact (tick_not_collecting w v c' s1 Hread Hcollect) |].
    cbn. now repeat split.
Qed.

(** ** The broadcast loop *)

Lemma pass_events_shape (message : stream_message)
  (snapshot : list websocket) (past : list event) :
  Forall2 (fun ws e => exists ok, e = EvSend ws message ok)
    snapshot (pass_events message snapshot past).
Proof.
  revert past. induction snapshot as [| ws rest IH]; intros past;
    cbn [pass_events]; constructor; eauto.
Qed.

Lemma failed_in_spec (message : stream_message) (snapshot : list websocket)
  (past : list event) (ws : websocket) :
  ws ∈ failed_in (pass_events message snapshot past)
  <-> In (EvSend ws message false) (pass_events message snapshot past).
Proof.
  revert past. induction snapshot as [| x rest IH]; intros past;
    cbn [pass_events failed_in In].
  - split; [apply not_elem_of_empty | easy].
  - destruct (send_raises past x message); cbn [failed_in].
    + rewrite elem_of_union, elem_of_singleton, IH.
      split; (intros [E | E]; [left; congruence | now right]).
    + rewrite IH. split; [now right |].
      intros [E | E]; [discriminate E | exact E].
Qed.

Lemma send_to_all_spec (message : stream_message)
  (snapshot : list websocket) (d : gset websocket) (w : world) :
  send_to_all message snapshot d w
  = (Ok (failed_in (pass_events message snapshot (events w)) ∪ d),
     World (srv w) (sens w)
       (events w ++ pass_events message snapshot (events w))
       (wall_reads w)).
Proof.
  revert d w. induction snapshot as [| ws rest IH]; intros d w.
  - cbn [send_to_all pass_events failed_in]. unfold ret.
    rewrite app_nil_r, union_empty_l_L. now destruct w.
  - cbn [send_to_all pass_events].
    unfold try_except, websocket_send, bind, gets, emit, modify, raise, ret.
    destruct (send_raises (events w) ws message) as [e |] eqn:Hsend.
    + destruct e; rewrite IH; cbn [events srv sens wall_reads];
        rewrite <- app_assoc; cbn [app failed_in].
      all: do 2 f_equal;
        now rewrite (assoc_L (∪)), (comm_L (∪) (failed_in _)).
    + rewrite IH. cbn [events srv sens wall_reads]. rewrite <- app_assoc.
      cbn [app failed_in]. reflexivity.
Qed.

Lemma discard_all_spec (l : list websocket) (w : world) :
  discard_all l w
  = (Ok tt,
     World (set_subscribers (subscribers (srv w) ∖ list_to_set l) (srv w))
       (sens w) (events w) (wall_reads w)).
Proof.
  revert w. induction l as [| ws rest IH]; intros w.
  - cbn [discard_all list_to_set]. unfold ret.
    rewrite difference_empty_L.
    now destruct w as [[] ? ? ?].
  - cbn [discard_all list_to_set]. unfold bind, modify_srv, modify.
    rewrite IH. cbn [srv sens events wall_reads subscribers set_subscribers].
    rewrite difference_difference_l_L. reflexivity.
Qed.

(** C2.  A fan-out pass over the snapshot of the registry makes one send
    attempt per subscriber of the snapshot, each with the same message,
    whether or not other sends fail; while the pass runs the registry is
    untouched; and after the pass exactly the subscribers whose send failed
    are removed from it. *)
Theorem C2_fan_out (w : world) (message : stream_message) :
  let snapshot := elements (subscribers (srv w)) in
  let sends := pass_events message snapshot (events w) in
  let failed := failed_in sends in
  NoDup snapshot
  /\ Forall2 (fun ws e => exists ok, e = EvSend ws message ok) snapshot sends
  /\ (forall ws, ws ∈ failed <-> In (EvSend ws message false) sends)
  /\ send_to_all message snapshot ∅ w
     = (Ok failed,
        World (srv w) (sens w) (events w ++ sends) (wall_reads w))
  /\ fan_out message w
     = (Ok tt,
        World (set_subscribers (subscribers (srv w) ∖ failed) (srv w))
          (sens w) (events w ++ sends) (wall_reads w)).
Proof.
  intros snapshot sends failed.
  assert (Hpass : send_to_all message snapshot ∅ w
                  = (Ok failed,
                     World (srv w) (sens w) (events w ++ sends)
                       (wall_reads w))).
  { rewrite send_to_all_spec. fold sends. fold failed.
    now rewrite union_empty_r_L. }
  split; [apply NoDup_elements |].
  split; [apply pass_events_shape |].
  split; [intros ws; apply failed_in_spec |].
  split; [exact Hpass |].
  unfold fan_out, gets_srv. rewrite bind_gets. fold snapshot.
  rewrite (bind_ok _ _ _ _ _ Hpass), discard_all_spec.
  cbn [srv sens events wall_reads]. now rewrite list_to_set_elements_L.
Qed.

(** C9.  A cycle of the broadcast loop that finds the registry empty
    generates no sample and changes nothing of the simulation (clock,
    heart-rate history, baseline samples, session log): all it does is
    sleep for the stream interval. *)
Theorem C9_idle_cycle (w : world) :
  subscribers (srv w) = ∅ ->
  broadcast_cycle w
  = (Ok tt,
     World (srv w) (sens w)
       (events w ++ [EvSleep (stream_interval (srv w))]) (wall_reads w)).
Proof.
  intros Hempty. unfold broadcast_cycle, gets_srv.
  rewrite bind_gets, Hempty.
  rewrite bool_decide_eq_false_2 by (intros Hne; now apply Hne).
  reflexivity.
Qed.

(** A cycle with subscribers: one tick, then the fan-out of its sample with
    the server information, then the sleep. *)
Lemma broadcast_cycle_busy (w w1 : world) (sample : Sample) :
  subscribers (srv w) <> ∅ ->
  generate_biofeedback_sample w = (Ok sample, w1) ->
  broadcast_cycle w
  = (do_ fan_out (StreamMessage sample (stream_frequency (srv w1))
                    (size (subscribers (srv w1))));
     do interval <- gets_srv stream_interval;
     emit (EvSleep interval)) w1.
Proof.
  intros Hne Htick. unfold broadcast_cycle, gets_srv at 1.
  rewrite bind_gets, bool_decide_eq_true_2 by exact Hne.
  unfold bind at 1 2. rewrite Htick. reflexivity.
Qed.

(** ** The command dispatcher *)

Lemma dispatch_set_frequency (ws : websocket) (message : string)
  (fields : list (string * json)) (w w' : world) (r : response) :
  json_loads message = Ok (JObj fields) ->
  is_set_frequency fields ->
  handle_set_frequency (JObj fields) w = (Ok r, w') ->
  handle_client_message ws message w = (Ok r, w').
Proof.
  intros Hload (cmd & Hcmd & Hlow) Hset.
  unfold handle_client_message, try_except.
  rewrite Hload. unfold bind at 1, ret at 1.
  unfold bind at 1, dict_get at 1, ret at 1. rewrite Hcmd.
  unfold bind at 1, str_lower, ret at 1. rewrite Hlow.
  cbn [String.eqb Ascii.eqb Bool.eqb]. now rewrite Hset.
Qed.

Lemma set_frequency_rejected (fields : list (string * json)) (w : world)
  (hz : pyfloat) :
  py_float (hz_field fields w) w = (Ok hz, w) ->
  (hz <? Fin 0.1)%pf || (hz >? Fin 50)%pf = true ->
  handle_set_frequency (JObj fields) w
  = (Ok (RError ("Invalid frequency: " ++ float_str hz
                   ++ "Hz. Must be between 0.1 and 50.0 Hz")%string
           (Some (stream_frequency (srv w))) None None), w).
Proof.
  intros Hfloat Hout. unfold handle_set_frequency, try_except, gets_srv.
  rewrite bind_gets. unfold bind at 1, dict_get, ret at 1.
  fold (hz_field fields w). unfold bind at 1. rewrite Hfloat, Hout.
  reflexivity.
Qed.

Lemma set_frequency_accepted (fields : list (string * json)) (w : world)
  (hz : pyfloat) :
  py_float (hz_field fields w) w = (Ok hz, w) ->
  (hz <? Fin 0.1)%pf || (hz >? Fin 50)%pf = false ->
  handle_set_frequency (JObj fields) w
  = (Ok (RFrequencyChanged (stream_frequency (srv w)) hz (Fin 1 / hz)%pf
           ("Streaming frequency changed to " ++ float_str hz ++ "Hz")%string),
     World (set_stream_interval (Fin 1 / hz)%pf
              (set_stream_frequency hz (srv w)))
       (sens w) (events w) (wall_reads w)).
Proof.
  intros Hfloat Hin. unfold handle_set_frequency, try_except, gets_srv.
  rewrite bind_gets. unfold bind at 1, dict_get, ret at 1.
  fold (hz_field fields w). unfold bind at 1. rewrite Hfloat, Hin.
  assert (Hnz : is_zero hz = false).
  { destruct hz as [r | | |]; try reflexivity.
    apply orb_false_elim in Hin as [Hlow _]. cbn in Hlow.
    apply Rltb_false in Hlow. cbn. apply Reqb_false. lra. }
  unfold truediv. rewrite Hnz. reflexivity.
Qed.

Lemma str_in_spec (x : string) (l : list string) :
  str_in x l = true <-> In x l.
Proof.
  unfold str_in. rewrite List.existsb_exists. split.
  - intros (y & Hy & E). apply String.eqb_eq in E. now subst.
  - intros Hx. exists x. split; [exact Hx | apply String.eqb_refl].
Qed.

(** A request that is not a usable command is answered with an error and
    changes nothing.  A text [json.loads] rejects with JSONDecodeError gets
    [Invalid JSON format]; when [json.loads] fails with anything else (a
    RecursionError, a UnicodeDecodeError) the reply is a server error with
    the exception's text, and so it is for a decoded value that is not a
    dictionary, which has no [get]; a dictionary without a [command] gets
    [Unknown command] with the list of commands, the empty text being its
    own lower case. *)
Theorem malformed_request_changes_nothing (ws : websocket) (message : string)
  (w : world) :
  (json_loads message = Raise JSONDecodeError ->
   handle_client_message ws message w
   = (Ok (error_message "Invalid JSON format"), w))
  /\ (forall e,
        json_loads message = Raise e -> e <> JSONDecodeError ->
        handle_client_message ws message w
        = (Ok (error_message ("Server error: " ++ exn_str e)%string), w))
  /\ (forall v,
        json_loads message = Ok v -> (forall fields, v <> JObj fields) ->
        handle_client_message ws message w
        = (Ok (error_message
                 ("Server error: " ++ exn_str AttributeError)%string), w))
  /\ (forall fields,
        json_loads message = Ok (JObj fields) ->
        assoc "command" fields = None ->
        lower "" = ""%string ->
        handle_client_message ws message w
        = (Ok (RError "Unknown command: " None None
                 (Some available_commands_list)), w)).
Proof.
  repeat split.
  - intros Hload. unfold handle_client_message, try_except.
    rewrite Hload. reflexivity.
  - intros e Hload He. unfold handle_client_message, try_except.
    rewrite Hload. unfold bind at 1, raise at 1.
    destruct e; try reflexivity. now destruct He.
  - intros v Hload Hv. unfold handle_client_message, try_except.
    rewrite Hload. unfold bind at 1, ret at 1.
    destruct v as [| b | z | x | t | l | fields]; try reflexivity.
    now destruct (Hv fields).
  - intros fields Hload Hcmd Hempty.
    unfold handle_client_message, try_except.
    rewrite Hload. unfold bind at 1, ret at 1.
    unfold bind at 1, dict_get at 1, ret at 1. rewrite Hcmd.
    unfold bind at 1, str_lower, ret at 1. rewrite Hempty.
    reflexivity.
Qed.

(** A [set_scenario] command with a name that is not one of the four
    leaves the scenario, and everything else, as it was and is answered with
    an error that lists the four valid names. *)
Theorem unknown_scenario_rejected (ws : websocket) (message : string)
  (fields : list (string * json)) (name : string) (w : world) :
  json_loads message = Ok (JObj fields) ->
  (exists cmd, assoc "command" fields = Some (JStr cmd)
               /\ lower cmd = "set_scenario"%string) ->
  assoc "scenario" fields = Some (JStr name) ->
  ~ In name valid_scenarios ->
  handle_client_message ws message w
  = (Ok (RError ("Invalid scenario: " ++ name)%string None
           (Some ["baseline"; "stress_buildup"; "recovery"; "mixed"]%string)
           None), w).
Proof.
  intros Hload (cmd & Hcmd & Hlow) Hname Hbad.
  assert (Hin : str_in name valid_scenarios = false).
  { destruct (str_in name valid_scenarios) eqn:E; [| reflexivity].
    now apply str_in_spec in E. }
  unfold handle_client_message, try_except.
  rewrite Hload. unfold bind at 1, ret at 1.
  unfold bind at 1, dict_get at 1, ret at 1. rewrite Hcmd.
  unfold bind at 1, str_lower, ret at 1. rewrite Hlow.
  cbn [String.eqb Ascii.eqb Bool.eqb].
  unfold handle_set_scenario, bind, dict_get, ret. rewrite Hname, Hin.
  reflexivity.
Qed.

(** For every [hz] that is not [nan] the validation does what it is meant
    to: a value within [0.1, 50.0] becomes the frequency and its inverse
    the interval; any other value, the infinities included, is answered
    with the error that names it and the current frequency, and changes
    nothing. *)
Lemma set_frequency_validates_numbers (fields : list (string * json))
  (w : world) (hz : pyfloat) :
  assoc "hz" fields = Some (JFloat hz) -> hz <> NaN ->
  (in_frequency_range hz ->
   handle_set_frequency (JObj fields) w
   = (Ok (RFrequencyChanged (stream_frequency (srv w)) hz (Fin 1 / hz)%pf
            ("Streaming frequency changed to " ++ float_str hz ++ "Hz")%string),
      World (set_stream_interval (Fin 1 / hz)%pf
               (set_stream_frequency hz (srv w)))
        (sens w) (events w) (wall_reads w)))
  /\ (~ in_frequency_range hz ->
      handle_set_frequency (JObj fields) w
      = (Ok (RError ("Invalid frequency: " ++ float_str hz
                       ++ "Hz. Must be between 0.1 and 50.0 Hz")%string
               (Some (stream_frequency (srv w))) None None), w)).
Proof.
  intros Hhz Hnan.
  assert (Hfloat : py_float (hz_field fields w) w = (Ok hz, w))
    by (unfold hz_field; now rewrite Hhz).
  split.
  - intros (r & -> & Hr). apply set_frequency_accepted; [exact Hfloat |].
    cbn. rdecide. reflexivity.
  - intros Hout. apply set_frequency_rejected; [exact Hfloat |].
    destruct hz as [r | | |]; [| reflexivity | reflexivity | easy].
    cbn. destruct (Rltb r 0.1) eqn:E1; [reflexivity |].
    destruct (Rltb 50 r) eqn:E2; [reflexivity |].
    apply Rltb_false in E1, E2. exfalso. apply Hout. exists r. split; [easy | lra].
Qed.

(** C3, where the code departs from it.  A [set_frequency] command whose
    [hz] is [nan], a value outside [0.1, 50.0], is not rejected: both range
    tests are false for it, so [stream_frequency] becomes [nan],
    [stream_interval] becomes [1.0 / nan = nan], and the reply is
    [frequency_changed]. *)
Theorem C3_nan_frequency_accepted (ws : websocket) (message : string)
  (fields : list (string * json)) (w : world) :
  json_loads message = Ok (JObj fields) ->
  is_set_frequency fields ->
  assoc "hz" fields = Some (JFloat NaN) ->
  handle_client_message ws message w
  = (Ok (RFrequencyChanged (stream_frequency (srv w)) NaN NaN
           ("Streaming frequency changed to " ++ float_str NaN ++ "Hz")%string),
     World (set_stream_interval NaN (set_stream_frequency NaN (srv w)))
       (sens w) (events w) (wall_reads w)).
Proof.
  intros Hload Hcmd Hhz.
  apply (dispatch_set_frequency ws message fields w _ _ Hload Hcmd).
  apply (set_frequency_accepted fields w NaN); [| reflexivity].
  unfold hz_field. now rewrite Hhz.
Qed.

Lemma server_init_config_ok (h : string) (p : Z) (f : R) (c : C) :
  0.1 <= f <= 50 ->
  exists s, server_init h p (Fin f) c = Ok s /\ config_ok s.
Proof.
  intros Hf. unfold server_init.
  rewrite (truediv_Fin 1 f tt) by lra.
  eexists. split; [reflexivity |]. exists f. now cbn.
Qed.

(** C10, amended.  On a server whose current frequency is within
    [0.1, 50.0] (its interval being the inverse), a [set_frequency] request
    whose payload has no [hz] field is handled with the current
    [stream_frequency] in the place of [hz]: [stream_frequency] and
    [stream_interval] are left as they are and the reply is
    [frequency_changed] with [old_frequency_hz] equal to
    [new_frequency_hz], not an error. *)
Theorem C10_missing_hz (ws : websocket) (message : string)
  (fields : list (string * json)) (w : world) :
  json_loads message = Ok (JObj fields) ->
  is_set_frequency fields ->
  assoc "hz" fields = None ->
  config_ok (srv w) ->
  exists text,
    handle_client_message ws message w
    = (Ok (RFrequencyChanged (stream_frequency (srv w))
             (stream_frequency (srv w)) (stream_interval (srv w)) text), w)
    /\ hz_field fields w = JFloat (stream_frequency (srv w)).
Proof.
  intros Hload Hcmd Hhz (f & Hf & Hrange & Hi).
  assert (Hfield : hz_field fields w = JFloat (stream_frequency (srv w)))
    by (unfold hz_field; now rewrite Hhz).
  eexists. split; [| exact Hfield].
  apply (dispatch_set_frequency ws message fields w _ _ Hload Hcmd).
  rewrite (set_frequency_accepted fields w (Fin f)).
  - destruct w as [[] se ev wr]. cbn in Hf, Hi |- *. subst.
    cbn [fdiv]. reflexivity.
  - rewrite Hfield, Hf. reflexivity.
  - cbn. rdecide. reflexivity.
Qed.

(** ** The server on the simulator connector *)

(** A connected simulator always delivers a reading, within the
    physiological bounds, and leaves the clock, the scenario and the
    baseline protocol as they were. *)
Lemma sim_read_ok (s : sensors) (t : R) :
  _current_time s = Fin t -> 0 <= t ->
  hr_history_ok (_hr_history s) ->
  exists v s1,
    sim_read (MkSimConnector true, s) = (Ok v, (MkSimConnector true, s1))
    /\ _current_time s1 = Fin t
    /\ _scenario s1 = _scenario s
    /\ baseline_state s1 = baseline_state s
    /\ hr_history_ok (_hr_history s1)
    /\ (exists a b c, v = SensorValues (Fin a) (Fin b) (Fin c)
                      /\ 50 <= a <= 180 /\ 0.1 <= b <= 10
                      /\ 10 <= c <= 200).
Proof.
  intros Ht Hpos Hok.
  destruct (get_hr_spec s t Ht Hpos) as (a & Ha & Hhr).
  set (s_a := set_hr_history (pushed_history (_hr_history s) (Fin a))
                (set_rng_calls (S (rng_calls s)) s)) in *.
  destruct (get_eda_spec s_a t Ht Hpos) as (b & Hb & Heda).
  set (s_b := set_rng_calls (S (rng_calls s_a)) s_a) in *.
  assert (Hok_b : hr_history_ok (_hr_history s_b))
    by now apply pushed_history_ok.
  destruct (get_hrv_on_ok_history s_b Hok_b) as (c & Hhrv & Hc).
  exists (SensorValues (Fin a) (Fin b) (Fin c)), s_b.
  split.
  - unfold sim_read. rewrite bind_gets. cbn [fst _connected negb].
    unfold bind, on_snd. rewrite Hhr, Heda, Hhrv. reflexivity.
  - repeat split; try easy. exists a, b, c. easy.
Qed.

(** In the baseline window, before the baseline is computed, the reading
    succeeds and a baseline sample is due. *)
Lemma sim_reading_in_window (s : sensors) (t : R) :
  _current_time s = Fin t -> 180 <= t < 240 ->
  _baseline_computed s = false ->
  hr_history_ok (_hr_history s) ->
  exists v s1,
    sim_read (MkSimConnector true, s) = (Ok v, (MkSimConnector true, s1))
    /\ should_collect_baseline_sample s1 = (Ok true, s1)
    /\ _current_time s1 = Fin t
    /\ _baseline_samples s1 = _baseline_samples s
    /\ _baseline_computed s1 = false.
Proof.
  intros Ht Hwin Hoff Hok.
  destruct (sim_read_ok s t Ht ltac:(lra) Hok)
    as (v & s1 & Hread & Ht1 & _ & Hbase & _ & _).
  unfold baseline_state in Hbase.
  assert (Hoff1 : _baseline_computed s1 = false) by congruence.
  exists v, s1.
  repeat split; [exact Hread | | exact Ht1 | congruence | exact Hoff1].
  unfold should_collect_baseline_sample, is_in_baseline_window.
  unfold bind, gets, ret. rewrite Ht1, Hoff1.
  unfold _resting_period_seconds, _baseline_window_seconds.
  cbn. rdecide. reflexivity.
Qed.

(** Outside the baseline window the reading succeeds and no baseline
    sample is due. *)
Lemma sim_reading_outside_window (s : sensors) (t : R) :
  _current_time s = Fin t -> 0 <= t -> t < 180 \/ 240 <= t ->
  hr_history_ok (_hr_history s) ->
  exists v s1,
    sim_read (MkSimConnector true, s) = (Ok v, (MkSimConnector true, s1))
    /\ should_collect_baseline_sample s1 = (Ok false, s1)
    /\ _current_time s1 = Fin t
    /\ _scenario s1 = _scenario s
    /\ _baseline_samples s1 = _baseline_samples s.
Proof.
  intros Ht Hpos Hout Hok.
  destruct (sim_read_ok s t Ht Hpos Hok)
    as (v & s1 & Hread & Ht1 & Hsc & Hbase & _ & _).
  unfold baseline_state in Hbase.
  exists v, s1.
  repeat split; [exact Hread | | exact Ht1 | exact Hsc | congruence].
  unfold should_collect_baseline_sample, is_in_baseline_window.
  unfold bind, gets, ret. rewrite Ht1.
  unfold _resting_period_seconds, _baseline_window_seconds.
  cbn. destruct Hout; rdecide; reflexivity.
Qed.

(** * Further properties of sensors.py *)

(** ** [clamp] *)

(** [clamp] returns a value between the bounds as it is, the lower bound
    for a smaller value and the upper bound for a larger one; [nan] is
    clamped to the lower bound. *)
Theorem clamp_cases (x lo hi : R) :
  lo <= hi ->
  (lo <= x <= hi -> clamp (Fin x) (Fin lo) (Fin hi) = Fin x)
  /\ (x < lo -> clamp (Fin x) (Fin lo) (Fin hi) = Fin lo)
  /\ (hi < x -> clamp (Fin x) (Fin lo) (Fin hi) = Fin hi)
  /\ clamp NaN (Fin lo) (Fin hi) = Fin lo.
Proof.
  intros Hle. rewrite clamp_Fin. unfold clampR, Rmax, Rmin.
  repeat split; try reflexivity; intros Hx; f_equal;
    destruct (Rle_dec x hi); destruct (Rle_dec lo _); lra.
Qed.

Lemma clampR_monotone (x y lo hi : R) :
  x <= y -> clampR x lo hi <= clampR y lo hi.
Proof.
  intros Hxy. unfold clampR, Rmax, Rmin.
  destruct (Rle_dec x hi); destruct (Rle_dec y hi);
    repeat match goal with
      | |- context [Rle_dec ?a ?b] => destruct (Rle_dec a b)
      end; lra.
Qed.

(** ** The stress index *)

(** With non-negative weights the stress index does not fall when the heart
    rate or the skin conductance rises, and does not rise when the heart
    rate variability rises. *)
Theorem stress_index_monotone (hr1 hr2 eda1 eda2 hrv1 hrv2 : R)
  (w_hr w_eda w_hrv : R) (s : sensors) :
  0 <= w_hr -> 0 <= w_eda -> 0 <= w_hrv ->
  hr1 <= hr2 -> eda1 <= eda2 -> hrv2 <= hrv1 ->
  exists v1 v2,
    compute_stress_index (Fin hr1) (Fin eda1) (Some (Fin hrv1))
      (Fin w_hr) (Fin w_eda) (Fin w_hrv) s = (Ok (Fin v1), s)
    /\ compute_stress_index (Fin hr2) (Fin eda2) (Some (Fin hrv2))
         (Fin w_hr) (Fin w_eda) (Fin w_hrv) s = (Ok (Fin v2), s)
    /\ v1 <= v2.
Proof.
  intros H1 H2 H3 Hhr Heda Hhrv.
  do 2 eexists. rewrite !compute_stress_index_formula.
  split; [reflexivity |]. split; [reflexivity |].
  unfold stress_formula, norm_hr, norm_eda, norm_hrv.
  pose proof (clampR_monotone ((hr1 - 45) / 135) ((hr2 - 45) / 135) 0 1
                ltac:(lra)) as Ha.
  pose proof (clampR_monotone (eda1 / 10) (eda2 / 10) 0 1 ltac:(lra)) as Hb.
  pose proof (clampR_monotone (1 - (hrv1 - 10) / 190)
                (1 - (hrv2 - 10) / 190) 0 1 ltac:(lra)) as Hc.
  nra.
Qed.


(** ** Heart-rate variability *)

Lemma Rsum_constant_deviation (l : list R) (d : R) :
  Forall (fun x => x = d) l -> l <> [] -> population_stdev l = 0.
Proof.
  intros Hall Hne. unfold population_stdev.
  assert (Hmean : Rmean l = d).
  { unfold Rmean. assert (Hs : Rsum l = INR (length l) * d).
    { clear Hne. induction Hall as [| x l -> _ IH]; [cbn; lra |].
      change (Rsum (d :: l)) with (d + Rsum l). rewrite IH.
      change (length (d :: l)) with (S (length l)). rewrite S_INR. lra. }
    rewrite Hs. field. apply not_0_INR. now destruct l. }
  rewrite Hmean.
  assert (Hz : Rsum (map (fun x => Rsqr (x - d)) l) = 0).
  { clear Hne Hmean. induction Hall as [| x l -> _ IH]; [reflexivity |].
    cbn [map]. change (Rsum (?a :: ?t)) with (a + Rsum t). rewrite IH.
    unfold Rsqr. lra. }
  rewrite Hz. unfold Rdiv. rewrite Rmult_0_l. apply sqrt_0.
Qed.

Lemma sdnn_of_equal_differences (h : list R) (d : R) :
  (2 <= length h)%nat ->
  Forall (fun x => x = d) (successive_abs_diffs (map rr_interval h)) ->
  sdnn h = 10.
Proof.
  intros Hl Hall. unfold sdnn.
  rewrite (Rsum_constant_deviation _ d Hall).
  - unfold clampR, Rmax, Rmin.
    destruct (Rle_dec 0 200); [| lra]. destruct (Rle_dec 10 0); lra.
  - intros Hnil. apply (f_equal (@length R)) in Hnil.
    rewrite successive_abs_diffs_length, List.length_map in Hnil.
    cbn in Hnil. lia.
Qed.

(** A steady heart gives the lowest variability the function can report,
    not zero: with exactly two heart rates in the history, or with any
    number of equal ones, [get_hrv] returns 10.0. *)
Theorem get_hrv_steady (s : sensors) (h : list R) :
  _hr_history s = map Fin h ->
  Forall (fun x => x <> 0) h ->
  length h = 2%nat
  \/ ((2 <= length h)%nat /\ exists c, Forall (fun x => x = c) h) ->
  get_hrv s = (Ok (Fin 10), s).
Proof.
  intros Hh Hnz Hcase.
  assert (Hl : (2 <= length h)%nat) by (destruct Hcase as [-> | []]; lia).
  rewrite (get_hrv_long s h Hh Hl Hnz). do 3 f_equal.
  destruct Hcase as [Htwo | (_ & c & Hc)].
  - destruct h as [| a [| b [| ? ?]]]; try discriminate Htwo.
    apply (sdnn_of_equal_differences _ (Rabs (rr_interval b - rr_interval a)));
      [cbn; lia |].
    cbn. now repeat constructor.
  - apply (sdnn_of_equal_differences _ 0 Hl).
    clear Hh Hnz Hl. induction Hc as [| x l -> Hc IH]; [constructor |].
    destruct Hc as [| y l' -> Hc']; [constructor |].
    change (successive_abs_diffs (map rr_interval (c :: c :: l')))
      with (Rabs (rr_interval c - rr_interval c)
            :: successive_abs_diffs (map rr_interval (c :: l'))).
    constructor; [| exact IH].
    replace (rr_interval c - rr_interval c) with 0 by lra. apply Rabs_R0.
Qed.

(** ** The heart-rate window *)

(** [get_hr] appends the rate it returns to [_hr_history]; once the window
    holds 20 rates the oldest one is dropped.  The call draws once from the
    generator and touches neither the clock, the scenario nor the baseline
    protocol. *)
Theorem get_hr_slides_window (s : sensors) (t : R) :
  _current_time s = Fin t -> 0 <= t ->
  (length (_hr_history s) <= 20)%nat ->
  exists v s',
    get_hr s = (Ok (Fin v), s')
    /\ _hr_history s'
       = (if (length (_hr_history s) <? 20)%nat
          then _hr_history s
          else drop 1 (_hr_history s)) ++ [Fin v]
    /\ _current_time s' = _current_time s
    /\ _scenario s' = _scenario s
    /\ baseline_state s' = baseline_state s
    /\ rng_calls s' = S (rng_calls s).
Proof.
  intros Ht Hpos Hlen.
  destruct (get_hr_spec s t Ht Hpos) as (v & _ & Hrun).
  exists v. eexists. split; [exact Hrun |].
  cbn [_hr_history set_hr_history _current_time _scenario set_rng_calls
       rng_calls].
  split; [| now repeat split].
  unfold pushed_history, last_n, _hrv_window_size.
  rewrite List.length_app. cbn [length].
  destruct (Nat.ltb_spec (length (_hr_history s)) 20) as [Hlt | Hge].
  - now replace (20 <? length (_hr_history s) + 1)%nat with false
      by (symmetry; apply Nat.ltb_ge; lia).
  - replace (20 <? length (_hr_history s) + 1)%nat with true
      by (symmetry; apply Nat.ltb_lt; lia).
    replace (length (_hr_history s) + 1 - 20)%nat with 1%nat by lia.
    rewrite drop_app_le by lia. reflexivity.
Qed.

(** Neither reset empties the heart-rate history: [get_hrv] returns after
    [_reset_time] or [reset_baseline_protocol] what it returned before. *)
Theorem resets_keep_hrv (s : sensors) :
  fst (get_hrv (snd (_reset_time s))) = fst (get_hrv s)
  /\ fst (get_hrv (snd (reset_baseline_protocol s))) = fst (get_hrv s)
  /\ _scenario (snd (reset_baseline_protocol s)) = _scenario s.
Proof.
  split; [| split]; try reflexivity;
    now apply get_hrv_reads_history_only.
Qed.

(** ** The phases of the baseline protocol *)

(** At a finite time exactly one of three holds: the resting period
    (before 180 s), the baseline window (from 180 s to before 240 s), or the
    time past the window; the protocol is complete only past the window and
    only with the baseline computed, so past the window without it the
    protocol is neither collecting nor complete. *)
Theorem protocol_phases (s : sensors) (t : R) :
  _current_time s = Fin t ->
  phase_flags s
  = (Rltb t 180, Rleb 180 t && Rltb t 240,
     Rleb 240 t && _baseline_computed s)
  /\ (t < 180 -> phase_flags s = (true, false, false))
  /\ (180 <= t < 240 -> phase_flags s = (false, true, false))
  /\ (240 <= t ->
      phase_flags s = (false, false, _baseline_computed s)
      /\ should_collect_baseline_sample s = (Ok false, s)).
Proof.
  intros Ht.
  assert (Hflags : phase_flags s
                   = (Rltb t 180, Rleb 180 t && Rltb t 240,
                      Rleb 240 t && _baseline_computed s)).
  { unfold phase_flags, is_in_resting_period, is_in_baseline_window,
      is_baseline_protocol_complete, bind, gets, ret.
    rewrite Ht. unfold _resting_period_seconds, _baseline_window_seconds.
    cbn. replace (180 + 60) with 240 by lra. reflexivity. }
  split; [exact Hflags |]. rewrite Hflags.
  split; [| split].
  - intros Hlt. rdecide. reflexivity.
  - intros Hin. rdecide. reflexivity.
  - intros Hge. split; [rdecide; reflexivity |].
    unfold should_collect_baseline_sample, is_in_baseline_window, bind,
      gets, ret.
    rewrite Ht. cbn. rdecide. now rewrite andb_false_r.
Qed.

(** ** Signal generation before time zero *)

(** The generators are defined for times from zero on: in the scenario
    [stress_buildup] a clock below -60 s makes the scale of the heart-rate
    noise negative and [get_hr] raises ValueError, storing nothing; below
    -67.5 s [get_eda] does the same. *)
Theorem stress_buildup_before_time_zero (s : sensors) (t : R) :
  _scenario s = "stress_buildup"%string ->
  _current_time s = Fin t ->
  (t < -60 -> get_hr s = (Raise ValueError, s))
  /\ (t < -67.5 -> get_eda s = (Raise ValueError, s)).
Proof.
  intros Hsc Ht. split; intros Hneg.
  - unfold get_hr. rewrite !bind_gets, Hsc, Ht.
    unfold bind at 1, hr_components. cbn [String.eqb Ascii.eqb Bool.eqb].
    unfold bind at 1, np_random_normal.
    cbn [fadd fsub fmul fdiv fopp]. rewrite fmin_Fin. cbn [fadd flt].
    replace (Rltb (2 + Rmin (t / 30) 1) 0) with true; [reflexivity |].
    symmetry. apply Rltb_true. unfold Rmin.
    destruct (Rle_dec (t / 30) 1); lra.
  - unfold get_eda. rewrite !bind_gets, Hsc, Ht.
    unfold bind at 1, eda_components. cbn [String.eqb Ascii.eqb Bool.eqb].
    unfold bind at 1, np_random_normal.
    cbn [fadd fsub fmul fdiv fopp]. rewrite fmin_Fin. cbn [fadd fmul flt].
    replace (Rltb (0.15 + Rmin (t / 45) 1 * 0.1) 0) with true;
      [reflexivity |].
    symmetry. apply Rltb_true. unfold Rmin.
    destruct (Rle_dec (t / 45) 1); lra.
Qed.

(** * Further properties of the server *)

(** ** The tick and the baseline *)

Lemma should_collect_value (s : sensors) :
  exists b, should_collect_baseline_sample s = (Ok b, s).
Proof. eexists. reflexivity. Qed.

Lemma tick_read_raises (w : world) (e : exn) (c' : C) (s1 : sensors) :
  read (connector (srv w), sens w) = (Raise e, (c', s1)) ->
  generate_biofeedback_sample w
  = (Raise e,
     World (set_connector c' (srv w)) s1 (events w ++ [EvRead])
       (wall_reads w)).
Proof.
  intros Hread. destruct w as [sv se ev wr].
  unfold generate_biofeedback_sample.
  unfold bind at 1. cbn [emit modify].
  erewrite bind_raise by (apply in_connector_run; cbn [srv sens]; exact Hread).
  reflexivity.
Qed.

(** A tick never computes the baseline: whatever the state, the flag
    [_baseline_computed] is after the tick what the reading left it, and
    the session log grows by at most the one sample returned. *)
Theorem tick_never_computes_baseline (w : world) (r : result sensor_values)
  (c' : C) (s1 : sensors) :
  read (connector (srv w), sens w) = (r, (c', s1)) ->
  let w' := snd (generate_biofeedback_sample w) in
  _baseline_computed (sens w') = _baseline_computed s1
  /\ _baseline_hr (sens w') = _baseline_hr s1
  /\ match fst (generate_biofeedback_sample w) with
     | Ok sample => session_data (srv w') = session_data (srv w) ++ [sample]
     | Raise _ => session_data (srv w') = session_data (srv w)
     end.
Proof.
  intros Hread w'. unfold w'. destruct r as [v | e].
  - destruct (should_collect_value s1) as [[|] Hc].
    + rewrite (tick_collecting_raises w v c' s1 Hread Hc). cbn.
      now repeat split.
    + rewrite (tick_not_collecting w v c' s1 Hread Hc). cbn.
      now repeat split.
  - rewrite (tick_read_raises w e c' s1 Hread). cbn.
    now repeat split.
Qed.

(** ** The broadcast loop *)

(** A stopped server's loop does nothing at all; a running one without
    subscribers sleeps one stream interval per turn and does nothing
    else, however many turns it takes. *)
Theorem idle_loop (fuel : nat) (w : world) :
  (running (srv w) = false ->
   broadcast_to_subscribers fuel w = (Ok tt, w))
  /\ (running (srv w) = true -> subscribers (srv w) = ∅ ->
      broadcast_to_subscribers fuel w
      = (Ok tt,
         World (srv w) (sens w)
           (events w ++ idle_sleeps fuel (stream_interval (srv w)))
           (wall_reads w))).
Proof.
  split.
  - intros Hoff. destruct fuel; [reflexivity |].
    cbn [broadcast_to_subscribers]. unfold gets_srv.
    now rewrite bind_gets, Hoff.
  - intros Hon Hempty. revert w Hon Hempty.
    induction fuel as [| n IH]; intros w Hon Hempty.
    + cbn. rewrite app_nil_r. now destruct w.
    + cbn [broadcast_to_subscribers idle_sleeps]. unfold gets_srv at 1.
      rewrite bind_gets, Hon.
      assert (Hcycle : broadcast_cycle w
                       = (Ok tt,
                          World (srv w) (sens w)
                            (events w ++ [EvSleep (stream_interval (srv w))])
                            (wall_reads w))).
      { unfold broadcast_cycle, gets_srv.
        rewrite bind_gets, Hempty.
        rewrite bool_decide_eq_false_2 by (intros Hne; now apply Hne).
        reflexivity. }
      rewrite (bind_ok _ _ _ _ _ Hcycle), IH by assumption.
      cbn [srv sens events wall_reads]. now rewrite <- app_assoc.
Qed.

(** A tick that raises ends the loop: with subscribers present the
    exception leaves [broadcast_to_subscribers] unhandled, before any send
    and before the sleep. *)
Theorem tick_failure_ends_loop (fuel : nat) (w w1 : world) (e : exn) :
  running (srv w) = true ->
  subscribers (srv w) <> ∅ ->
  generate_biofeedback_sample w = (Raise e, w1) ->
  broadcast_cycle w = (Raise e, w1)
  /\ broadcast_to_subscribers (S fuel) w = (Raise e, w1).
Proof.
  intros Hon Hne Htick.
  assert (Hcycle : broadcast_cycle w = (Raise e, w1)).
  { unfold broadcast_cycle, gets_srv at 1.
    rewrite bind_gets, bool_decide_eq_true_2 by exact Hne.
    unfold bind at 1 2. now rewrite Htick. }
  split; [exact Hcycle |].
  cbn [broadcast_to_subscribers]. unfold gets_srv at 1.
  rewrite bind_gets, Hon. now apply bind_raise.
Qed.

(** A turn of the loop with subscribers, when the tick returns: the
    message carries the tick's sample, the frequency and the number of
    subscribers; every subscriber gets one send attempt; the registry keeps
    exactly the sockets whose send returned (all of them when no send
    fails); and the turn ends with one sleep of the stream interval. *)
Theorem busy_cycle (w w1 : world) (sample : Sample) :
  subscribers (srv w) <> ∅ ->
  generate_biofeedback_sample w = (Ok sample, w1) ->
  let message := StreamMessage sample (stream_frequency (srv w1))
                   (size (subscribers (srv w1))) in
  let sends := pass_events message (elements (subscribers (srv w1)))
                 (events w1) in
  broadcast_cycle w
  = (Ok tt,
     World (set_subscribers (subscribers (srv w1) ∖ failed_in sends) (srv w1))
       (sens w1)
       (events w1 ++ sends ++ [EvSleep (stream_interval (srv w1))])
       (wall_reads w1))
  /\ length sends = size (subscribers (srv w1))
  /\ (failed_in sends = ∅ ->
      subscribers (srv w1) ∖ failed_in sends = subscribers (srv w1)).
Proof.
  intros Hne Htick message sends.
  split; [| split].
  - rewrite (broadcast_cycle_busy w w1 sample Hne Htick).
    fold message. unfold fan_out, gets_srv.
    unfold bind at 1. rewrite bind_gets.
    unfold bind at 1. rewrite send_to_all_spec. fold sends.
    rewrite discard_all_spec. cbn [srv sens events wall_reads].
    rewrite bind_gets. unfold emit, modify.
    cbn [srv sens events wall_reads stream_interval set_subscribers].
    rewrite union_empty_r_L, list_to_set_elements_L, <- app_assoc.
    reflexivity.
  - unfold sends.
    rewrite <- (Forall2_length _ _ _
                  (pass_events_shape message _ (events w1))).
    reflexivity.
  - intros ->. apply difference_empty_L.
Qed.

(** ** The dispatcher: replies and state *)

Lemma try_except_total {S A} (c : Py S A) (h : exn -> option (Py S A))
  (s : S) :
  (forall e, exists r, h e = Some (ret r)) ->
  exists r s', try_except c h s = (Ok r, s').
Proof.
  intros Hh. unfold try_except. destruct (c s) as [[a | e] s']; [eauto |].
  destruct (Hh e) as [r ->]. unfold ret. eauto.
Qed.

(** Whatever the message and the state, the dispatcher returns a reply: no
    exception leaves [handle_client_message]. *)
Theorem handle_client_message_always_replies (ws : websocket)
  (message : string) (w : world) :
  exists r w', handle_client_message ws message w = (Ok r, w').
Proof.
  unfold handle_client_message. apply try_except_total.
  intros e. destruct e; eauto.
Qed.

(** The body of the dispatcher once the command is known. *)
Ltac dispatch_to Hdec :=
  let Hload := fresh "Hload" in
  let cmd := fresh "cmd" in
  let Hcmd := fresh "Hcmd" in
  let Hlow := fresh "Hlow" in
  destruct Hdec as (Hload & cmd & Hcmd & Hlow);
  unfold handle_client_message, try_except;
  rewrite Hload; unfold bind at 1, ret at 1;
  unfold bind at 1, dict_get at 1, ret at 1; rewrite Hcmd;
  unfold bind at 1, str_lower, ret at 1; rewrite Hlow;
  cbn [String.eqb Ascii.eqb Bool.eqb].

Lemma subscribe_run (ws : websocket) (message : string)
  (fields : list (string * json)) (w : world) :
  decodes_to message "subscribe" fields ->
  handle_client_message ws message w
  = (Ok (RSubscriptionConfirmed (client_counter (srv w) + 1)
           (stream_frequency (srv w))
           "Subscribed to continuous biofeedback stream"),
     World (set_client_counter (client_counter (srv w) + 1)
              (set_subscribers ({[ws]} ∪ subscribers (srv w)) (srv w)))
       (sens w) (events w) (wall_reads w)).
Proof. intros Hdec. dispatch_to Hdec. reflexivity. Qed.

Lemma unsubscribe_run (ws : websocket) (message : string)
  (fields : list (string * json)) (w : world) :
  decodes_to message "unsubscribe" fields ->
  handle_client_message ws message w
  = (Ok (RUnsubscriptionConfirmed "Unsubscribed from biofeedback stream"),
     World (set_subscribers (subscribers (srv w) ∖ {[ws]}) (srv w))
       (sens w) (events w) (wall_reads w)).
Proof. intros Hdec. dispatch_to Hdec. reflexivity. Qed.

(** Subscribing puts the socket into the registry and unsubscribing takes
    it out, whatever was there before: after [subscribe] then
    [unsubscribe] the socket is not a member, and a registry that did not
    hold it is back as it was.  A repeated [subscribe] leaves the registry
    as after the first but counts again, so [client_id] numbers requests,
    not sockets. *)
Theorem subscribe_unsubscribe (ws : websocket) (m_sub m_unsub : string)
  (f_sub f_unsub : list (string * json)) (w : world) :
  decodes_to m_sub "subscribe" f_sub ->
  decodes_to m_unsub "unsubscribe" f_unsub ->
  let w1 := snd (handle_client_message ws m_sub w) in
  let w2 := snd (handle_client_message ws m_unsub w1) in
  let w11 := snd (handle_client_message ws m_sub w1) in
  ws ∈ subscribers (srv w1)
  /\ (ws ∉ subscribers (srv w2))
  /\ ((ws ∉ subscribers (srv w)) ->
      subscribers (srv w2) = subscribers (srv w))
  /\ subscribers (srv w11) = subscribers (srv w1)
  /\ client_counter (srv w11) = (client_counter (srv w) + 2)%nat
  /\ (size (subscribers (srv w1)) <= S (size (subscribers (srv w))))%nat.
Proof.
  intros Hsub Hunsub w1 w2 w11. unfold w11, w2, w1.
  rewrite (subscribe_run ws m_sub f_sub w Hsub).
  rewrite (unsubscribe_run ws m_unsub f_unsub _ Hunsub).
  rewrite (subscribe_run ws m_sub f_sub _ Hsub).
  cbn [snd srv subscribers client_counter set_subscribers
       set_client_counter].
  split; [apply elem_of_union_l, elem_of_singleton; reflexivity |].
  split.
  { intros Hin. apply elem_of_difference in Hin as [_ Hn].
    apply Hn, elem_of_singleton. reflexivity. }
  split.
  { intros Hout. apply set_eq. intros x.
    rewrite elem_of_difference, elem_of_union, !elem_of_singleton.
    split; [intros [[-> | Hx] Hn]; [now destruct Hn | exact Hx] |].
    intros Hx. split; [now right | now intros ->]. }
  split; [now rewrite (assoc_L (∪)), union_idemp_L |].
  split; [lia |].
  rewrite size_union_alt, size_singleton.
  assert (Hsub' : subscribers (srv w) ∖ {[ws]} ⊆ subscribers (srv w)).
  { intros x Hx. now apply elem_of_difference in Hx as [Hx _]. }
  apply subseteq_size in Hsub'. lia.
Qed.

(** [status] reports the size of the registry, the length of the session
    log, the frequency and the running flag, and leaves the server, the
    sensors and the trace as they were. *)
Theorem status_reports (ws : websocket) (message : string)
  (fields : list (string * json)) (w : world) :
  decodes_to message "status" fields ->
  exists uptime reads,
    handle_client_message ws message w
    = (Ok (RStatus (running (srv w)) uptime (size (subscribers (srv w)))
             (stream_frequency (srv w)) (length (session_data (srv w)))),
       World (srv w) (sens w) (events w) reads)
    /\ (start_time (srv w) = None -> uptime = py_round (Fin 0) 1).
Proof.
  intros Hdec. dispatch_to Hdec. destruct w as [sv se ev wr].
  unfold gets_srv, bind, gets, wall_clock, modify, ret.
  cbn [srv sens events wall_reads].
  destruct (start_time sv) as [t0 |] eqn:Hstart;
    [destruct (is_zero t0) |];
    do 2 eexists; (split; [reflexivity | easy]).
Qed.

(** The case of the command does not matter: two requests that differ
    only in the case of their [command] are handled alike. *)
Theorem command_case_insensitive (ws : websocket) (m1 m2 : string)
  (c1 c2 : string) (rest : list (string * json)) (w : world) :
  json_loads m1 = Ok (JObj (("command"%string, JStr c1) :: rest)) ->
  json_loads m2 = Ok (JObj (("command"%string, JStr c2) :: rest)) ->
  lower c1 = lower c2 ->
  handle_client_message ws m1 w = handle_client_message ws m2 w.
Proof.
  intros H1 H2 Hlow. unfold handle_client_message.
  rewrite H1, H2. unfold handle_set_frequency, handle_set_scenario.
  cbv [bind ret dict_get str_lower].
  cbn [assoc String.eqb Ascii.eqb Bool.eqb]. rewrite Hlow. reflexivity.
Qed.

(** A [set_scenario] command with one of the four names makes it the
    scenario of the simulation and changes nothing else. *)
Theorem valid_scenario_accepted (ws : websocket) (message : string)
  (fields : list (string * json)) (name : string) (w : world) :
  decodes_to message "set_scenario" fields ->
  assoc "scenario" fields = Some (JStr name) ->
  In name valid_scenarios ->
  handle_client_message ws message w
  = (Ok (RScenarioChanged name
           ("Simulation scenario changed to " ++ name)%string),
     World (srv w) (set_scenario_global name (sens w)) (events w)
       (wall_reads w)).
Proof.
  intros Hdec Hname Hin. apply str_in_spec in Hin.
  dispatch_to Hdec.
  unfold handle_set_scenario, bind at 1, dict_get, ret at 1.
  rewrite Hname, Hin.
  unfold try_except, bind, in_sensors, set_scenario. rewrite Hin.
  reflexivity.
Qed.

(** The reply to [once] is the tick's sample; when the tick raises, the
    reply is a server error and whatever the tick had done by then stays
    done. *)
Theorem once_command (ws : websocket) (message : string)
  (fields : list (string * json)) (w : world) :
  decodes_to message "once" fields ->
  handle_client_message ws message w
  = match generate_biofeedback_sample w with
    | (Ok sample, w') => (Ok (RSample sample), w')
    | (Raise e, w') =>
        (Ok (error_message
               match e with
               | JSONDecodeError => "Invalid JSON format"
               | _ => ("Server error: " ++ exn_str e)%string
               end), w')
    end.
Proof.
  intros Hdec. dispatch_to Hdec. unfold bind.
  destruct (generate_biofeedback_sample w) as [[sample | e] w'];
    [reflexivity |].
  destruct e; reflexivity.
Qed.

(** ** The streaming configuration under any request *)

Lemma preserves_try_except {S A X} (f : S -> X) (c : Py S A)
  (h : exn -> option (Py S A)) :
  preserves f c ->
  (forall e k, h e = Some k -> preserves f k) ->
  preserves f (try_except c h).
Proof.
  intros Hc Hh s. unfold try_except. specialize (Hc s).
  destruct (c s) as [[a | e] s1]; cbn [snd] in *; [exact Hc |].
  destruct (h e) as [k |] eqn:Hk; [| exact Hc].
  now rewrite (Hh e k Hk s1).
Qed.

Lemma preserves_dict_get {S X} (f : S -> X) (request : json) (key : string)
  (default : json) : preserves f (dict_get request key default).
Proof. now destruct request. Qed.

Lemma preserves_str_lower {S X} (f : S -> X) (v : json) :
  preserves f (str_lower v).
Proof. now destruct v. Qed.

Lemma preserves_py_float {S X} (f : S -> X) (v : json) :
  preserves f (py_float v).
Proof.
  destruct v as [| b | z | x | s | l | fields]; cbn [py_float];
    try (now intros s0).
  - now destruct (2 ^ 1024 - 2 ^ 970 <=? Z.abs z)%Z.
  - now destruct (float_of_string s).
Qed.

Lemma tick_keeps_config : preserves stream_config generate_biofeedback_sample.
Proof.
  intros w.
  destruct (read (connector (srv w), sens w)) as [[v | e] [c' s1]] eqn:Hread.
  - destruct (should_collect_value s1) as [[|] Hb].
    + now rewrite (tick_collecting_raises w v c' s1 Hread Hb).
    + now rewrite (tick_not_collecting w v c' s1 Hread Hb).
  - now rewrite (tick_read_raises w e c' s1 Hread).
Qed.

Lemma in_sensors_keeps_config {A} (c : Py sensors A) :
  preserves stream_config (in_sensors c).
Proof. intros w. unfold in_sensors. now destruct (c (sens w)). Qed.

Lemma handle_set_scenario_keeps_config (request : json) :
  preserves stream_config (handle_set_scenario request).
Proof.
  unfold handle_set_scenario. apply preserves_bind;
    [apply preserves_dict_get | intros scenario].
  destruct scenario; try apply preserves_ret.
  destruct (str_in s valid_scenarios); [| apply preserves_ret].
  apply preserves_try_except.
  - apply preserves_bind; [apply in_sensors_keeps_config | intros].
    apply preserves_ret.
  - intros e k [= <-]. apply preserves_ret.
Qed.

Lemma handle_set_frequency_config (request : json) (w : world) :
  config_ok_or_nan (srv w) ->
  config_ok_or_nan (srv (snd (handle_set_frequency request w))).
Proof.
  intros Hinv. destruct request as [| | | | | | fields];
    try exact Hinv.
  pose proof (preserves_py_float (fun w : world => w) (hz_field fields w) w)
    as Hsame.
  destruct (py_float (hz_field fields w) w) as [[hz | e] w0] eqn:Hfloat;
    cbn [snd] in Hsame; subst w0.
  - destruct ((hz <? Fin 0.1)%pf || (hz >? Fin 50)%pf) eqn:Hrange.
    + now rewrite (set_frequency_rejected fields w hz Hfloat Hrange).
    + rewrite (set_frequency_accepted fields w hz Hfloat Hrange).
      cbn [snd srv]. apply orb_false_elim in Hrange as [Hlow Hhigh].
      destruct hz as [r | | |]; try discriminate.
      * left. exists r. cbn in Hlow, Hhigh.
        apply Rltb_false in Hlow. apply Rltb_false in Hhigh.
        repeat split; [lra | lra].
      * right. now split.
  - unfold handle_set_frequency, try_except, gets_srv.
    rewrite bind_gets. unfold bind at 1, dict_get at 1, ret at 1.
    fold (hz_field fields w). unfold bind at 1. rewrite Hfloat.
    destruct e; try exact Hinv; destruct (assoc "hz" fields); exact Hinv.
Qed.

(** Whatever the request, the dispatcher leaves the frequency a number
    within [0.1, 50.0] with the interval its inverse, or both NaN: the
    only way out of a valid configuration is a NaN frequency. *)
Theorem requests_keep_config_or_nan (ws : websocket) (message : string)
  (w : world) :
  config_ok_or_nan (srv w) ->
  config_ok_or_nan (srv (snd (handle_client_message ws message w))).
Proof.
  intros Hinv.
  assert (Hkeep : forall {A} (c : Py world A) (w0 : world),
             preserves stream_config c ->
             config_ok_or_nan (srv w0) ->
             config_ok_or_nan (srv (snd (c w0)))).
  { intros A c w0 Hc H0. specialize (Hc w0). unfold stream_config in Hc.
    injection Hc as Hf Hi. unfold config_ok_or_nan, config_ok in *.
    now rewrite Hf, Hi. }
  unfold handle_client_message, try_except.
  destruct (json_loads message) as [request | e]; [| now destruct e].
  unfold bind at 1, ret at 1. unfold bind at 1.
  pose proof (preserves_dict_get (fun w : world => w) request "command"
                (JStr "") w) as Hsame.
  destruct (dict_get request "command" (JStr "") w) as [[c | e] w0];
    cbn [snd] in Hsame; subst w0; [| now destruct e].
  unfold bind at 1.
  pose proof (preserves_str_lower (fun w : world => w) c w) as Hsame.
  destruct (str_lower c w) as [[command | e] w0];
    cbn [snd] in Hsame; subst w0; [| now destruct e].
  assert (Hbody : forall (body : Py world response),
             config_ok_or_nan (srv (snd (body w))) ->
             config_ok_or_nan
               (srv (snd (let (r, s') := body w in
                          match r with
                          | Ok a => (Ok a, s')
                          | Raise e =>
                              match
                                match e with
                                | JSONDecodeError =>
                                    Some (ret (error_message
                                                 "Invalid JSON format"))
                                | _ =>
                                    Some (ret (error_message
                                                 ("Server error: "
                                                  ++ exn_str e)%string))
                                end
                              with
                              | Some k => k s'
                              | None => (Raise e, s')
                              end
                          end)))).
  { intros body Hb. destruct (body w) as [[a | e] s']; [exact Hb |].
    now destruct e. }
  apply Hbody.
  repeat match goal with
         | |- context [if ?b then _ else _] => destruct b
         end;
    try (apply handle_set_frequency_config; exact Hinv);
    apply Hkeep; try exact Hinv.
  - apply preserves_bind; [apply tick_keeps_config | intros].
    apply preserves_ret.
  - unfold modify_srv, gets_srv. preserves_tac.
  - unfold modify_srv. preserves_tac.
  - unfold gets_srv, wall_clock. preserves_tac.
  - apply handle_set_scenario_keeps_config.
  - apply preserves_ret.
Qed.

(** ** The registry under the requests of one connection *)

Lemma tick_keeps_others (ws : websocket) :
  preserves (others ws) generate_biofeedback_sample.
Proof.
  intros w.
  destruct (read (connector (srv w), sens w)) as [[v | e] [c' s1]] eqn:Hread.
  - destruct (should_collect_value s1) as [[|] Hb].
    + now rewrite (tick_collecting_raises w v c' s1 Hread Hb).
    + now rewrite (tick_not_collecting w v c' s1 Hread Hb).
  - now rewrite (tick_read_raises w e c' s1 Hread).
Qed.

Lemma in_sensors_keeps_others {A} (ws : websocket) (c : Py sensors A) :
  preserves (others ws) (in_sensors c).
Proof. intros w. unfold in_sensors. now destruct (c (sens w)). Qed.

Lemma handle_set_scenario_keeps_others (ws : websocket) (request : json) :
  preserves (others ws) (handle_set_scenario request).
Proof.
  unfold handle_set_scenario. apply preserves_bind;
    [apply preserves_dict_get | intros scenario].
  destruct scenario; try apply preserves_ret.
  destruct (str_in s valid_scenarios); [| apply preserves_ret].
  apply preserves_try_except.
  - apply preserves_bind; [apply in_sensors_keeps_others | intros].
    apply preserves_ret.
  - intros e k [= <-]. apply preserves_ret.
Qed.

Lemma handle_set_frequency_keeps_others (ws : websocket) (request : json) :
  preserves (others ws) (handle_set_frequency request).
Proof.
  unfold handle_set_frequency, gets_srv, modify_srv.
  apply preserves_try_except.
  - apply preserves_bind; [apply preserves_gets | intros current].
    apply preserves_bind; [apply preserves_dict_get | intros v].
    apply preserves_bind; [apply preserves_py_float | intros hz].
    preserves_tac.
  - intros e k Hk. destruct e; try discriminate; injection Hk as <-;
      (apply preserves_bind; [apply preserves_dict_get | intros v]);
      preserves_tac.
Qed.

Lemma handle_client_message_keeps_others (ws : websocket)
  (message : string) :
  preserves (others ws) (handle_client_message ws message).
Proof.
  unfold handle_client_message. apply preserves_try_except.
  - apply preserves_bind;
      [destruct (json_loads message);
       [apply preserves_ret | apply preserves_raise] | intros request].
    apply preserves_bind; [apply preserves_dict_get | intros c].
    apply preserves_bind; [apply preserves_str_lower | intros command].
    repeat match goal with
           | |- preserves _ (if ?b then _ else _) => destruct b
           end.
    + apply preserves_bind; [apply tick_keeps_others | intros].
      apply preserves_ret.
    + unfold modify_srv, gets_srv.
      apply preserves_bind; [| intros; preserves_tac].
      apply preserves_modify. intros w. unfold others. cbn.
      apply set_eq. intros x.
      rewrite !elem_of_difference, elem_of_union, !elem_of_singleton.
      split; [intros [[Hx | Hx] Hn]; [contradiction | now split] |].
      intros [Hx Hn]. split; [now right | exact Hn].
    + unfold modify_srv.
      apply preserves_bind; [| intros; preserves_tac].
      apply preserves_modify. intros w. unfold others. cbn.
      apply set_eq. intros x. rewrite !elem_of_difference.
      split; [intros [Hx _]; exact Hx | intros Hx; now split].
    + unfold gets_srv, wall_clock. preserves_tac.
    + apply handle_set_frequency_keeps_others.
    + apply handle_set_scenario_keeps_others.
    + apply preserves_ret.
  - intros e k Hk. destruct e; injection Hk as <-; apply preserves_ret.
Qed.

(** The requests of a connection change no membership but its own:
    whatever the message, every other socket is in the registry after it
    exactly when it was before. *)
Theorem requests_touch_own_membership (ws : websocket) (message : string)
  (w : world) :
  let w' := snd (handle_client_message ws message w) in
  subscribers (srv w') ∖ {[ws]} = subscribers (srv w) ∖ {[ws]}
  /\ forall other, other <> ws ->
       (other ∈ subscribers (srv w')) <-> (other ∈ subscribers (srv w)).
Proof.
  cbn zeta.
  pose proof (handle_client_message_keeps_others ws message w) as Hkeep.
  unfold others in Hkeep. split; [exact Hkeep |].
  intros other Hother.
  assert (Hout : other ∉ ({[ws]} : gset websocket))
    by (rewrite elem_of_singleton; exact Hother).
  split; intros Hin.
  - assert (Hin' : other ∈ subscribers
                     (srv (snd (handle_client_message ws message w)))
                   ∖ {[ws]})
      by (apply elem_of_difference; now split).
    rewrite Hkeep in Hin'. now apply elem_of_difference in Hin' as [Hin' _].
  - assert (Hin' : other ∈ subscribers (srv w) ∖ {[ws]})
      by (apply elem_of_difference; now split).
    rewrite <- Hkeep in Hin'. now apply elem_of_difference in Hin' as [Hin' _].
Qed.

(** ** One connection *)

Lemma handle_client_loop_others (ws : websocket) (messages : list string)
  (sent : list response) (w : world) :
  others ws (snd (handle_client_loop ws messages sent w)) = others ws w.
Proof.
  revert sent w. induction messages as [| message rest IH]; intros sent w;
    cbn [handle_client_loop]; [reflexivity |].
  pose proof (handle_client_message_keeps_others ws message w) as Hstep.
  destruct (handle_client_message ws message w) as [[response | e] w1];
    cbn [snd] in Hstep; [| exact Hstep].
  destruct (reply_raises sent response); [exact Hstep |].
  now rewrite IH.
Qed.

Lemma handle_client_loop_sent (ws : websocket) (messages : list string)
  (sent : list response) (w : world) :
  (length (fst (handle_client_loop ws messages sent w))
   <= length sent + length messages)%nat
  /\ ((forall past r, reply_raises past r = None) ->
      length (fst (handle_client_loop ws messages sent w))
      = (length sent + length messages)%nat).
Proof.
  revert sent w. induction messages as [| message rest IH]; intros sent w;
    cbn [handle_client_loop length fst].
  - split; [lia | intros; lia].
  - assert (Hreply : exists response w1,
               handle_client_message ws message w = (Ok response, w1)).
    { unfold handle_client_message. apply try_except_total.
      intros e. destruct e; eauto. }
    destruct Hreply as (response & w1 & ->).
    destruct (reply_raises sent response) eqn:Hsend.
    + cbn [fst]. split; [lia | intros Hall; now rewrite Hall in Hsend].
    + destruct (IH (sent ++ [response]) w1) as [Hle Heq].
      rewrite List.length_app in Hle, Heq. cbn [length] in Hle, Heq.
      split; [lia | intros Hall; rewrite (Heq Hall); lia].
Qed.

(** When a connection ends, however it ends and whatever it asked for,
    the registry is the one it found without its own socket: its socket is
    not subscribed any more and every other membership is as it was.  It
    got at most one reply per message, and exactly one when no send
    failed. *)
Theorem handle_client_cleans_up (ws : websocket) (messages : list string)
  (w : world) :
  let sent := fst (handle_client ws messages w) in
  let w' := snd (handle_client ws messages w) in
  subscribers (srv w') = subscribers (srv w) ∖ {[ws]}
  /\ (ws ∉ subscribers (srv w'))
  /\ (length sent <= length messages)%nat
  /\ ((forall past r, reply_raises past r = None) ->
      length sent = length messages).
Proof.
  cbn zeta. unfold handle_client.
  pose proof (handle_client_loop_others ws messages [] w) as Hothers.
  pose proof (handle_client_loop_sent ws messages [] w) as [Hle Heq].
  destruct (handle_client_loop ws messages [] w) as [sent w1].
  cbn [fst snd srv subscribers set_subscribers length] in *.
  unfold others in Hothers.
  split; [exact Hothers |].
  split; [| split; [exact Hle | exact Heq]].
  intros Hin. apply elem_of_difference in Hin as [_ Hn].
  apply Hn, elem_of_singleton. reflexivity.
Qed.

End Server.

Section SimulatorServer.

Variable py_round : pyfloat -> nat -> pyfloat.
Variable utcnow_isoformat : nat -> string.

(** With the simulator connected, every tick taken in the baseline window
    before the baseline is computed raises, having collected one more
    baseline sample and moved neither the clock nor the session log: the
    clock stays in the window, so the next tick does the same. *)
Lemma sim_tick_in_baseline_window (w : @world SimConnector) (t : R) :
  connector (srv w) = MkSimConnector true ->
  _current_time (sens w) = Fin t -> 180 <= t < 240 ->
  _baseline_computed (sens w) = false ->
  hr_history_ok (_hr_history (sens w)) ->
  exists w',
    generate_biofeedback_sample py_round utcnow_isoformat w
    = (Raise TypeError, w')
    /\ _current_time (sens w') = Fin t
    /\ session_data (srv w') = session_data (srv w)
    /\ length (_baseline_samples (sens w'))
       = S (length (_baseline_samples (sens w)))
    /\ _baseline_computed (sens w') = false.
Proof.
  intros Hconn Ht Hwin Hoff Hok.
  destruct (sim_reading_in_window (sens w) t Ht Hwin Hoff Hok)
    as (v & s1 & Hread & Hcollect & Ht1 & Hsamples & Hoff1).
  rewrite <- Hconn in Hread at 1.
  eexists. split.
  - exact (tick_collecting_raises py_round utcnow_isoformat
             w v (MkSimConnector true) s1 Hread Hcollect).
  - cbn. rewrite Ht1, Hsamples, List.length_app. cbn.
    repeat split; [lia | exact Hoff1].
Qed.

(** With the simulator connected and the clock outside the baseline
    window, a tick returns one sample of the current scenario, appends it
    to the session log and advances the clock by the stream interval. *)
Theorem sim_tick_outside_window (w : @world SimConnector) (t : R) :
  connector (srv w) = MkSimConnector true ->
  _current_time (sens w) = Fin t -> 0 <= t -> t < 180 \/ 240 <= t ->
  hr_history_ok (_hr_history (sens w)) ->
  exists sample w',
    generate_biofeedback_sample py_round utcnow_isoformat w
    = (Ok sample, w')
    /\ _current_time (sens w') = (Fin t + stream_interval (srv w))%pf
    /\ scenario sample = _scenario (sens w)
    /\ session_data (srv w') = session_data (srv w) ++ [sample]
    /\ _baseline_samples (sens w') = _baseline_samples (sens w).
Proof.
  intros Hconn Ht Hpos Hout Hok.
  destruct (sim_reading_outside_window (sens w) t Ht Hpos Hout Hok)
    as (v & s1 & Hread & Hcollect & Ht1 & Hsc & Hsamples).
  rewrite <- Hconn in Hread at 1.
  do 2 eexists. split.
  - exact (tick_not_collecting py_round utcnow_isoformat
             w v (MkSimConnector true) s1 Hread Hcollect).
  - cbn. rewrite Ht1, Hsc, Hsamples. now repeat split.
Qed.

(** ** Runs of ticks with the simulator *)

(** The state after [n] ticks, whether they return or raise: what [n]
    [once] requests, or [n] rounds of a loop that survives its errors,
    leave behind. *)
Fixpoint ticks (n : nat) (w : @world SimConnector) : @world SimConnector :=
  match n with
  | O => w
  | S n => ticks n (snd (generate_biofeedback_sample py_round
                           utcnow_isoformat w))
  end.

Lemma sim_tick_in_window_step (w : @world SimConnector) (t : R) :
  connector (srv w) = MkSimConnector true ->
  _current_time (sens w) = Fin t -> 180 <= t < 240 ->
  _baseline_computed (sens w) = false ->
  hr_history_ok (_hr_history (sens w)) ->
  exists w',
    generate_biofeedback_sample py_round utcnow_isoformat w
    = (Raise TypeError, w')
    /\ connector (srv w') = MkSimConnector true
    /\ _current_time (sens w') = Fin t
    /\ _baseline_computed (sens w') = false
    /\ hr_history_ok (_hr_history (sens w'))
    /\ session_data (srv w') = session_data (srv w)
    /\ length (_baseline_samples (sens w'))
       = S (length (_baseline_samples (sens w))).
Proof.
  intros Hconn Ht Hwin Hoff Hok.
  destruct (sim_reading_in_window (sens w) t Ht Hwin Hoff Hok)
    as (v & s1 & Hread & Hcollect & Ht1 & Hsamples & Hoff1).
  destruct (sim_read_ok (sens w) t Ht ltac:(lra) Hok)
    as (v' & s1' & Hread' & _ & _ & _ & Hok1 & _).
  rewrite Hread in Hread'. injection Hread' as _ <-.
  rewrite <- Hconn in Hread at 1.
  eexists. split.
  - exact (tick_collecting_raises py_round utcnow_isoformat
             w v (MkSimConnector true) s1 Hread Hcollect).
  - cbn. rewrite Hsamples, List.length_app. cbn.
    repeat split; [exact Ht1 | exact Hoff1 | exact Hok1 | lia].
Qed.

(** Once the simulated clock is in the baseline window with the baseline
    not computed it stays there: each of any number of ticks raises, the
    clock does not move, the session log does not grow, one more baseline
    sample is collected each time and the baseline is never computed. *)
Theorem sim_clock_stuck_in_baseline_window (n : nat)
  (w : @world SimConnector) (t : R) :
  connector (srv w) = MkSimConnector true ->
  _current_time (sens w) = Fin t -> 180 <= t < 240 ->
  _baseline_computed (sens w) = false ->
  hr_history_ok (_hr_history (sens w)) ->
  let w' := ticks n w in
  _current_time (sens w') = Fin t
  /\ _baseline_computed (sens w') = false
  /\ session_data (srv w') = session_data (srv w)
  /\ length (_baseline_samples (sens w'))
     = (n + length (_baseline_samples (sens w)))%nat
  /\ fst (generate_biofeedback_sample py_round utcnow_isoformat w')
     = Raise TypeError.
Proof.
  intros Hconn Ht Hwin Hoff Hok. cbn zeta. revert w Hconn Ht Hoff Hok.
  induction n as [| n IH]; intros w Hconn Ht Hoff Hok;
    destruct (sim_tick_in_window_step w t Hconn Ht Hwin Hoff Hok)
      as (w1 & Htick & Hconn1 & Ht1 & Hoff1 & Hok1 & Hlog1 & Hlen1).
  - cbn [ticks]. rewrite Htick. now repeat split.
  - cbn [ticks]. rewrite Htick. cbn [snd].
    destruct (IH w1 Hconn1 Ht1 Hoff1 Hok1) as (E1 & E2 & E3 & E4 & E5).
    repeat split; [exact E1 | exact E2 | congruence | | exact E5].
    rewrite E4, Hlen1. lia.
Qed.

Lemma sim_tick_outside_window_step (w : @world SimConnector) (t : R) :
  connector (srv w) = MkSimConnector true ->
  _current_time (sens w) = Fin t -> 0 <= t -> t < 180 \/ 240 <= t ->
  hr_history_ok (_hr_history (sens w)) ->
  exists sample w',
    generate_biofeedback_sample py_round utcnow_isoformat w
    = (Ok sample, w')
    /\ connector (srv w') = MkSimConnector true
    /\ _current_time (sens w') = (Fin t + stream_interval (srv w))%pf
    /\ stream_interval (srv w') = stream_interval (srv w)
    /\ hr_history_ok (_hr_history (sens w'))
    /\ session_data (srv w') = session_data (srv w) ++ [sample]
    /\ _baseline_samples (sens w') = _baseline_samples (sens w)
    /\ _baseline_computed (sens w') = _baseline_computed (sens w).
Proof.
  intros Hconn Ht Hpos Hout Hok.
  destruct (sim_reading_outside_window (sens w) t Ht Hpos Hout Hok)
    as (v & s1 & Hread & Hcollect & Ht1 & Hsc & Hsamples).
  destruct (sim_read_ok (sens w) t Ht Hpos Hok)
    as (v' & s1' & Hread' & _ & _ & Hbase & Hok1 & _).
  rewrite Hread in Hread'. injection Hread' as _ <-.
  unfold baseline_state in Hbase.
  rewrite <- Hconn in Hread at 1.
  do 2 eexists. split.
  - exact (tick_not_collecting py_round utcnow_isoformat
             w v (MkSimConnector true) s1 Hread Hcollect).
  - cbn. rewrite Ht1, Hsamples.
    repeat split; [exact Hok1 | congruence].
Qed.

(** Outside the baseline window the simulator streams: when each of the
    first [n] clock values, got by adding the stream interval again and
    again, is a number from zero on and outside the window, [n] ticks return
    [n] samples, append them to the session log and leave the clock at the
    [n]-th of these sums, collecting no baseline sample. *)
Theorem sim_ticks_outside_window (n : nat) (w : @world SimConnector) :
  connector (srv w) = MkSimConnector true ->
  (forall k, (k < n)%nat ->
     exists tk,
       clock_after k (_current_time (sens w)) (stream_interval (srv w))
       = Fin tk
       /\ 0 <= tk /\ (tk < 180 \/ 240 <= tk)) ->
  hr_history_ok (_hr_history (sens w)) ->
  let w' := ticks n w in
  _current_time (sens w')
  = clock_after n (_current_time (sens w)) (stream_interval (srv w))
  /\ stream_interval (srv w') = stream_interval (srv w)
  /\ length (session_data (srv w'))
     = (length (session_data (srv w)) + n)%nat
  /\ _baseline_samples (sens w') = _baseline_samples (sens w)
  /\ _baseline_computed (sens w') = _baseline_computed (sens w).
Proof.
  intros Hconn Hclock Hok. cbn zeta.
  revert w Hconn Hclock Hok.
  induction n as [| n IH]; intros w Hconn Hclock Hok.
  - cbn [ticks clock_after]. repeat split. lia.
  - destruct (Hclock 0%nat ltac:(lia)) as (t & Ht & Hpos & Hout).
    cbn [clock_after] in Ht.
    destruct (sim_tick_outside_window_step w t Hconn Ht Hpos Hout Hok)
      as (sample & w1 & Htick & Hconn1 & Ht1 & Hi1 & Hok1 & Hlog1
          & Hsam1 & Hcomp1).
    cbn [ticks clock_after]. rewrite Htick. cbn [snd].
    assert (Hclock1 : forall k, (k < n)%nat ->
              exists tk,
                clock_after k (_current_time (sens w1))
                  (stream_interval (srv w1)) = Fin tk
                /\ 0 <= tk /\ (tk < 180 \/ 240 <= tk)).
    { intros k Hk. destruct (Hclock (S k) ltac:(lia)) as (tk & Hk1 & Hrange).
      exists tk. split; [| exact Hrange].
      cbn [clock_after] in Hk1. now rewrite Ht1, Hi1, <- Ht. }
    destruct (IH w1 Hconn1 Hclock1 Hok1) as (E1 & E2 & E3 & E4 & E5).
    rewrite E1, E2, E3, E4, E5, Ht1, Hi1, Hlog1, List.length_app, Ht.
    cbn [length]. repeat split; try congruence. lia.
Qed.

(** After [close] the simulator refuses to read: a tick raises
    RuntimeError, records the attempt and leaves the server and the
    simulation as they were. *)
Theorem closed_simulator_tick (w : @world SimConnector) (c : SimConnector) :
  connector (srv w) = close c ->
  is_connected (connector (srv w)) = false
  /\ exists w',
      generate_biofeedback_sample py_round utcnow_isoformat w
      = (Raise RuntimeError, w')
      /\ srv w' = srv w /\ sens w' = sens w
      /\ events w' = events w ++ [EvRead].
Proof.
  intros Hclosed. split; [now rewrite Hclosed |].
  eexists. split.
  - apply (tick_read_raises py_round utcnow_isoformat w RuntimeError
             (connector (srv w)) (sens w)).
    rewrite Hclosed. reflexivity.
  - cbn. repeat split. now destruct (srv w).
Qed.

End SimulatorServer.
End Simulation.

(** * Concrete runs *)

(** Stand-ins for the outside world: a generator whose draws equal their
    mean, a rounding that keeps its argument, a fixed wall clock, sends
    that always succeed and the texts of the library's formatting. *)
Definition draw_mean : nat -> pyfloat -> pyfloat -> pyfloat :=
  fun _ loc _ => loc.
Definition round_exact : pyfloat -> nat -> pyfloat := fun x _ => x.
Definition utc_stamp : nat -> string :=
  fun _ => "2025-08-01T12:00:00+00:00"%string.
Definition epoch_seconds : nat -> pyfloat := of_nat.
Definition sends_succeed
  : list event -> websocket -> stream_message -> option exn :=
  fun _ _ _ => None.
Definition decode_as (v : json) : string -> result json := fun _ => Ok v.
Definition no_numeric_strings : string -> option pyfloat := fun _ => None.
Definition show_float (f : pyfloat) : string :=
  match f with
  | Fin _ => "<number>"
  | PInf => "inf"
  | NInf => "-inf"
  | NaN => "nan"
  end.
Definition show_json : json -> string := fun _ => "<value>"%string.
Definition show_exn : exn -> string := fun _ => "<exception>"%string.

Definition simulator : SensorConnector SimConnector :=
  SimConnector_connector draw_mean.

(** The server [main] builds: [BiofeedbackServer("localhost", 8765, 0.167)]
    on a connected simulator. *)
Definition main_server : @server SimConnector :=
  Server "localhost" 8765%Z (Fin 0.167) (Fin (1 / 0.167)) (MkSimConnector true)
    ∅ 0 [] false None.

Definition world_at (t : R) : @world SimConnector :=
  World main_server (set_current_time (Fin t) sensors_init) [] 0.

Definition dispatch (request : json) (w : @world SimConnector)
  : result response * @world SimConnector :=
  @handle_client_message SimConnector simulator round_exact utc_stamp
    epoch_seconds (decode_as request) no_numeric_strings show_float show_json
    show_exn ascii_lower 1%nat "request" w.

(** Ten baseline samples of 75.0 / 2.0 / 50.0 collected from 185 s on. *)
Definition ten_samples_state : sensors :=
  Nat.iter 10
    (fun s => after draw_mean (CallAdvanceTime (Fin 1))
                (after draw_mean
                   (CallCollectBaselineSample (Fin 75) (Fin 2) (Fin 50)) s))
    (after draw_mean (CallAdvanceTime (Fin 185)) sensors_init).

Definition two_beats : sensors := set_hr_history [Fin 60; Fin 75] sensors_init.

Definition nan_request : json :=
  JObj [("command", JStr "set_frequency"); ("hz", JFloat NaN)]%string.

Definition bare_request : json :=
  JObj [("command", JStr "Set_Frequency")]%string.

Lemma ten_samples_reachable : reachable draw_mean ten_samples_state.
Proof. unfold ten_samples_state. cbn [Nat.iter]. repeat constructor. Qed.

(** The scenario of the specification: at 185 s, ten samples of
    75.0 / 2.0 / 50.0 give exactly those baseline values. *)
Example baseline_of_ten_fixed_samples :
  exists s',
    compute_baseline_values ten_samples_state = (Ok true, s')
    /\ _baseline_hr s' = Fin 75 /\ _baseline_eda s' = Fin 2
    /\ _baseline_hrv s' = Fin 50 /\ _baseline_computed s' = true.
Proof.
  exists (with_baseline ten_samples_state). split.
  - apply compute_baseline_values_enough. cbn. lia.
  - cbn -[average]. unfold average, py_sum. cbn.
    repeat split; f_equal; lra.
Qed.

(** Two beats give one difference, whose deviation is zero: the result is
    the lower clamp. *)
Example sdnn_of_two_beats : sdnn [60; 75] = 10.
Proof.
  unfold sdnn, population_stdev, Rmean, Rsum, rr_interval. cbn.
  replace ((Rabs (60000 / 75 - 60000 / 60)
            - (Rabs (60000 / 75 - 60000 / 60) + 0) / 1)) with 0 by lra.
  rewrite Rsqr_0.
  replace ((0 + 0) / 1) with 0 by lra.
  rewrite sqrt_0. unfold clampR, Rmax, Rmin.
  destruct (Rle_dec 0 200); [| lra]. destruct (Rle_dec 10 0); lra.
Qed.

(** ** The claims at concrete inputs *)

(** C1 at the failing input: the server of [main] with the virtual clock at
    180 s and no baseline computed.  The tick raises; the clock and the
    session log stay as they were. *)
Lemma C1_tick_witness :
  exists w',
    @generate_biofeedback_sample SimConnector simulator round_exact utc_stamp
      (world_at 180)
    = (Raise TypeError, w')
    /\ _current_time (sens w') = Fin 180
    /\ session_data (srv w') = []
    /\ length (_baseline_samples (sens w')) = 1%nat.
Proof.
  destruct (sim_reading_in_window draw_mean (sens (world_at 180)) 180)
    as (v & s1 & Hread & Hcollect & Ht & Hsamples & _);
    [reflexivity | lra | reflexivity | constructor |].
  destruct (@C1_tick_raises_while_collecting SimConnector simulator
              round_exact utc_stamp (world_at 180) v (MkSimConnector true) s1
              Hread) as [Hbug _].
  destruct (Hbug Hcollect) as (w' & Hrun & _ & Hlen & Htime & Hlog).
  exists w'. split; [exact Hrun |].
  rewrite Htime, Hlog, Hlen, Hsamples, Ht. now repeat split.
Defined.

(** C3 at the failing input: [{"command": "set_frequency", "hz": NaN}] sent
    to the server of [main]. *)
Lemma C3_nan_witness :
  dispatch nan_request (world_at 0)
  = (Ok (RFrequencyChanged (Fin 0.167) NaN NaN
           "Streaming frequency changed to nanHz"),
     World (set_stream_interval NaN (set_stream_frequency NaN main_server))
       (set_current_time (Fin 0) sensors_init) [] 0).
Proof.
  apply (@C3_nan_frequency_accepted SimConnector simulator round_exact
           utc_stamp epoch_seconds (decode_as nan_request) no_numeric_strings
           show_float show_json show_exn ascii_lower 1%nat "request"
           [("command", JStr "set_frequency"); ("hz", JFloat NaN)]%string
           (world_at 0)).
  - reflexivity.
  - exists "set_frequency"%string. now split.
  - reflexivity.
Defined.

(** C4 at the state with ten collected samples. *)
Lemma C4_flag_witness :
  reachable draw_mean ten_samples_state
  /\ _baseline_computed ten_samples_state = false
  /\ _baseline_computed
       (after draw_mean CallResetBaselineProtocol ten_samples_state) = false
  /\ _current_time
       (after draw_mean CallResetBaselineProtocol ten_samples_state) = Fin 0.
Proof.
  destruct (C4_baseline_computed_flag draw_mean ten_samples_state
              CallComputeBaselineValues ten_samples_reachable)
    as (_ & _ & _ & Hreset).
  split; [exact ten_samples_reachable |]. split; [reflexivity |].
  split; apply Hreset.
Defined.

(** C5 at the state with ten collected samples of 75.0 / 2.0 / 50.0: the
    call returns [True] with exactly those means, and a second call
    changes nothing. *)
Lemma C5_baseline_witness :
  (10 <= length (_baseline_samples ten_samples_state))%nat
  /\ exists s',
       compute_baseline_values ten_samples_state = (Ok true, s')
       /\ _baseline_hr s' = Fin 75 /\ _baseline_eda s' = Fin 2
       /\ _baseline_hrv s' = Fin 50
       /\ _baseline_computed s' = true
       /\ compute_baseline_values s' = (Ok true, s').
Proof.
  assert (Hten : (10 <= length (_baseline_samples ten_samples_state))%nat)
    by (cbn; lia).
  split; [exact Hten |].
  destruct (C5_compute_baseline_values ten_samples_state) as [_ Henough].
  destruct (Henough Hten) as [Hmeans _].
  destruct (Hmeans (repeat 75 10) (repeat 2 10) (repeat 50 10)
              eq_refl eq_refl eq_refl) as [Hrun Hagain].
  eexists. split; [exact Hrun |].
  cbn [_baseline_hr _baseline_eda _baseline_hrv _baseline_computed].
  repeat split; try exact Hagain;
    f_equal; unfold Rmean, Rsum; cbn [repeat fold_right length];
    replace (INR 10) with 10 by (cbn; lra); lra.
Defined.

(** The state reached from the one above by a successful
    [compute_baseline_values] and one more collected sample, with a heart
    rate of 175. *)
Definition eleven_samples_state : sensors :=
  after draw_mean (CallCollectBaselineSample (Fin 175) (Fin 2) (Fin 50))
    (after draw_mean CallComputeBaselineValues ten_samples_state).

(** C5, the claim as stated, fails: in a reachable state whose baseline
    is computed, with [_baseline_hr] at 75.0, another call returns [True]
    and moves [_baseline_hr] to 925/11, for a sample was collected since. *)
Lemma C5_counterexample :
  reachable draw_mean eleven_samples_state
  /\ _baseline_computed eleven_samples_state = true
  /\ _baseline_hr eleven_samples_state = Fin 75
  /\ exists s',
       compute_baseline_values eleven_samples_state = (Ok true, s')
       /\ _baseline_hr s' = Fin (925 / 11)
       /\ _baseline_hr s' <> _baseline_hr eleven_samples_state.
Proof.
  assert (Hfirst : after draw_mean CallComputeBaselineValues ten_samples_state
                   = with_baseline ten_samples_state)
    by (rewrite after_compute; reflexivity).
  assert (Hbefore : _baseline_hr eleven_samples_state = Fin 75).
  { unfold eleven_samples_state. rewrite Hfirst.
    cbn -[average]. unfold average, py_sum. cbn. f_equal. lra. }
  assert (Hafter : _baseline_hr (with_baseline eleven_samples_state)
                   = Fin (925 / 11)).
  { unfold eleven_samples_state. rewrite Hfirst.
    cbn -[average]. unfold average, py_sum. cbn. f_equal. lra. }
  split; [unfold eleven_samples_state; repeat constructor;
          exact ten_samples_reachable |].
  split; [unfold eleven_samples_state; now rewrite Hfirst |].
  split; [exact Hbefore |].
  exists (with_baseline eleven_samples_state).
  split.
  { apply compute_baseline_values_enough.
    unfold eleven_samples_state. rewrite Hfirst. cbn. lia. }
  split; [exact Hafter |].
  rewrite Hafter, Hbefore. intros [= E]. lra.
Qed.

(** C6 at a history of two beats, 60 and 75 BPM. *)
Lemma C6_hrv_witness :
  get_hrv two_beats = (Ok (Fin (sdnn [60; 75])), two_beats)
  /\ 10 <= sdnn [60; 75] <= 200.
Proof.
  destruct (C6_get_hrv draw_mean two_beats) as (_ & Hlong & _).
  apply (Hlong [60; 75]).
  - reflexivity.
  - cbn. lia.
  - repeat constructor; lra.
Defined.

(** C7 at the module as imported: scenario [mixed], time 0. *)
Lemma C7_bounds_witness :
  In (_scenario sensors_init) valid_scenarios
  /\ 0 <= 0
  /\ (exists v s',
        get_hr draw_mean sensors_init = (Ok (Fin v), s') /\ 50 <= v <= 180)
  /\ (exists v s',
        get_eda draw_mean sensors_init = (Ok (Fin v), s')
        /\ 0.1 <= v <= 10).
Proof.
  assert (Hvalid : In (_scenario sensors_init) valid_scenarios)
    by (cbn; tauto).
  assert (Hpos : 0 <= 0) by lra.
  split; [exact Hvalid |]. split; [exact Hpos |].
  exact (C7_signals_within_bounds draw_mean sensors_init 0 Hvalid eq_refl
           Hpos).
Defined.

(** C8, the claim as stated, fails: with the weights 1 / 1 / 1, which the
    signature accepts, inputs at the edge of the physiological ranges give
    300. *)
Lemma C8_counterexample :
  50 <= 180 <= 180 /\ 0.1 <= 10 <= 10 /\ 10 <= 10 <= 200
  /\ compute_stress_index (Fin 180) (Fin 10) (Some (Fin 10))
       (Fin 1) (Fin 1) (Fin 1) sensors_init
     = (Ok (Fin 300), sensors_init)
  /\ ~ (0 <= 300 <= 100).
Proof.
  split; [lra |]. split; [lra |]. split; [lra |]. split.
  - rewrite compute_stress_index_formula. do 3 f_equal.
    unfold stress_formula, norm_hr, norm_eda, norm_hrv.
    rewrite !clampR_inside by lra. lra.
  - intros [_ H]. lra.
Qed.

(** C8 at the default weights. *)
Lemma C8_range_witness :
  0 <= stress_formula 75 2 50 0.33 0.33 0.34 <= 100.
Proof.
  apply (C8_stress_index 75 2 50 0.33 0.33 0.34 sensors_init); lra.
Defined.

(** C9 at the server of [main] before anyone subscribes. *)
Lemma C9_idle_witness :
  @broadcast_cycle SimConnector simulator round_exact utc_stamp
    sends_succeed (world_at 0)
  = (Ok tt,
     World main_server (set_current_time (Fin 0) sensors_init)
       [EvSleep (Fin (1 / 0.167))] 0).
Proof.
  apply (@C9_idle_cycle SimConnector simulator round_exact utc_stamp
           sends_succeed (world_at 0)).
  reflexivity.
Defined.

(** A server built with a frequency the constructor accepts and the range
    test does not. *)
Definition fast_server : @server SimConnector :=
  Server "localhost" 8765%Z (Fin 100) (Fin (1 / 100)) (MkSimConnector true)
    ∅ 0 [] false None.

(** C10, the claim as stated, fails: [BiofeedbackServer(stream_frequency=100)]
    is built without complaint, and a [set_frequency] request without [hz]
    is then answered with the out-of-range error. *)
Lemma C10_counterexample :
  server_init "localhost" 8765%Z (Fin 100) (MkSimConnector true)
  = Ok fast_server
  /\ dispatch bare_request (World fast_server sensors_init [] 0)
     = (Ok (RError
              "Invalid frequency: <number>Hz. Must be between 0.1 and 50.0 Hz"
              (Some (Fin 100)) None None),
        World fast_server sensors_init [] 0).
Proof.
  split.
  - unfold server_init. now rewrite (truediv_Fin 1 100 tt) by lra.
  - unfold dispatch.
    apply (dispatch_set_frequency round_exact utc_stamp epoch_seconds
             (decode_as bare_request) no_numeric_strings show_float
             show_json show_exn ascii_lower 1%nat "request"
             [("command", JStr "Set_Frequency")]%string);
      [reflexivity | exists "Set_Frequency"%string; now split |].
    apply (set_frequency_rejected no_numeric_strings show_float show_json
             [("command", JStr "Set_Frequency")]%string
             (World fast_server sensors_init [] 0) (Fin 100));
      [reflexivity |].
    cbn. rewrite (proj2 (Rltb_false 100 0.1)) by lra.
    rewrite (proj2 (Rltb_true 50 100)) by lra. reflexivity.
Qed.

(** C10 at the server of [main]: [{"command": "Set_Frequency"}]. *)
Lemma C10_missing_hz_witness :
  config_ok main_server
  /\ exists text,
       dispatch bare_request (world_at 0)
       = (Ok (RFrequencyChanged (Fin 0.167) (Fin 0.167) (Fin (1 / 0.167))
                text), world_at 0).
Proof.
  assert (Hok : config_ok main_server).
  { exists 0.167. split; [reflexivity |]. split; [lra | reflexivity]. }
  split; [exact Hok |].
  destruct (@C10_missing_hz SimConnector simulator round_exact utc_stamp
              epoch_seconds (decode_as bare_request) no_numeric_strings
              show_float show_json show_exn ascii_lower 1%nat "request"
              [("command", JStr "Set_Frequency")]%string (world_at 0))
    as (text & Hrun & _).
  - reflexivity.
  - exists "Set_Frequency"%string. now split.
  - reflexivity.
  - exact Hok.
  - exists text. exact Hrun.
Defined.

(** ** Further runs *)

Definition one_hertz_request : json :=
  JObj [("command", JStr "set_frequency"); ("hz", JFloat (Fin 1))]%string.

Definition status_request : json := JObj [("command", JStr "status")]%string.

Definition unknown_scenario_request : json :=
  JObj [("command", JStr "set_scenario"); ("scenario", JStr "panic")]%string.

Definition one_hertz_world : @world SimConnector :=
  World (set_stream_interval (Fin 1 / Fin 1)%pf
           (set_stream_frequency (Fin 1) main_server))
    (set_current_time (Fin 0) sensors_init) [] 0.

(** The scenario of the specification: [set_frequency] with [hz = 1.0] on
    the server of [main] makes the interval exactly 1.0, and a [status]
    request that follows reports the new frequency. *)
Example set_frequency_one_hertz :
  dispatch one_hertz_request (world_at 0)
  = (Ok (RFrequencyChanged (Fin 0.167) (Fin 1) (Fin 1 / Fin 1)%pf
           "Streaming frequency changed to <number>Hz"),
     one_hertz_world)
  /\ stream_interval (srv one_hertz_world) = Fin 1
  /\ dispatch status_request one_hertz_world
     = (Ok (RStatus false (Fin 0) 0 (Fin 1) 0), one_hertz_world).
Proof.
  split; [| split].
  - unfold dispatch.
    apply (dispatch_set_frequency round_exact utc_stamp epoch_seconds
             (decode_as one_hertz_request) no_numeric_strings show_float
             show_json show_exn ascii_lower 1%nat "request"
             [("command", JStr "set_frequency"); ("hz", JFloat (Fin 1))]%string);
      [reflexivity | exists "set_frequency"%string; now split |].
    apply (set_frequency_accepted no_numeric_strings show_float show_json
             [("command", JStr "set_frequency"); ("hz", JFloat (Fin 1))]%string
             (world_at 0) (Fin 1)); [reflexivity |].
    cbn. rewrite (proj2 (Rltb_false 1 0.1)) by lra.
    rewrite (proj2 (Rltb_false 50 1)) by lra. reflexivity.
  - cbn. f_equal. lra.
  - reflexivity.
Qed.

Lemma hr_history_window_witness :
  reachable draw_mean (after draw_mean CallGetHr sensors_init)
  /\ (length (_hr_history (after draw_mean CallGetHr sensors_init)) <= 20)%nat.
Proof.
  assert (Hr : reachable draw_mean (after draw_mean CallGetHr sensors_init))
    by repeat constructor.
  split; [exact Hr |].
  exact (proj1 (hr_history_window draw_mean _ Hr)).
Defined.

Lemma unknown_scenario_witness :
  ~ In "panic"%string valid_scenarios
  /\ dispatch unknown_scenario_request (world_at 0)
     = (Ok (RError "Invalid scenario: panic" None
              (Some ["baseline"; "stress_buildup"; "recovery"; "mixed"]%string)
              None), world_at 0).
Proof.
  assert (Hbad : ~ In "panic"%string valid_scenarios).
  { cbn. intros [E | [E | [E | [E | []]]]]; discriminate E. }
  split; [exact Hbad |].
  apply (@unknown_scenario_rejected SimConnector simulator round_exact
           utc_stamp epoch_seconds (decode_as unknown_scenario_request)
           no_numeric_strings show_float show_json show_exn ascii_lower
           1%nat "request"
           [("command", JStr "set_scenario"); ("scenario", JStr "panic")]%string
           "panic"%string (world_at 0)).
  - reflexivity.
  - exists "set_scenario"%string. now split.
  - reflexivity.
  - exact Hbad.
Defined.

Lemma set_frequency_numbers_witness :
  PInf <> NaN
  /\ @handle_set_frequency SimConnector no_numeric_strings show_float
       show_json
       (JObj [("command", JStr "set_frequency"); ("hz", JFloat PInf)]%string)
       (world_at 0)
     = (Ok (RError
              "Invalid frequency: infHz. Must be between 0.1 and 50.0 Hz"
              (Some (Fin 0.167)) None None), world_at 0).
Proof.
  assert (Hnum : PInf <> NaN) by discriminate.
  split; [exact Hnum |].
  apply (@set_frequency_validates_numbers SimConnector no_numeric_strings
           show_float show_json
           [("command", JStr "set_frequency"); ("hz", JFloat PInf)]%string
           (world_at 0) PInf eq_refl Hnum).
  intros (r & E & _). discriminate E.
Defined.

Lemma sim_tick_outside_window_witness :
  exists sample w',
    @generate_biofeedback_sample SimConnector simulator round_exact utc_stamp
      (world_at 0)
    = (Ok sample, w')
    /\ _current_time (sens w') = (Fin 0 + Fin (1 / 0.167))%pf
    /\ scenario sample = "mixed"%string.
Proof.
  destruct (sim_tick_outside_window draw_mean round_exact utc_stamp
              (world_at 0) 0)
    as (sample & w' & Hrun & Htime & Hsc & _);
    [reflexivity | reflexivity | lra | left; lra | constructor |].
  exists sample, w'. now repeat split.
Defined.

(** ** sensors.py at concrete inputs *)

Definition steady_beats : sensors :=
  set_hr_history [Fin 70; Fin 70; Fin 70] sensors_init.

Definition negative_time_state : sensors :=
  set_current_time (Fin (-100))
    (set_scenario_global "stress_buildup" sensors_init).

Lemma clamp_cases_witness :
  0 <= 1 /\ clamp (Fin 2) (Fin 0) (Fin 1) = Fin 1.
Proof.
  assert (Hle : 0 <= 1) by lra.
  split; [exact Hle |].
  destruct (clamp_cases 2 0 1 Hle) as (_ & _ & Hhigh & _).
  apply Hhigh. lra.
Defined.

Lemma stress_index_monotone_witness :
  exists v1 v2,
    compute_stress_index (Fin 70) (Fin 2) (Some (Fin 80))
      (Fin 0.5) (Fin 0.3) (Fin 0.2) sensors_init = (Ok (Fin v1), sensors_init)
    /\ compute_stress_index (Fin 120) (Fin 6) (Some (Fin 30))
         (Fin 0.5) (Fin 0.3) (Fin 0.2) sensors_init
       = (Ok (Fin v2), sensors_init)
    /\ v1 <= v2.
Proof.
  apply (stress_index_monotone 70 120 2 6 80 30 0.5 0.3 0.2 sensors_init);
    lra.
Defined.


Lemma get_hrv_steady_witness :
  get_hrv steady_beats = (Ok (Fin 10), steady_beats).
Proof.
  apply (get_hrv_steady steady_beats [70; 70; 70]).
  - reflexivity.
  - repeat constructor; lra.
  - right. split; [cbn; lia |]. exists 70. repeat constructor.
Defined.

Lemma get_hr_slides_window_witness :
  exists v s',
    get_hr draw_mean sensors_init = (Ok (Fin v), s')
    /\ _hr_history s' = [Fin v].
Proof.
  destruct (get_hr_slides_window draw_mean sensors_init 0 eq_refl)
    as (v & s' & Hrun & Hhist & _); [lra | cbn; lia |].
  exists v, s'. split; [exact Hrun | exact Hhist].
Defined.

Lemma protocol_phases_witness :
  phase_flags (set_current_time (Fin 200) sensors_init) = (false, true, false).
Proof.
  destruct (protocol_phases (set_current_time (Fin 200) sensors_init) 200
              eq_refl) as (_ & _ & Hwindow & _).
  apply Hwindow. lra.
Defined.

Lemma stress_buildup_before_time_zero_witness :
  get_hr draw_mean negative_time_state
  = (Raise ValueError, negative_time_state).
Proof.
  destruct (stress_buildup_before_time_zero draw_mean negative_time_state
              (-100) eq_refl eq_refl) as [Hhr _].
  apply Hhr. lra.
Defined.

(** ** The server at concrete inputs *)

(** The server of [main] while it streams to one subscriber, socket 1. *)
Definition streaming_server : @server SimConnector :=
  Server "localhost" 8765%Z (Fin 0.167) (Fin (1 / 0.167)) (MkSimConnector true)
    {[1%nat]} 1 [] true None.

Definition streaming_world (t : R) : @world SimConnector :=
  World streaming_server (set_current_time (Fin t) sensors_init) [] 0.

(** The server of [main] after [close] on its simulator. *)
Definition closed_world : @world SimConnector :=
  World (set_connector (@close SimConnector simulator (MkSimConnector true))
           main_server)
    sensors_init [] 0.

(** A decoder for requests that carry nothing but a command: the text is
    the command. *)
Definition decode_command : string -> result json :=
  fun m => Ok (JObj [("command"%string, JStr m)]).

Definition request_by_name (name : string) (w : @world SimConnector)
  : result response * @world SimConnector :=
  @handle_client_message SimConnector simulator round_exact utc_stamp
    epoch_seconds decode_command no_numeric_strings show_float show_json
    show_exn ascii_lower 1%nat name w.

Definition once_request : json := JObj [("command", JStr "once")]%string.

Definition recovery_request : json :=
  JObj [("command", JStr "set_scenario"); ("scenario", JStr "recovery")]%string.

Lemma tick_never_computes_baseline_witness :
  _baseline_computed
    (sens (snd (@generate_biofeedback_sample SimConnector simulator
                  round_exact utc_stamp (world_at 0)))) = false.
Proof.
  destruct (sim_read_ok draw_mean (sens (world_at 0)) 0 eq_refl)
    as (v & s1 & Hread & _ & _ & Hbase & _); [lra | constructor |].
  destruct (@tick_never_computes_baseline SimConnector simulator round_exact
              utc_stamp (world_at 0) (Ok v) (MkSimConnector true) s1 Hread)
    as (Hflag & _).
  rewrite Hflag. unfold baseline_state in Hbase. now injection Hbase.
Defined.

Lemma tick_failure_ends_loop_witness :
  exists w',
    @broadcast_to_subscribers SimConnector simulator round_exact utc_stamp
      sends_succeed 5 (streaming_world 180)
    = (Raise TypeError, w').
Proof.
  destruct (sim_tick_in_window_step draw_mean round_exact utc_stamp
              (streaming_world 180) 180)
    as (w' & Htick & _); [reflexivity | reflexivity | lra | reflexivity
                         | constructor |].
  exists w'.
  apply (@tick_failure_ends_loop SimConnector simulator round_exact utc_stamp
           sends_succeed 4 (streaming_world 180) w' TypeError).
  - reflexivity.
  - apply non_empty_singleton_L.
  - exact Htick.
Defined.

Lemma busy_cycle_witness :
  fst (@broadcast_cycle SimConnector simulator round_exact utc_stamp
         sends_succeed (streaming_world 0)) = Ok tt.
Proof.
  destruct (sim_tick_outside_window_step draw_mean round_exact utc_stamp
              (streaming_world 0) 0)
    as (sample & w1 & Htick & _); [reflexivity | reflexivity | lra
                                  | left; lra | constructor |].
  destruct (@busy_cycle SimConnector simulator round_exact utc_stamp
              sends_succeed (streaming_world 0) w1 sample)
    as (Hcycle & _).
  - apply non_empty_singleton_L.
  - exact Htick.
  - now rewrite Hcycle.
Defined.

Lemma subscribe_unsubscribe_witness :
  subscribers
    (srv (snd (request_by_name "UNSUBSCRIBE"
                 (snd (request_by_name "Subscribe" (world_at 0))))))
  = subscribers (srv (world_at 0)).
Proof.
  destruct (@subscribe_unsubscribe SimConnector simulator round_exact
              utc_stamp epoch_seconds decode_command no_numeric_strings
              show_float show_json show_exn ascii_lower
              1%nat "Subscribe" "UNSUBSCRIBE"
              [("command", JStr "Subscribe")]%string
              [("command", JStr "UNSUBSCRIBE")]%string (world_at 0))
    as (_ & _ & Hback & _).
  - split; [reflexivity |]. exists "Subscribe"%string. now split.
  - split; [reflexivity |]. exists "UNSUBSCRIBE"%string. now split.
  - apply Hback. apply not_elem_of_empty.
Defined.

Lemma status_reports_witness :
  fst (request_by_name "status" (world_at 0))
  = Ok (RStatus false (Fin 0) 0 (Fin 0.167) 0).
Proof.
  destruct (@status_reports SimConnector simulator round_exact utc_stamp
              epoch_seconds decode_command no_numeric_strings show_float
              show_json show_exn ascii_lower 1%nat "status"
              [("command", JStr "status")]%string (world_at 0))
    as (uptime & reads & Hrun & Huptime).
  - split; [reflexivity |]. exists "status"%string. now split.
  - unfold request_by_name. rewrite Hrun, (Huptime eq_refl). reflexivity.
Defined.

Lemma command_case_insensitive_witness :
  request_by_name "STATUS" (world_at 0) = request_by_name "status" (world_at 0).
Proof.
  apply (@command_case_insensitive SimConnector simulator round_exact
           utc_stamp epoch_seconds decode_command no_numeric_strings
           show_float show_json show_exn ascii_lower
           1%nat "STATUS" "status" "STATUS"
           "status" [] (world_at 0)); reflexivity.
Defined.

Lemma valid_scenario_accepted_witness :
  In "recovery"%string valid_scenarios
  /\ dispatch recovery_request (world_at 0)
     = (Ok (RScenarioChanged "recovery"
              "Simulation scenario changed to recovery"),
        World main_server
          (set_scenario_global "recovery"
             (set_current_time (Fin 0) sensors_init)) [] 0).
Proof.
  assert (Hin : In "recovery"%string valid_scenarios) by (cbn; tauto).
  split; [exact Hin |].
  apply (@valid_scenario_accepted SimConnector simulator round_exact
           utc_stamp epoch_seconds (decode_as recovery_request)
           no_numeric_strings show_float show_json show_exn ascii_lower
           1%nat "request"
           [("command", JStr "set_scenario");
            ("scenario", JStr "recovery")]%string
           "recovery"%string (world_at 0)).
  - split; [reflexivity |]. exists "set_scenario"%string. now split.
  - reflexivity.
  - exact Hin.
Defined.

Lemma once_command_witness :
  fst (dispatch once_request (world_at 180))
  = Ok (error_message "Server error: <exception>").
Proof.
  destruct (sim_tick_in_window_step draw_mean round_exact utc_stamp
              (world_at 180) 180)
    as (w' & Htick & _); [reflexivity | reflexivity | lra | reflexivity
                         | constructor |].
  unfold dispatch.
  rewrite (@once_command SimConnector simulator round_exact utc_stamp
             epoch_seconds (decode_as once_request) no_numeric_strings
             show_float show_json show_exn ascii_lower 1%nat "request"
             [("command", JStr "once")]%string (world_at 180)).
  - unfold simulator. rewrite Htick. reflexivity.
  - split; [reflexivity |]. exists "once"%string. now split.
Defined.

Lemma requests_keep_config_or_nan_witness :
  config_ok_or_nan (srv (world_at 0))
  /\ config_ok_or_nan (srv (snd (dispatch nan_request (world_at 0)))).
Proof.
  assert (Hok : config_ok_or_nan (srv (world_at 0))).
  { left. exists 0.167. repeat split; [lra | lra]. }
  split; [exact Hok |].
  exact (@requests_keep_config_or_nan SimConnector simulator round_exact
           utc_stamp epoch_seconds (decode_as nan_request)
           no_numeric_strings show_float show_json show_exn ascii_lower
           1%nat "request"
           (world_at 0) Hok).
Defined.

Lemma sim_clock_stuck_witness :
  _current_time
    (sens (ticks draw_mean round_exact utc_stamp 3 (world_at 180)))
  = Fin 180
  /\ length (_baseline_samples
               (sens (ticks draw_mean round_exact utc_stamp 3
                        (world_at 180)))) = 3%nat.
Proof.
  destruct (sim_clock_stuck_in_baseline_window draw_mean round_exact
              utc_stamp 3 (world_at 180) 180)
    as (Htime & _ & _ & Hsamples & _);
    [reflexivity | reflexivity | lra | reflexivity | constructor |].
  split; [exact Htime | exact Hsamples].
Defined.

Lemma sim_ticks_outside_window_witness :
  _current_time (sens (ticks draw_mean round_exact utc_stamp 2 (world_at 0)))
  = (Fin 0 + Fin (1 / 0.167) + Fin (1 / 0.167))%pf
  /\ length (session_data
               (srv (ticks draw_mean round_exact utc_stamp 2 (world_at 0))))
     = 2%nat.
Proof.
  destruct (sim_ticks_outside_window draw_mean round_exact utc_stamp 2
              (world_at 0))
    as (Htime & _ & Hlog & _).
  - reflexivity.
  - intros k Hk. destruct k as [| [| k]]; [| | lia].
    + exists 0. split; [reflexivity | lra].
    + exists (0 + 1 / 0.167). split; [reflexivity | lra].
  - constructor.
  - split; [exact Htime | exact Hlog].
Defined.

Lemma closed_simulator_tick_witness :
  exists w',
    @generate_biofeedback_sample SimConnector simulator round_exact utc_stamp
      closed_world
    = (Raise RuntimeError, w')
    /\ sens w' = sens closed_world.
Proof.
  destruct (closed_simulator_tick draw_mean round_exact utc_stamp
              closed_world (MkSimConnector true) eq_refl)
    as (_ & w' & Htick & _ & Hsens & _).
  exists w'. split; [exact Htick | exact Hsens].
Defined.

(** A decoder that gives up on its text as [json.loads] does on one nested
    too deep. *)
Definition decode_too_deep : string -> result json :=
  fun _ => Raise RecursionError.

Lemma malformed_request_witness :
  @handle_client_message SimConnector simulator round_exact utc_stamp
    epoch_seconds decode_too_deep no_numeric_strings show_float show_json
    show_exn ascii_lower 1%nat "[[[[" (world_at 0)
  = (Ok (error_message "Server error: <exception>"), world_at 0).
Proof.
  destruct (@malformed_request_changes_nothing SimConnector simulator
              round_exact utc_stamp epoch_seconds decode_too_deep
              no_numeric_strings show_float show_json show_exn ascii_lower
              1%nat "[[[[" (world_at 0)) as (_ & Hother & _).
  apply (Hother RecursionError); [reflexivity | discriminate].
Defined.
